(** * A shallow embedding of the static analyzer [ai_code_agent.analyzer]

    The development follows [src/ai_code_agent/analyzer.py].  The class
    [CodeAnalyzer] keeps one mutable dictionary [self.results]; every method
    of the class is rendered as a function that takes the [results] record
    and returns the updated one.  Methods that print or that can raise
    ([run], [_analyze_file], [_detect_duplicates], [_print_summary]) live in
    a small
    state-and-exception monad whose state also carries the lines printed on
    standard output.

    Python's [str] is rendered as [string]: one character of a [string] stands
    for one code point (the model covers texts whose code points are below
    256).  Python's insertion-ordered [dict] is an association list with
    unique keys, updated in place or extended at its end.

    The functions of the Python library that the analyzer calls on the
    operating system and on the parser ([os.path.isfile], [os.path.isdir] and
    [os.walk] through the directory tree they see, [open(..).read()],
    [ast.parse], [ast.get_docstring]) are variables of the section
    [Analyzer].  [ast.parse] returns a tree, raises [SyntaxError], or raises
    another exception; the analyzer catches the second and lets the third
    through. *)

From Stdlib Require Import String Ascii List Arith Lia Bool Permutation.
From Stdlib Require Import DecimalString.
Import ListNotations.

Open Scope string_scope.
Open Scope list_scope.

Infix "+++" := String.append (right associativity, at level 60).

(** ** Python strings *)

Module PyStr.

(** [str(n)] for a natural number. *)
Definition str_of_nat (n : nat) : string :=
  NilZero.string_of_uint (Nat.to_uint n).

(** [s.endswith(suffix)] *)
Fixpoint endswith (s suffix : string) : bool :=
  String.eqb s suffix
  || match s with
     | EmptyString => false
     | String _ s' => endswith s' suffix
     end.

(** [sub in s] *)
Fixpoint contains (sub s : string) : bool :=
  String.prefix sub s
  || match s with
     | EmptyString => false
     | String _ s' => contains sub s'
     end.

(** [s.startswith(p)] *)
Definition startswith (s p : string) : bool := String.prefix p s.

(** [s.split(sep)[0]] for a one-character separator. *)
Fixpoint split_head (sep : ascii) (s : string) : string :=
  match s with
  | EmptyString => EmptyString
  | String c s' =>
      if Ascii.eqb c sep then EmptyString else String c (split_head sep s')
  end.

(** [sep.join(l)] *)
Definition join (sep : string) (l : list string) : string :=
  String.concat sep l.

(** The character class [[A-Za-z0-9_]] of a [str] pattern. *)
Definition is_word_char (c : ascii) : bool :=
  let n := nat_of_ascii c in
  (((65 <=? n) && (n <=? 90))
   || ((97 <=? n) && (n <=? 122))
   || ((48 <=? n) && (n <=? 57))
   || (n =? 95))%nat.

(** [re.search(r",[A-Za-z0-9_]", s)] is not [None]. *)
Fixpoint search_comma_word (s : string) : bool :=
  match s with
  | EmptyString => false
  | String c s' =>
      (Ascii.eqb c ","
       && match s' with
          | String d _ => is_word_char d
          | EmptyString => false
          end)
      || search_comma_word s'
  end.

(** The line boundaries of [str.splitlines] below code point 256:
    LF, VT, FF, CR, FS, GS, RS and NEL (CR LF counts as one boundary). *)
Definition is_linebreak (c : ascii) : bool :=
  let n := nat_of_ascii c in
  (((10 <=? n) && (n <=? 13)) || ((28 <=? n) && (n <=? 30))
   || (n =? 133))%nat.

Definition is_cr (c : ascii) : bool := (nat_of_ascii c =? 13)%nat.
Definition is_lf (c : ascii) : bool := (nat_of_ascii c =? 10)%nat.

(** [splitlines_from cur s]: the lines of [cur ++ s] when [cur] holds the
    characters of the current line read so far. *)
Fixpoint splitlines_from (cur s : string) : list string :=
  match s with
  | EmptyString =>
      match cur with EmptyString => [] | _ => [cur] end
  | String c s' =>
      if is_linebreak c then
        match s' with
        | String d s'' =>
            if is_cr c && is_lf d
            then cur :: splitlines_from EmptyString s''
            else cur :: splitlines_from EmptyString s'
        | EmptyString => [cur]
        end
      else splitlines_from (cur +++ String c EmptyString) s'
  end.

(** [s.splitlines()] *)
Definition splitlines (s : string) : list string :=
  splitlines_from EmptyString s.

(** [enumerate(l, start)] *)
Fixpoint enumerate {A : Type} (l : list A) (start : nat) : list (nat * A) :=
  match l with
  | [] => []
  | x :: l' => (start, x) :: enumerate l' (S start)
  end.

(** Index of the last occurrence of character [c] in [s]. *)
Fixpoint rfind_char (c : ascii) (s : string) : option nat :=
  match s with
  | EmptyString => None
  | String d s' =>
      match rfind_char c s' with
      | Some i => Some (S i)
      | None => if Ascii.eqb d c then Some 0 else None
      end
  end.

(** Some character of [s] differs from [c]. *)
Fixpoint has_other_char (c : ascii) (s : string) : bool :=
  match s with
  | EmptyString => false
  | String d s' => negb (Ascii.eqb d c) || has_other_char c s'
  end.

End PyStr.

(** ** [os.path] on POSIX paths *)

Module OsPath.

(** [os.path.join(a, b)] *)
Definition join (a b : string) : string :=
  if PyStr.startswith b "/" then b
  else if String.eqb a "" || PyStr.endswith a "/" then a +++ b
  else a +++ "/" +++ b.

(** [os.path.basename(p)]: what follows the last slash. *)
Definition basename (p : string) : string :=
  match PyStr.rfind_char "/" p with
  | Some i => String.substring (S i) (String.length p - S i) p
  | None => p
  end.

(** [os.path.splitext(p)[0]] for a [p] without slash: the extension starts
    at the last dot, unless only dots come before it. *)
Definition splitext_root (p : string) : string :=
  match PyStr.rfind_char "." p with
  | Some d =>
      if PyStr.has_other_char "." (String.substring 0 d p)
      then String.substring 0 d p
      else p
  | None => p
  end.

End OsPath.

(** ** Insertion-ordered dictionaries *)

Section Dict.
Context {K V : Type}.
Variable K_eq_dec : forall x y : K, {x = y} + {x <> y}.

Definition dict := list (K * V).

(** [d.get(k)] *)
Fixpoint dict_get (d : dict) (k : K) : option V :=
  match d with
  | [] => None
  | (k', v) :: d' => if K_eq_dec k k' then Some v else dict_get d' k
  end.

(** [d[k] = v]: an existing key keeps its position, a new key goes last. *)
Fixpoint dict_set (d : dict) (k : K) (v : V) : dict :=
  match d with
  | [] => [(k, v)]
  | (k', v') :: d' =>
      if K_eq_dec k k' then (k', v) :: d' else (k', v') :: dict_set d' k v
  end.

Definition dict_keys (d : dict) : list K := map fst d.

End Dict.

Arguments dict : clear implicits.

Definition lines_eq_dec : forall x y : list string, {x = y} + {x <> y} :=
  list_eq_dec string_dec.

(** [seen[k].append(p)] on a [defaultdict(list)]. *)
Definition defaultdict_append (seen : dict (list string) (list string))
    (k : list string) (p : string) : dict (list string) (list string) :=
  match dict_get lines_eq_dec seen k with
  | Some members => dict_set lines_eq_dec seen k (members ++ [p])
  | None => dict_set lines_eq_dec seen k [p]
  end.

(** ** Syntax trees of the [ast] module

    The analyzer never looks at a field by name except [lineno], [name],
    [names] and [module]; everything else goes through [ast.walk],
    [ast.iter_child_nodes] and [isinstance].  A node is therefore its class,
    the attributes the analyzer reads, and the sequence of its child nodes in
    the order [ast.iter_child_nodes] yields them. *)

Inductive ast_class : Type :=
| Module_ | FunctionDef | AsyncFunctionDef | ClassDef
| If | For | AsyncFor | While | With | AsyncWith
| Try | TryStar | ExceptHandler
| BoolOp | And | Or | IfExp
| Import | ImportFrom | alias
| Expr | Constant | Name
| OtherClass (class_name : string).

Definition ast_class_eq_dec : forall x y : ast_class, {x = y} + {x <> y}.
Proof. decide equality. apply string_dec. Defined.

(** [node.__class__.__name__] *)
Definition class_name (c : ast_class) : string :=
  match c with
  | Module_ => "Module" | FunctionDef => "FunctionDef"
  | AsyncFunctionDef => "AsyncFunctionDef" | ClassDef => "ClassDef"
  | If => "If" | For => "For" | AsyncFor => "AsyncFor" | While => "While"
  | With => "With" | AsyncWith => "AsyncWith"
  | Try => "Try" | TryStar => "TryStar" | ExceptHandler => "ExceptHandler"
  | BoolOp => "BoolOp" | And => "And" | Or => "Or" | IfExp => "IfExp"
  | Import => "Import" | ImportFrom => "ImportFrom" | alias => "alias"
  | Expr => "Expr" | Constant => "Constant" | Name => "Name"
  | OtherClass s => s
  end.

Record attributes : Type := mkAttrs {
  lineno : nat;              (* line of a statement or expression *)
  name : string;             (* [name] of a definition or of an alias *)
  module : option string     (* [module] of an import-from, [None] if absent *)
}.

#[local] Unset Elimination Schemes.
Inductive node : Type :=
| Node (cls : ast_class) (attrs : attributes) (children : list node).
#[local] Set Elimination Schemes.

Definition node_class (n : node) : ast_class :=
  match n with Node c _ _ => c end.

Definition node_attrs (n : node) : attributes :=
  match n with Node _ a _ => a end.

(** [ast.iter_child_nodes(n)] *)
Definition iter_child_nodes (n : node) : list node :=
  match n with Node _ _ cs => cs end.

(** [isinstance(n, (c1, ..., ck))] *)
Definition isinstance (n : node) (classes : list ast_class) : bool :=
  if in_dec ast_class_eq_dec (node_class n) classes then true else false.

(** The [names] of an [Import] node: its [alias] children. *)
Definition node_names (n : node) : list node :=
  filter (fun a => isinstance a [alias]) (iter_child_nodes n).

Fixpoint node_size (n : node) : nat :=
  match n with
  | Node _ _ cs => S (list_sum (map node_size cs))
  end.

Definition forest_size (l : list node) : nat := list_sum (map node_size l).

(** [ast.walk]: a queue that starts with the root; each step pops the first
    node, pushes its children at the back, and yields the node.  The fuel is
    the number of steps; [walk] gives one step per node of the tree. *)
Fixpoint walk_queue (fuel : nat) (todo : list node) : list node :=
  match fuel, todo with
  | S fuel', n :: rest => n :: walk_queue fuel' (rest ++ iter_child_nodes n)
  | _, _ => []
  end.

Definition walk (tree : node) : list node :=
  walk_queue (node_size tree) [tree].

(** All nodes of a tree, by structural recursion (root first). *)
Fixpoint subnodes (n : node) : list node :=
  match n with
  | Node _ _ cs => n :: flat_map subnodes cs
  end.

(** The proper descendants of a node. *)
Definition descendants (n : node) : list node :=
  flat_map subnodes (iter_child_nodes n).

(** ** The file system the analyzer sees *)

(** A directory: the names of its non-directory entries and its
    subdirectories, in the order the listing gives them. *)
#[local] Unset Elimination Schemes.
Inductive dirtree : Type :=
| Dir (filenames : list string) (subdirs : list (string * dirtree)).
#[local] Set Elimination Schemes.

(** [os.walk(top)], top-down: one triple [(dirpath, dirnames, filenames)] for
    the directory itself, then the walk of each subdirectory in turn. *)
Fixpoint os_walk (top : string) (d : dirtree)
  : list (string * list string * list string) :=
  match d with
  | Dir fnames subs =>
      (top, map fst subs, fnames)
      :: flat_map
           (fun entry => os_walk (OsPath.join top (fst entry)) (snd entry))
           subs
  end.

(** The outcome of [ast.parse(code)].  Besides [SyntaxError] the parser
    raises other exceptions: [ValueError] for a text that holds a null
    character (before Python 3.12), [RecursionError] or [MemoryError] for a
    text that is nested too deeply. *)
Inductive parse_result : Type :=
| Parsed (tree : node)
| SyntaxError (e : string)    (* [e] is [str] of the exception *)
| ParseRaised (e : string).   (* an exception that is no [SyntaxError] *)

(** ** [self.results] *)

Record results : Type := mkResults {
  files : list string;
  errors : list string;
  warnings : list string;
  complexity : dict string nat;
  missing_docstrings : list string;
  duplicates : list string;
  import_cycles : list string;
  pep8 : list string;
  imports_graph : option (dict string (list string))  (* key set on demand *)
}.

(** The dictionary built by [__init__]. *)
Definition init_results : results :=
  mkResults [] [] [] [] [] [] [] [] None.

Definition append_files (x : string) (r : results) : results :=
  mkResults (files r ++ [x]) (errors r) (warnings r) (complexity r)
    (missing_docstrings r) (duplicates r) (import_cycles r) (pep8 r)
    (imports_graph r).

Definition append_errors (x : string) (r : results) : results :=
  mkResults (files r) (errors r ++ [x]) (warnings r) (complexity r)
    (missing_docstrings r) (duplicates r) (import_cycles r) (pep8 r)
    (imports_graph r).

Definition append_warnings (x : string) (r : results) : results :=
  mkResults (files r) (errors r) (warnings r ++ [x]) (complexity r)
    (missing_docstrings r) (duplicates r) (import_cycles r) (pep8 r)
    (imports_graph r).

Definition set_complexity (k : string) (v : nat) (r : results) : results :=
  mkResults (files r) (errors r) (warnings r)
    (dict_set string_dec (complexity r) k v)
    (missing_docstrings r) (duplicates r) (import_cycles r) (pep8 r)
    (imports_graph r).

Definition append_missing_docstrings (x : string) (r : results) : results :=
  mkResults (files r) (errors r) (warnings r) (complexity r)
    (missing_docstrings r ++ [x]) (duplicates r) (import_cycles r) (pep8 r)
    (imports_graph r).

Definition append_duplicates (x : string) (r : results) : results :=
  mkResults (files r) (errors r) (warnings r) (complexity r)
    (missing_docstrings r) (duplicates r ++ [x]) (import_cycles r) (pep8 r)
    (imports_graph r).

Definition extend_import_cycles (xs : list string) (r : results) : results :=
  mkResults (files r) (errors r) (warnings r) (complexity r)
    (missing_docstrings r) (duplicates r) (import_cycles r ++ xs) (pep8 r)
    (imports_graph r).

Definition append_pep8 (x : string) (r : results) : results :=
  mkResults (files r) (errors r) (warnings r) (complexity r)
    (missing_docstrings r) (duplicates r) (import_cycles r) (pep8 r ++ [x])
    (imports_graph r).

(** [results.get("imports_graph", {})] *)
Definition get_imports_graph (r : results) : dict string (list string) :=
  match imports_graph r with
  | Some g => g
  | None => []
  end.

(** [results.setdefault("imports_graph", {})[k] = v] *)
Definition set_imports_graph (k : string) (v : list string) (r : results)
  : results :=
  mkResults (files r) (errors r) (warnings r) (complexity r)
    (missing_docstrings r) (duplicates r) (import_cycles r) (pep8 r)
    (Some (dict_set string_dec (get_imports_graph r) k v)).

(** [for x in l: body], threading the state. *)
Definition for_each {S A : Type} (l : list A) (body : A -> S -> S) (s : S)
  : S :=
  fold_left (fun s x => body x s) l s.

(** ** State, output and exceptions *)

(** The exceptions that leave a method of the analyzer: the one that
    [open(...)] or [read()] raises on a file, and the one that [ast.parse]
    raises when it is no [SyntaxError]. *)
Inductive exn : Type :=
| ReadError (filepath : string)
| ParseFailure (e : string).

Inductive outcome (A : Type) : Type :=
| Returned (a : A)
| Raised (e : exn).
Arguments Returned {A} a.
Arguments Raised {A} e.

Record state : Type := mkState {
  res : results;            (* [self.results] *)
  stdout : list string      (* one entry per call of [print] *)
}.

Definition M (A : Type) : Type := state -> outcome A * state.

Definition ret {A} (a : A) : M A := fun st => (Returned a, st).

Definition bind {A B} (m : M A) (k : A -> M B) : M B :=
  fun st =>
    match m st with
    | (Returned a, st') => k a st'
    | (Raised e, st') => (Raised e, st')
    end.

Definition raise {A} (e : exn) : M A := fun st => (Raised e, st).

Definition print (line : string) : M unit :=
  fun st => (Returned tt, mkState (res st) (stdout st ++ [line])).

(** Run a method that only updates [self.results]. *)
Definition update (f : results -> results) : M unit :=
  fun st => (Returned tt, mkState (f (res st)) (stdout st)).

Definition get_results : M results := fun st => (Returned (res st), st).

Declare Scope analyzer_scope.
Delimit Scope analyzer_scope with an.
Notation "x <- m ;; k" := (bind m (fun x => k))
  (at level 61, m at next level, right associativity) : analyzer_scope.
Notation "m ;;; k" := (bind m (fun _ => k))
  (at level 61, right associativity) : analyzer_scope.

(** [for x in l: body x] in the monad; a raise leaves the loop. *)
Fixpoint for_M {A} (l : list A) (body : A -> M unit) : M unit :=
  match l with
  | [] => ret tt
  | x :: l' => bind (body x) (fun _ => for_M l' body)
  end.

(** [if l: print(title); for x in l: print("  -", x)] *)
Definition print_section (title : string) (l : list string) : M unit :=
  match l with
  | [] => ret tt
  | _ => bind (print title) (fun _ => for_M l (fun x => print ("  - " +++ x)))
  end.

Definition newline : string := String (ascii_of_nat 10) EmptyString.
Definition tab : string := String (ascii_of_nat 9) EmptyString.

(** ** The class [CodeAnalyzer] *)

Section Analyzer.

(** [os.path.isfile] *)
Variable os_path_isfile : string -> bool.
(** The directory found at a path, if the path is one: [os.path.isdir]
    holds exactly there, and [os.walk] explores that directory. *)
Variable os_dir : string -> option dirtree.
(** [open(p, "r", encoding="utf-8").read()]; [None] when it raises. *)
Variable open_read : string -> option string.
(** [ast.parse] *)
Variable ast_parse : string -> parse_result.
(** [ast.get_docstring] *)
Variable ast_get_docstring : node -> option string.

Definition os_path_isdir (p : string) : bool :=
  match os_dir p with Some _ => true | None => false end.

(** *** Docstring analysis *)

Definition missing_docstring_msg (filepath : string) (n : node) : string :=
  filepath +++ ":" +++ PyStr.str_of_nat (lineno (node_attrs n))
  +++ " -> Missing docstring in " +++ class_name (node_class n)
  +++ " '" +++ name (node_attrs n) +++ "'".

Definition _analyze_docstrings (filepath : string) (tree : node)
  : results -> results :=
  for_each (walk tree) (fun n r =>
    if isinstance n [FunctionDef; AsyncFunctionDef; ClassDef] then
      match ast_get_docstring n with
      | None => append_missing_docstrings (missing_docstring_msg filepath n) r
      | Some _ => r
      end
    else r).

(** *** Complexity *)

Definition decision_classes : list ast_class :=
  [If; For; While; And; Or; Try; With; ExceptHandler].

Definition complexity_of (tree : node) : nat :=
  for_each (walk tree) (fun n complexity =>
    if isinstance n decision_classes then complexity + 1 else complexity) 1.

Definition complexity_msg (filepath : string) (complexity : nat) : string :=
  filepath +++ " has high cyclomatic complexity: "
  +++ PyStr.str_of_nat complexity.

Definition _compute_complexity (filepath : string) (tree : node)
    (r : results) : results :=
  let complexity := complexity_of tree in
  let r := set_complexity filepath complexity r in
  if (12 <? complexity)%nat
  then append_warnings (complexity_msg filepath complexity) r
  else r.

(** *** Structural analysis *)

Fixpoint _nesting_depth (n : node) (current : nat) : nat :=
  match n with
  | Node c _ cs =>
      if ast_class_eq_dec c If then
        list_max
          (current :: map (fun child => _nesting_depth child (current + 1)) cs)
      else current
  end.

Definition nesting_msg (filepath : string) (n : node) (depth : nat) : string :=
  filepath +++ ":" +++ PyStr.str_of_nat (lineno (node_attrs n))
  +++ " -> Deep nesting (" +++ PyStr.str_of_nat depth +++ " levels)".

Definition _analyze_structure (filepath : string) (tree : node)
  : results -> results :=
  for_each (walk tree) (fun n r =>
    if isinstance n [If] then
      let depth := _nesting_depth n 0 in
      if (4 <? depth)%nat
      then append_warnings (nesting_msg filepath n depth) r
      else r
    else r).

(** *** PEP8 checker *)

Definition line_prefix (filepath : string) (i : nat) : string :=
  filepath +++ ":" +++ PyStr.str_of_nat i +++ " -> ".

Definition too_long_msg (filepath : string) (i len : nat) : string :=
  line_prefix filepath i
  +++ "Line too long (" +++ PyStr.str_of_nat len +++ " > 120)".

Definition trailing_msg (filepath : string) (i : nat) : string :=
  line_prefix filepath i +++ "Trailing whitespace".

Definition comma_msg (filepath : string) (i : nat) : string :=
  line_prefix filepath i +++ "Missing space after comma".

Definition tab_msg (filepath : string) (i : nat) : string :=
  line_prefix filepath i +++ "Tab indent found (use 4 spaces)".

(** The body of the loop of [_check_pep8] for line number [i]. *)
Definition check_line (filepath : string) (il : nat * string) (r : results)
  : results :=
  let i := fst il in
  let line := snd il in
  let r :=
    if (120 <? String.length line)%nat
    then append_pep8 (too_long_msg filepath i (String.length line)) r
    else r in
  let r :=
    if PyStr.endswith line " "
    then append_pep8 (trailing_msg filepath i) r
    else r in
  let r :=
    if PyStr.search_comma_word line
    then append_pep8 (comma_msg filepath i) r
    else r in
  if PyStr.contains tab line
  then append_pep8 (tab_msg filepath i) r
  else r.

Definition _check_pep8 (filepath code : string) : results -> results :=
  for_each (PyStr.enumerate (PyStr.splitlines code) 1) (check_line filepath).

(** *** Import registration *)

(** What one node of the walk adds to [imports]. *)
Definition node_imports (n : node) : list string :=
  if isinstance n [Import] then
    map (fun a => PyStr.split_head "." (name (node_attrs a))) (node_names n)
  else if isinstance n [ImportFrom] then
    match module (node_attrs n) with
    | Some m =>
        if String.eqb m "" then [] else [PyStr.split_head "." m]
    | None => []
    end
  else [].

Definition imports_of (tree : node) : list string :=
  for_each (walk tree) (fun n imports => imports ++ node_imports n) [].

Definition module_id (filepath : string) : string :=
  OsPath.splitext_root (OsPath.basename filepath).

Definition _register_imports (filepath : string) (tree : node)
    (r : results) : results :=
  let basename := module_id filepath in
  let imports := imports_of tree in
  set_imports_graph basename imports r.

(** *** File analysis *)

Definition cannot_read_msg (filepath : string) : string :=
  "Cannot read file: " +++ filepath.

Definition syntax_error_msg (filepath e : string) : string :=
  "Syntax error in " +++ filepath +++ ": " +++ e.

(** The read is guarded by a bare [except]; the parse by
    [except SyntaxError] alone, so any other exception of [ast.parse] leaves
    the method. *)
Definition _analyze_file (filepath : string) : M unit :=
  (update (append_files filepath) ;;;
   match open_read filepath with
   | None => update (append_errors (cannot_read_msg filepath))
   | Some code =>
       match ast_parse code with
       | SyntaxError e =>
           update (append_errors (syntax_error_msg filepath e))
       | ParseRaised e => raise (ParseFailure e)
       | Parsed tree =>
           update (_analyze_docstrings filepath tree) ;;;
           update (_compute_complexity filepath tree) ;;;
           update (_analyze_structure filepath tree) ;;;
           update (_check_pep8 filepath code) ;;;
           update (_register_imports filepath tree)
       end
   end)%an.

(** *** Import cycle detection *)

Definition graph_get (graph : dict string (list string)) (n : string)
  : list string :=
  match dict_get string_dec graph n with
  | Some l => l
  | None => []
  end.

Definition in_path (n : string) (path : list string) : bool :=
  if in_dec string_dec n path then true else false.

Definition cycle_msg (path : list string) : string :=
  "Cycle detected: " +++ PyStr.join " -> " path.

(** The inner function [dfs]; the reports it appends are threaded through
    [cycles].  [fuel] bounds the number of nested calls; [None] means the
    bound was reached. *)
Fixpoint dfs (fuel : nat) (graph : dict string (list string))
    (n : string) (path : list string) (cycles : list string)
  : option (list string) :=
  match fuel with
  | 0 => None
  | S fuel' =>
      if in_path n path then Some (cycles ++ [cycle_msg (path ++ [n])])
      else
        fold_left
          (fun acc nxt =>
             match acc with
             | Some cycles' => dfs fuel' graph nxt (path ++ [n]) cycles'
             | None => None
             end)
          (graph_get graph n) (Some cycles)
  end.

(** [for mod in graph: dfs(mod, [])] *)
Definition dfs_all (fuel : nat) (graph : dict string (list string))
  : option (list string) :=
  fold_left
    (fun acc m =>
       match acc with
       | Some cycles => dfs fuel graph m [] cycles
       | None => None
       end)
    (dict_keys graph) (Some []).

(** A path never repeats a module and every module on it is a key of the
    graph, so one more nested call than there are keys is always enough
    ([dfs_all_total] below). *)
Definition _detect_import_cycles (r : results) : results :=
  let graph := get_imports_graph r in
  match dfs_all (S (List.length graph)) graph with
  | Some cycles => extend_import_cycles cycles r
  | None => r
  end.

(** *** Duplicate detection *)

Definition signature (code : string) : list string :=
  firstn 10 (PyStr.splitlines code).

(** The first loop of [_detect_duplicates]: it reads every analyzed file
    again, outside any [try]. *)
Fixpoint group_files (paths : list string)
    (seen : dict (list string) (list string))
  : exn + dict (list string) (list string) :=
  match paths with
  | [] => inr seen
  | fpath :: paths' =>
      match open_read fpath with
      | None => inl (ReadError fpath)
      | Some code =>
          group_files paths' (defaultdict_append seen (signature code) fpath)
      end
  end.

Definition duplicate_msg (members : list string) : string :=
  "Possible duplicate code in: " +++ PyStr.join ", " members.

Definition report_group (entry : list string * list string) (r : results)
  : results :=
  if (1 <? List.length (snd entry))%nat
  then append_duplicates (duplicate_msg (snd entry)) r
  else r.

Definition _detect_duplicates : M unit :=
  (r <- get_results ;;
   match group_files (files r) [] with
   | inl e => raise e
   | inr seen => update (for_each seen report_group)
   end)%an.

(** *** Report *)

Definition _print_summary : M unit :=
  (r <- get_results ;;
   print (newline +++ "ANALYSIS SUMMARY") ;;;
   print ("Analyzed files: " +++ PyStr.str_of_nat (List.length (files r))) ;;;
   print_section (newline +++ "Errors:") (errors r) ;;;
   print_section (newline +++ "Warnings:") (warnings r) ;;;
   print_section (newline +++ "Missing docstrings:") (missing_docstrings r) ;;;
   print_section (newline +++ "PEP8 issues:") (pep8 r) ;;;
   print_section (newline +++ "Import cycles:") (import_cycles r) ;;;
   print_section (newline +++ "Duplicate code warnings:") (duplicates r) ;;;
   print (newline +++ "END OF REPORT" +++ newline))%an.

(** *** [run] *)

(** The statements of [run] that follow the enumeration of the files. *)
Definition finish : M unit :=
  (update _detect_import_cycles ;;;
   _detect_duplicates ;;;
   _print_summary)%an.

Definition run (path : string) : M unit :=
  (print ("[Analyzer] Starting analysis: " +++ path) ;;;
   if os_path_isfile path && PyStr.endswith path ".py" then
     _analyze_file path ;;;
     finish
   else
     match os_dir path with
     | Some d =>
         for_M (os_walk path d) (fun entry =>
           for_M (snd entry) (fun f =>
             if PyStr.endswith f ".py"
             then _analyze_file (OsPath.join (fst (fst entry)) f)
             else ret tt)) ;;;
         finish
     | None =>
         print "[ERROR] Invalid path."   (* and [return] *)
     end)%an.

(** [CodeAnalyzer(path).run()] from the freshly built object. *)
Definition analyze (path : string) : outcome unit * state :=
  run path (mkState init_results []).

End Analyzer.

(** * Notions used by the statements *)

(** ** Loops that thread optional reports *)

(** One step of a loop that threads an optional list of reports through
    the calls of [f]: the shape of the loops of [dfs] and [dfs_all]. *)
Definition report_step {A : Type}
    (f : A -> list string -> option (list string))
    (acc : option (list string)) (x : A)
  : option (list string) :=
  match acc with
  | Some cycles => f x cycles
  | None => None
  end.

(** ** Decision points *)

(** A decision point: a conditional branch ([If]), a loop ([For], [While],
    [AsyncFor]), a boolean short-circuit combination ([And], [Or]), an
    exception-handling block ([Try], [TryStar]), an exception-handler clause
    ([ExceptHandler]) or a scoped-resource-acquisition block ([With],
    [AsyncWith]). *)
Definition is_decision_point (n : node) : bool :=
  match node_class n with
  | If | For | AsyncFor | While | And | Or | Try | TryStar | ExceptHandler
  | With | AsyncWith => true
  | _ => false
  end.

(** The number of decision points anywhere in a tree, by recursion on the
    tree. *)
Fixpoint decision_points (n : node) : nat :=
  match n with
  | Node _ _ cs =>
      (if is_decision_point n then 1 else 0)
      + list_sum (map decision_points cs)
  end.

(** The decision points apart from the asynchronous forms and from
    [try]/[except*]: an [If], a [For] or [While] loop, an [And] or [Or], a
    [Try] block, an [ExceptHandler] clause or a [With] block. *)
Definition is_counted (n : node) : bool :=
  match node_class n with
  | If | For | While | And | Or | Try | ExceptHandler | With => true
  | _ => false
  end.

(** The number of such nodes anywhere in a tree. *)
Fixpoint counted_points (n : node) : nat :=
  match n with
  | Node _ _ cs =>
      (if is_counted n then 1 else 0)
      + list_sum (map counted_points cs)
  end.

(** ** Conditionals *)

Definition is_If (n : node) : bool := isinstance n [If].

(** A conditional for which [_analyze_structure] warns. *)
Definition deep_If (n : node) : bool :=
  is_If n && (4 <? _nesting_depth n 0)%nat.

Definition no_attrs : attributes := mkAttrs 0 "" None.
Definition at_line (l : nat) : attributes := mkAttrs l "" None.
Definition leaf (c : ast_class) : node := Node c no_attrs [].

(** The tree of
[[
if a:
    for x in y:
        if b:
            pass
]]
*)
Definition if_for_if : node :=
  Node If (at_line 1)
    [ leaf Name;
      Node For (at_line 2)
        [ leaf Name; leaf Name;
          Node If (at_line 3) [leaf Name; leaf (OtherClass "Pass")] ] ].

(** [k] conditionals, each the only statement of the previous one, the
    first on line [line]. *)
Fixpoint nested_ifs (line k : nat) : node :=
  match k with
  | 0 => leaf (OtherClass "Pass")
  | S k' => Node If (at_line line) [leaf Name; nested_ifs (S line) k']
  end.

(** The tree of
[[
async def pump(source):
    async for item in source:
        pass
]]
*)
Definition async_for_module : node :=
  Node Module_ no_attrs
    [Node AsyncFunctionDef (mkAttrs 1 "pump" None)
       [ leaf (OtherClass "arguments");
         Node AsyncFor (at_line 2)
           [leaf Name; leaf Name; leaf (OtherClass "Pass")] ]].

(** ** Style issues *)

(** The issues of one line: each of the four checks contributes its message
    or nothing, in the order of the checks. *)
Definition line_issues (filepath : string) (il : nat * string) : list string :=
  let i := fst il in
  let line := snd il in
  (if (120 <? String.length line)%nat
   then [too_long_msg filepath i (String.length line)] else [])
  ++ (if PyStr.endswith line " " then [trailing_msg filepath i] else [])
  ++ (if PyStr.search_comma_word line then [comma_msg filepath i] else [])
  ++ (if PyStr.contains tab line then [tab_msg filepath i] else []).


(** A line of 121 characters with a comma before a letter, a tab and a final
    space; it is no Python statement. *)
Definition crowded_line : string :=
  "x,y" +++ tab +++ String.concat "" (repeat "a" 116) +++ " ".

(** The statement [import os,sys] followed by a tab and spaces up to 121
    characters. *)
Definition wide_import : string :=
  "import os,sys" +++ tab +++ String.concat "" (repeat " " 107).

(** ** Imports *)

(** The graph of two modules that import each other and nothing else. *)
Definition two_cycle_graph (a b : string) : dict string (list string) :=
  [(a, [b]); (b, [a])].

(** An import-from statement without source module, such as
    [from . import x]. *)
Definition absent_module (n : node) : bool :=
  isinstance n [ImportFrom]
  && match module (node_attrs n) with
     | None => true
     | Some _ => false
     end.

Definition has_source (n : node) : bool := negb (absent_module n).

(** The statement [from . import helpers]. *)
Definition relative_import : node :=
  Node ImportFrom (mkAttrs 1 "" None)
    [Node alias (mkAttrs 1 "helpers" None) []].

(** The tree of
[[
from . import helpers
import os.path
]]
*)
Definition relative_import_module : node :=
  Node Module_ no_attrs
    [ relative_import;
      Node Import (at_line 2) [Node alias (mkAttrs 2 "os.path" None) []] ].

(** ** Files and findings *)

Definition is_source (f : string) : bool := PyStr.endswith f ".py".

(** The files with the [.py] suffix anywhere under a directory. *)
Fixpoint count_sources (d : dirtree) : nat :=
  match d with
  | Dir fnames subs =>
      List.length (filter is_source fnames)
      + list_sum (map (fun entry => count_sources (snd entry)) subs)
  end.

(** Two result records that differ at most in the duplicate and cycle
    findings. *)
Definition same_file_findings (r r' : results) : Prop :=
  files r' = files r /\ errors r' = errors r /\ warnings r' = warnings r
  /\ complexity r' = complexity r
  /\ missing_docstrings r' = missing_docstrings r
  /\ pep8 r' = pep8 r /\ imports_graph r' = imports_graph r.

(** A computation that only prints. *)
Definition only_prints (m : M unit) : Prop :=
  forall st, fst (m st) = Returned tt /\ res (snd (m st)) = res st.

(** A group that [_detect_duplicates] reports: more than one member. *)
Definition reported (entry : list string * list string) : bool :=
  (1 <? List.length (snd entry))%nat.

(** ** Definitions that depend on the file system and on the parser *)

Section FileSpecs.

Variable open_read : string -> option string.
Variable ast_parse : string -> parse_result.
Variable ast_get_docstring : node -> option string.

(** [self.results] once the call [_analyze_file(filepath)] has returned or
    raised, when it starts from the results [r]. *)
Definition file_results (filepath : string) (r : results) : results :=
  res (snd (_analyze_file open_read ast_parse ast_get_docstring filepath
              (mkState r []))).

End FileSpecs.

Section RunSpecs.

Variable os_path_isfile : string -> bool.
Variable os_dir : string -> option dirtree.
Variable open_read : string -> option string.
Variable ast_parse : string -> parse_result.

(** The number of files a root path holds for the analyzer: the file
    itself for a file with the suffix, every file with the suffix below a
    directory, at any depth. *)
Definition discovered_count (path : string) : nat :=
  if os_path_isfile path && is_source path then 1
  else match os_dir path with
       | Some d => count_sources d
       | None => 0
       end.

(** The text of file [p] has signature [k]. *)
Definition has_signature (k : list string) (p : string) : bool :=
  match open_read p with
  | Some code => if lines_eq_dec (signature code) k then true else false
  | None => false
  end.

(** The entry of [seen] under [k] once the files [done] are grouped. *)
Definition members_of (k : list string) (done : list string)
  : option (list string) :=
  match filter (has_signature k) done with
  | [] => None
  | members => Some members
  end.

Definition grouped (seen : dict (list string) (list string))
    (done : list string) : Prop :=
  NoDup (dict_keys seen)
  /\ forall k, dict_get lines_eq_dec seen k = members_of k done.

End RunSpecs.

(** * A sample project

    [proj/] holds [a.py] and [b.py] with the same text, [notes.txt], and the
    package [pkg/] with [c.py] and [broken.py], whose text does not parse.
    [legacy/] holds [ok.py] and [latin1.py], which is not valid UTF-8 and
    cannot be read.  [mirror/] holds [a.py] and [copy.py] with the same text
    and [latin1.py], which cannot be read.  [vendored/] holds [blob.py],
    whose text holds a null character, and [tail.py].  [drafts/] holds
    [crowded.py], whose one line is no statement, and [wide.py].  Nothing
    exists at [missing]. *)

Module Sample.

Definition text_os : string := "import os".
Definition text_rel : string :=
  "from . import helpers" +++ newline +++ "import os.path".
Definition text_broken : string := "def f(:".
Definition text_null : string :=
  "x = 1" +++ String (ascii_of_nat 0) EmptyString +++ newline.

Definition tree_os : node :=
  Node Module_ no_attrs
    [Node Import (at_line 1) [Node alias (mkAttrs 1 "os" None) []]].

Definition tree_wide : node :=
  Node Module_ no_attrs
    [Node Import (at_line 1)
       [Node alias (mkAttrs 1 "os" None) [];
        Node alias (mkAttrs 1 "sys" None) []]].

Definition isfile (p : string) : bool :=
  existsb (String.eqb p)
    ["proj/a.py"; "proj/b.py"; "proj/notes.txt"; "proj/pkg/c.py";
     "proj/pkg/broken.py"; "legacy/ok.py"; "legacy/latin1.py";
     "mirror/a.py"; "mirror/copy.py"; "mirror/latin1.py";
     "vendored/blob.py"; "vendored/tail.py";
     "drafts/crowded.py"; "drafts/wide.py"].

Definition dir (p : string) : option dirtree :=
  if String.eqb p "proj" then
    Some (Dir ["a.py"; "b.py"; "notes.txt"]
            [("pkg", Dir ["c.py"; "broken.py"] [])])
  else if String.eqb p "proj/pkg" then Some (Dir ["c.py"; "broken.py"] [])
  else if String.eqb p "legacy" then Some (Dir ["ok.py"; "latin1.py"] [])
  else if String.eqb p "mirror"
  then Some (Dir ["a.py"; "copy.py"; "latin1.py"] [])
  else if String.eqb p "vendored" then Some (Dir ["blob.py"; "tail.py"] [])
  else if String.eqb p "drafts" then Some (Dir ["crowded.py"; "wide.py"] [])
  else None.

Definition read (p : string) : option string :=
  if String.eqb p "proj/a.py" then Some text_os
  else if String.eqb p "proj/b.py" then Some text_os
  else if String.eqb p "proj/notes.txt" then Some "to do"
  else if String.eqb p "proj/pkg/c.py" then Some text_rel
  else if String.eqb p "proj/pkg/broken.py" then Some text_broken
  else if String.eqb p "legacy/ok.py" then Some text_os
  else if String.eqb p "mirror/a.py" then Some text_os
  else if String.eqb p "mirror/copy.py" then Some text_os
  else if String.eqb p "vendored/blob.py" then Some text_null
  else if String.eqb p "vendored/tail.py" then Some text_os
  else if String.eqb p "drafts/crowded.py" then Some crowded_line
  else if String.eqb p "drafts/wide.py" then Some wide_import
  else None.

Definition parse (code : string) : parse_result :=
  if String.eqb code text_os then Parsed tree_os
  else if String.eqb code text_rel then Parsed relative_import_module
  else if String.eqb code wide_import then Parsed tree_wide
  else if String.eqb code text_null
  then ParseRaised "source code string cannot contain null bytes"
  else SyntaxError "invalid syntax (<unknown>, line 1)".

Definition get_docstring (n : node) : option string := None.

Definition analyze_root : string -> outcome unit * state :=
  analyze isfile dir read parse get_docstring.

(** The results once the four source files of [proj/] are enumerated. *)
Definition enumerated : state :=
  mkState
    (mkResults
       ["proj/a.py"; "proj/b.py"; "proj/pkg/c.py"; "proj/pkg/broken.py"]
       [] [] [] [] [] [] [] None)
    [].

End Sample.

(** * Notions used by the further properties *)

(** ** Definitions and docstrings *)

(** A node that [_analyze_docstrings] looks at. *)
Definition is_definition (n : node) : bool :=
  isinstance n [FunctionDef; AsyncFunctionDef; ClassDef].

(** A definition for which [get_docstring] finds nothing. *)
Definition undocumented (get_docstring : node -> option string) (n : node)
  : bool :=
  is_definition n
  && match get_docstring n with
     | None => true
     | Some _ => false
     end.

(** ** Chains of [elif] *)

(** The tree of an [if] with [k - 1] [elif] branches, every branch holding
    [pass]: the [If] of an [elif] is the [orelse] of the previous [If]. *)
Fixpoint elif_chain (line k : nat) : node :=
  match k with
  | 0 => leaf (OtherClass "Pass")
  | S k' =>
      Node If (at_line line)
        ([leaf Name; leaf (OtherClass "Pass")]
         ++ match k' with
            | 0 => []
            | S _ => [elif_chain (S line) k']
            end)
  end.

(** ** Walks in the import graph *)

(** Each module of the list imports the next one. *)
Fixpoint is_walk (graph : dict string (list string)) (l : list string)
  : Prop :=
  match l with
  | [] => True
  | a :: l' =>
      match l' with
      | [] => True
      | b :: _ => In b (graph_get graph a) /\ is_walk graph l'
      end
  end.

(** A report that describes a real closed walk: the modules before the last
    one are pairwise different, each imports the next, and the last one is
    one of them. *)
Definition cycle_report (graph : dict string (list string)) (msg : string)
  : Prop :=
  exists l x,
    msg = cycle_msg (l ++ [x])
    /\ is_walk graph (l ++ [x]) /\ NoDup l /\ In x l.

(** ** Discovered files *)

(** The paths of the files with the [.py] suffix under a directory, each
    directory before its subdirectories. *)
Fixpoint source_paths (top : string) (d : dirtree) : list string :=
  match d with
  | Dir fnames subs =>
      map (OsPath.join top) (filter is_source fnames)
      ++ flat_map
           (fun entry => source_paths (OsPath.join top (fst entry)) (snd entry))
           subs
  end.

Section FurtherSpecs.

Variable os_path_isfile : string -> bool.
Variable os_dir : string -> option dirtree.
Variable open_read : string -> option string.
Variable ast_parse : string -> parse_result.

(** The paths a root holds for the analyzer. *)
Definition discovered_paths (path : string) : list string :=
  if os_path_isfile path && is_source path then [path]
  else match os_dir path with
       | Some d => source_paths path d
       | None => []
       end.

(** A file that cannot be read, or for whose text the parser raises
    [SyntaxError]. *)
Definition bad_file (p : string) : bool :=
  match open_read p with
  | None => true
  | Some code =>
      match ast_parse code with
      | SyntaxError _ => true
      | Parsed _ | ParseRaised _ => false
      end
  end.

(** The tree of a file that can be read and parses. *)
Definition tree_of (p : string) : option node :=
  match open_read p with
  | None => None
  | Some code =>
      match ast_parse code with
      | Parsed tree => Some tree
      | SyntaxError _ | ParseRaised _ => None
      end
  end.

(** The complexity score of a file that can be read and parses. *)
Definition score_of (p : string) : option nat :=
  option_map (fun tree => 1 + counted_points tree) (tree_of p).

(** The error finding of a file, if it is a bad file. *)
Definition file_error (p : string) : list string :=
  match open_read p with
  | None => [cannot_read_msg p]
  | Some code =>
      match ast_parse code with
      | SyntaxError e => [syntax_error_msg p e]
      | Parsed _ | ParseRaised _ => []
      end
  end.

(** The exception that leaves [_analyze_file] on a file, if one does. *)
Definition parse_raises (p : string) : option string :=
  match open_read p with
  | None => None
  | Some code =>
      match ast_parse code with
      | ParseRaised e => Some e
      | Parsed _ | SyntaxError _ => None
      end
  end.

(** The first exception that leaves [_analyze_file] on the files of a
    list, taken in order. *)
Fixpoint first_raise (paths : list string) : option string :=
  match paths with
  | [] => None
  | p :: paths' =>
      match parse_raises p with
      | Some e => Some e
      | None => first_raise paths'
      end
  end.

(** The files of a list up to the first one on which [_analyze_file]
    raises, that one included. *)
Fixpoint analyzed (paths : list string) : list string :=
  match paths with
  | [] => []
  | p :: paths' =>
      p :: match parse_raises p with
           | Some _ => []
           | None => analyzed paths'
           end
  end.

End FurtherSpecs.

(** ** Printed summary *)

(** What [_print_summary] prints for one kind of finding. *)
Definition section_lines (title : string) (l : list string) : list string :=
  match l with
  | [] => []
  | _ => title :: map (fun x => "  - " +++ x) l
  end.

(** Everything [_print_summary] prints for the results [r]. *)
Definition summary_output (r : results) : list string :=
  [newline +++ "ANALYSIS SUMMARY";
   "Analyzed files: " +++ PyStr.str_of_nat (List.length (files r))]
  ++ section_lines (newline +++ "Errors:") (errors r)
  ++ section_lines (newline +++ "Warnings:") (warnings r)
  ++ section_lines (newline +++ "Missing docstrings:") (missing_docstrings r)
  ++ section_lines (newline +++ "PEP8 issues:") (pep8 r)
  ++ section_lines (newline +++ "Import cycles:") (import_cycles r)
  ++ section_lines (newline +++ "Duplicate code warnings:") (duplicates r)
  ++ [newline +++ "END OF REPORT" +++ newline].

(** A computation that returns after printing [out] and nothing else. *)
Definition prints (m : M unit) (out : list string) : Prop :=
  forall st, m st = (Returned tt, mkState (res st) (stdout st ++ out)).

(** All the findings of the results, of every kind. *)
Definition all_findings (r : results) : list string :=
  errors r ++ warnings r ++ missing_docstrings r ++ pep8 r
  ++ import_cycles r ++ duplicates r.

(** * The report built from the results ([ai_code_agent.reporter])

    [results.get(key, [])] is the field of the record: the results handed to
    the reporter are those of an analyzer, where every key is set.  The text
    of [datetime.datetime.now()] is the parameter [now]. *)

Module Reporter.

(** [if n:] for an integer [n]. *)
Definition truthy (n : nat) : bool := negb (n =? 0)%nat.

(** The list [lines] of [LocalReport.build_summary] when it is joined. *)
Definition summary_lines (r : results) : list string :=
  let nfiles := List.length (files r) in
  let nerrors := List.length (errors r) in
  let nwarnings := List.length (warnings r) in
  let missing_docs := List.length (missing_docstrings r) in
  let npep8 := List.length (pep8 r) in
  let cycles := List.length (import_cycles r) in
  let ndup := List.length (duplicates r) in
  let lines :=
    ["This project contains " +++ PyStr.str_of_nat nfiles
     +++ " analyzed Python file(s)."] in
  let lines :=
    if truthy nerrors
    then lines ++ ["There are " +++ PyStr.str_of_nat nerrors
                   +++ " error(s) that should be fixed first."]
    else lines ++ ["No critical syntax errors were detected."] in
  let lines :=
    if truthy nwarnings
    then lines ++ ["The analyzer reported " +++ PyStr.str_of_nat nwarnings
                   +++ " warning(s) about code structure or complexity."]
    else lines in
  let lines :=
    if truthy missing_docs
    then lines ++ ["There are " +++ PyStr.str_of_nat missing_docs
                   +++ " element(s) without docstrings (functions or classes)."]
    else lines in
  let lines :=
    if truthy npep8
    then lines ++ [PyStr.str_of_nat npep8
                   +++ " PEP8 style issue(s) were found "
                   +++ "(spacing, line length, tabs, etc.)."]
    else lines in
  let lines :=
    if truthy cycles
    then lines ++ [PyStr.str_of_nat cycles
                   +++ " potential import cycle(s) were detected."]
    else lines in
  let lines :=
    if truthy ndup
    then lines ++ [PyStr.str_of_nat ndup
                   +++ " possible code duplication(s) were identified."]
    else lines in
  let suggestions := [] in
  let suggestions :=
    if truthy missing_docs
    then suggestions
         ++ ["Add docstrings to undocumented functions and classes."]
    else suggestions in
  let suggestions :=
    if truthy npep8
    then suggestions ++ ["Apply a code formatter or fix basic PEP8 issues."]
    else suggestions in
  let suggestions :=
    if truthy nwarnings
    then suggestions
         ++ ["Reduce nesting and complexity where the analyzer "
             +++ "reported warnings."]
    else suggestions in
  let suggestions :=
    if truthy cycles
    then suggestions ++ ["Break import cycles by restructuring modules."]
    else suggestions in
  match suggestions with
  | [] => lines
  | _ =>
      for_each suggestions (fun s lines => lines ++ ["- " +++ s])
        (lines ++ ["Main improvement suggestions:"])
  end.

(** [LocalReport.build_summary] *)
Definition build_summary (r : results) : string :=
  PyStr.join " " (summary_lines r).

(** The inner function [add_section] of [build_html], on the list [html]. *)
Definition add_section (title : string) (items : list string)
    (html : list string) : list string :=
  let html := html ++ ["<h2>" +++ title +++ "</h2>"] in
  match items with
  | [] => html ++ ["<p>No items.</p>"]
  | _ =>
      let html := html ++ ["<ul>"] in
      let html :=
        for_each items
          (fun item html => html ++ ["<li>" +++ item +++ "</li>"]) html in
      html ++ ["</ul>"]
  end.

(** The list [html] of [HTMLReporter.build_html] when it is joined. *)
Definition html_lines (title now : string) (r : results) : list string :=
  let summary := build_summary r in
  let html :=
    ["<html><head>";
     "<title>" +++ title +++ "</title>";
     "<meta charset='utf-8'/>";
     "<style>";
     "body { font-family: Arial, sans-serif; padding: 20px; }";
     "h1 { color: #004c97; }";
     "h2 { color: #0077cc; margin-top: 24px; }";
     "ul { margin-left: 20px; }";
     "li { margin-bottom: 4px; }";
     "p { line-height: 1.4; }";
     "</style>";
     "</head><body>";
     "<h1>" +++ title +++ "</h1>";
     "<p>Generated on " +++ now +++ "</p>";
     "<h2>Summary</h2>";
     "<p>" +++ summary +++ "</p>"] in
  let html := add_section "Errors" (errors r) html in
  let html := add_section "Warnings" (warnings r) html in
  let html := add_section "Missing docstrings" (missing_docstrings r) html in
  let html := add_section "PEP8 issues" (pep8 r) html in
  let html := add_section "Import cycles" (import_cycles r) html in
  let html := add_section "Duplicate code" (duplicates r) html in
  html ++ ["</body></html>"].

(** [HTMLReporter.build_html] *)
Definition build_html (title now : string) (r : results) : string :=
  PyStr.join newline (html_lines title now r).

(** What ends the [report-html] command. *)
Inductive report_outcome : Type :=
| ReportWritten
| AnalysisRaised (e : exn)
| WriteRaised (output_path : string).

Record report_effects : Type := mkEffects {
  outcome_of : report_outcome;
  printed : list string;                  (* standard output *)
  written : option (string * string)      (* the file written, with its text *)
}.

Section Command.

Variable os_path_isfile : string -> bool.
Variable os_dir : string -> option dirtree.
Variable open_read : string -> option string.
Variable ast_parse : string -> parse_result.
Variable ast_get_docstring : node -> option string.
(** [open(output_path, "w")] succeeds. *)
Variable can_write : string -> bool.

(** [HTMLReporter.save] after the analysis: the branch [report-html] of
    [cli.main], for the title given to the reporter. *)
Definition report_html (title now path output_path : string)
  : report_effects :=
  match analyze os_path_isfile os_dir open_read ast_parse ast_get_docstring
          path with
  | (Raised e, st) => mkEffects (AnalysisRaised e) (stdout st) None
  | (Returned _, st) =>
      let html := build_html title now (res st) in
      if can_write output_path
      then mkEffects ReportWritten
             (stdout st ++ ["HTML report written to: " +++ output_path])
             (Some (output_path, html))
      else mkEffects (WriteRaised output_path) (stdout st) None
  end.

End Command.

End Reporter.

(** The lines of the HTML report for one kind of finding. *)
Definition section_html (title : string) (items : list string)
  : list string :=
  ("<h2>" +++ title +++ "</h2>")
  :: match items with
     | [] => ["<p>No items.</p>"]
     | _ =>
         "<ul>" :: map (fun item => "<li>" +++ item +++ "</li>") items
         ++ ["</ul>"]
     end.

(** * Properties *)

(** An induction principle that reaches the children of a node. *)
Lemma node_ind' (P : node -> Prop)
    (step : forall c a cs, Forall P cs -> P (Node c a cs)) :
  forall n, P n.
Proof.
  fix IH 1. intros [c a cs]. apply step.
  induction cs as [|x cs IHcs]; constructor; [apply IH | exact IHcs].
Qed.

(** ** Loops as folds *)

Lemma for_each_cons {S A} (x : A) (l : list A) (body : A -> S -> S) (s : S) :
  for_each (x :: l) body s = for_each l body (body x s).
Proof. reflexivity. Qed.

Lemma for_each_ext {S A} (body body' : A -> S -> S) (l : list A) :
  (forall x s, body x s = body' x s) ->
  forall s, for_each l body s = for_each l body' s.
Proof.
  intros Hext. induction l as [|x l IH]; intros s.
  - reflexivity.
  - rewrite !for_each_cons, Hext. apply IH.
Qed.

(** A loop that only counts. *)
Lemma for_each_count {A} (p : A -> bool) (l : list A) (c : nat) :
  for_each l (fun x c => if p x then c + 1 else c) c
  = c + List.length (filter p l).
Proof.
  revert c. induction l as [|x l IH]; intros c.
  - unfold for_each. simpl. lia.
  - rewrite for_each_cons, IH. simpl. destruct (p x); simpl; lia.
Qed.

(** A loop that only appends to a list. *)
Lemma for_each_collect {A B} (f : A -> list B) (l : list A) (acc : list B) :
  for_each l (fun x acc => acc ++ f x) acc = acc ++ flat_map f l.
Proof.
  revert acc. induction l as [|x l IH]; intros acc.
  - unfold for_each. simpl. now rewrite app_nil_r.
  - rewrite for_each_cons, IH. simpl. now rewrite app_assoc.
Qed.

Lemma filter_length_perm {A} (p : A -> bool) (l l' : list A) :
  Permutation l l' -> List.length (filter p l) = List.length (filter p l').
Proof.
  induction 1; simpl.
  - reflexivity.
  - destruct (p x); simpl; congruence.
  - destruct (p x), (p y); reflexivity.
  - congruence.
Qed.

(** ** [ast.walk] visits every node of the tree exactly once *)

Lemma node_size_pos (n : node) : 1 <= node_size n.
Proof. destruct n; simpl; lia. Qed.

Lemma forest_size_app (l1 l2 : list node) :
  forest_size (l1 ++ l2) = forest_size l1 + forest_size l2.
Proof. unfold forest_size. now rewrite map_app, list_sum_app. Qed.

Lemma walk_queue_perm (fuel : nat) :
  forall todo, forest_size todo <= fuel ->
    Permutation (walk_queue fuel todo) (flat_map subnodes todo).
Proof.
  induction fuel as [|fuel IH]; intros [|n rest] Hsize; simpl;
    try constructor.
  - pose proof (node_size_pos n). unfold forest_size in Hsize.
    simpl in Hsize. lia.
  - destruct n as [c a cs]. simpl. constructor.
    etransitivity.
    + apply IH. rewrite forest_size_app. unfold forest_size in *.
      simpl in Hsize. lia.
    + rewrite flat_map_app. apply Permutation_app_comm.
Qed.

Lemma walk_perm (tree : node) : Permutation (walk tree) (subnodes tree).
Proof.
  unfold walk.
  replace (subnodes tree) with (flat_map subnodes [tree])
    by (simpl; apply app_nil_r).
  apply walk_queue_perm. unfold forest_size. simpl. lia.
Qed.

Lemma walk_In (tree n : node) : In n (walk tree) <-> In n (subnodes tree).
Proof.
  split; apply Permutation_in;
    [apply walk_perm | apply Permutation_sym, walk_perm].
Qed.

Example walk_if_for_if :
  map node_class (walk if_for_if)
  = [If; Name; For; Name; Name; If; Name; OtherClass "Pass"].
Proof. reflexivity. Qed.

(** ** Dictionaries *)

Section DictFacts.
Context {K V : Type}.
Variable K_eq_dec : forall x y : K, {x = y} + {x <> y}.

Lemma dict_get_set_same (d : dict K V) k v :
  dict_get K_eq_dec (dict_set K_eq_dec d k v) k = Some v.
Proof.
  induction d as [|[k' v'] d IH]; simpl.
  - destruct (K_eq_dec k k); congruence.
  - destruct (K_eq_dec k k') as [->|Hne]; simpl.
    + destruct (K_eq_dec k' k'); congruence.
    + destruct (K_eq_dec k k'); congruence.
Qed.

Lemma dict_get_set_other (d : dict K V) k k' v :
  k' <> k ->
  dict_get K_eq_dec (dict_set K_eq_dec d k v) k' = dict_get K_eq_dec d k'.
Proof.
  intros Hne. induction d as [|[k0 v0] d IH]; simpl.
  - destruct (K_eq_dec k' k); congruence.
  - destruct (K_eq_dec k k0) as [->|Hk]; simpl.
    + destruct (K_eq_dec k' k0); congruence.
    + destruct (K_eq_dec k' k0); congruence.
Qed.

Lemma dict_keys_set_In (d : dict K V) k v k' :
  In k' (dict_keys (dict_set K_eq_dec d k v)) ->
  k' = k \/ In k' (dict_keys d).
Proof.
  induction d as [|[k0 v0] d IH]; simpl.
  - intros [<-|[]]. now left.
  - destruct (K_eq_dec k k0) as [->|Hne]; simpl.
    + intros [<-|H]; auto.
    + intros [<-|H]; auto. destruct (IH H); auto.
Qed.

Lemma dict_keys_set_NoDup (d : dict K V) k v :
  NoDup (dict_keys d) -> NoDup (dict_keys (dict_set K_eq_dec d k v)).
Proof.
  induction d as [|[k0 v0] d IH]; simpl; intros Hnd.
  - constructor; [intros []|constructor].
  - inversion Hnd as [|? ? Hnotin Hnd']; subst.
    destruct (K_eq_dec k k0) as [->|Hne]; simpl.
    + now constructor.
    + constructor; [|now apply IH].
      intros Hin. apply dict_keys_set_In in Hin.
      destruct Hin as [->|Hin]; [congruence | contradiction].
Qed.

Lemma In_dict_get (d : dict K V) k v :
  NoDup (dict_keys d) -> In (k, v) d -> dict_get K_eq_dec d k = Some v.
Proof.
  induction d as [|[k0 v0] d IH]; simpl; intros Hnd Hin; [destruct Hin|].
  inversion Hnd as [|? ? Hnotin Hnd']; subst.
  destruct Hin as [[= -> ->]|Hin].
  - destruct (K_eq_dec k k); congruence.
  - destruct (K_eq_dec k k0) as [->|Hne]; [|now apply IH].
    exfalso. apply Hnotin. apply (in_map fst) in Hin. exact Hin.
Qed.

End DictFacts.

(** ** Complexity *)

Lemma filter_flat_map_length {A B} (p : B -> bool) (f : A -> list B)
    (g : A -> nat) (l : list A) :
  Forall (fun x => List.length (filter p (f x)) = g x) l ->
  List.length (filter p (flat_map f l)) = list_sum (map g l).
Proof.
  induction 1 as [|x l Hx _ IH]; simpl.
  - reflexivity.
  - rewrite filter_app, length_app. congruence.
Qed.

Lemma counted_points_subnodes (n : node) :
  List.length (filter is_counted (subnodes n)) = counted_points n.
Proof.
  induction n as [c a cs IH] using node_ind'.
  cbn [subnodes counted_points filter].
  rewrite <- (filter_flat_map_length _ _ _ _ IH).
  destruct (is_counted (Node c a cs)); reflexivity.
Qed.

(** The classes that [_compute_complexity] tests for are the decision
    points. *)
Lemma isinstance_decision_classes (n : node) :
  isinstance n decision_classes = is_counted n.
Proof. destruct n as [c a cs]. destruct c; reflexivity. Qed.

Lemma complexity_of_counted_points (tree : node) :
  complexity_of tree = 1 + counted_points tree.
Proof.
  unfold complexity_of.
  rewrite (for_each_ext _
             (fun n c => if is_counted n then c + 1 else c))
    by (intros n c; now rewrite isinstance_decision_classes).
  rewrite (for_each_count is_counted).
  rewrite (filter_length_perm _ _ _ (walk_perm tree)).
  now rewrite counted_points_subnodes.
Qed.

(** Without the asynchronous forms and [try]/[except*], the counted nodes
    are all the decision points. *)
Lemma counted_points_all (tree : node) :
  (forall n, In n (subnodes tree) ->
             isinstance n [AsyncFor; AsyncWith; TryStar] = false) ->
  counted_points tree = decision_points tree.
Proof.
  induction tree as [c a cs IH] using node_ind'. intros Hnone.
  cbn [counted_points decision_points]. f_equal.
  - specialize (Hnone (Node c a cs) (or_introl eq_refl)).
    destruct c; try reflexivity; discriminate Hnone.
  - f_equal. apply map_ext_in. intros child Hchild.
    rewrite Forall_forall in IH. apply (IH child Hchild).
    intros n Hn. apply Hnone. right. apply in_flat_map. eauto.
Qed.

(** C4, as stated, fails: an [async for] loop is a decision point, yet the
    file that holds one and nothing else to count scores 1, not 2. *)
Lemma async_for_counterexample :
  decision_points async_for_module = 1
  /\ dict_get string_dec
       (complexity (_compute_complexity "pump.py" async_for_module
                      init_results)) "pump.py" = Some 1
  /\ complexity_of async_for_module <> 1 + decision_points async_for_module.
Proof. repeat split; try reflexivity. discriminate. Qed.

(** C4, amended.  The score that [_compute_complexity] stores for a parsed
    file is 1 plus the number of nodes of class [If], [For], [While], [And],
    [Or], [Try], [ExceptHandler], [With] anywhere in the tree; [AsyncFor],
    [AsyncWith] and [TryStar] nodes are not counted, and on a tree without
    them the score is 1 plus the number of decision points.  The score is a
    function of the tree alone, it is at least 1, it is exactly 1 when the
    tree has no counted node, and the warning, which cites the file and the
    score, is appended if and only if the score exceeds 12. *)
Theorem complexity_score_spec :
  forall (filepath : string) (tree : node) (r : results),
    let score := 1 + counted_points tree in
    let r' := _compute_complexity filepath tree r in
    let warning :=
      filepath +++ " has high cyclomatic complexity: "
      +++ PyStr.str_of_nat score in
    dict_get string_dec (complexity r') filepath = Some score
    /\ 1 <= score
    /\ (counted_points tree = 0 -> score = 1)
    /\ (warnings r' = warnings r ++ [warning] <-> 12 < score)
    /\ (warnings r' = warnings r <-> score <= 12)
    /\ ((forall n, In n (subnodes tree) ->
                   isinstance n [AsyncFor; AsyncWith; TryStar] = false) ->
        score = 1 + decision_points tree).
Proof.
  intros filepath tree r score r' warning.
  assert (Hscore : complexity_of tree = score)
    by apply complexity_of_counted_points.
  subst r' warning. unfold _compute_complexity, complexity_msg.
  rewrite Hscore.
  assert (Hgrow : forall x : string, warnings r <> warnings r ++ [x]).
  { intros x Heq. apply (f_equal (@List.length string)) in Heq.
    rewrite length_app in Heq. simpl in Heq. lia. }
  assert (Hall : (forall n, In n (subnodes tree) ->
                    isinstance n [AsyncFor; AsyncWith; TryStar] = false) ->
                 score = 1 + decision_points tree).
  { intros Hnone. unfold score. now rewrite counted_points_all. }
  destruct (12 <? score)%nat eqn:E;
    [apply Nat.ltb_lt in E | apply Nat.ltb_ge in E]; simpl.
  - repeat split; try lia; try (intros; reflexivity); try exact Hall.
    + apply dict_get_set_same.
    + intros Heq. symmetry in Heq. now apply Hgrow in Heq.
  - repeat split; try lia; try (intros; reflexivity); try exact Hall.
    + apply dict_get_set_same.
    + intros Heq. now apply Hgrow in Heq.
Qed.

(** ** Frames of the loops that append findings *)

Lemma for_each_preserves {S A B} (proj : S -> B) (body : A -> S -> S)
    (l : list A) :
  (forall x s, proj (body x s) = proj s) ->
  forall s, proj (for_each l body s) = proj s.
Proof.
  intros Hbody. induction l as [|x l IH]; intros s.
  - reflexivity.
  - rewrite for_each_cons, IH. apply Hbody.
Qed.

(** A loop whose body appends [msg x] to the warnings when [p x] holds. *)
Lemma for_each_warnings {A} (p : A -> bool) (msg : A -> string) (l : list A) :
  forall r,
    warnings
      (for_each l (fun x r => if p x then append_warnings (msg x) r else r) r)
    = warnings r ++ map msg (filter p l).
Proof.
  induction l as [|x l IH]; intros r.
  - unfold for_each. simpl. now rewrite app_nil_r.
  - rewrite for_each_cons, IH. simpl.
    destruct (p x); simpl; [now rewrite <- app_assoc | reflexivity].
Qed.

(** ** Nesting depth *)

Lemma is_If_class (c : ast_class) a cs :
  is_If (Node c a cs) = if ast_class_eq_dec c If then true else false.
Proof.
  unfold is_If, isinstance. cbn [node_class].
  destruct (in_dec ast_class_eq_dec c [If]) as [Hin|Hnin];
    destruct (ast_class_eq_dec c If) as [E|E]; try reflexivity.
  - destruct Hin as [Hin|[]]. congruence.
  - exfalso. apply Hnin. left. congruence.
Qed.

Lemma list_max_cons (x : nat) (l : list nat) :
  list_max (x :: l) = Nat.max x (list_max l).
Proof. reflexivity. Qed.

Lemma list_max_shift (c : nat) (l : list nat) :
  l <> [] -> list_max (map (fun x => c + x) l) = c + list_max l.
Proof.
  destruct l as [|x l]; [congruence|]. intros _.
  revert x. induction l as [|y l IH]; intros x.
  - simpl. lia.
  - rewrite map_cons, (list_max_cons x), (list_max_cons (c + x)), IH. lia.
Qed.

(** The accumulator only shifts the result. *)
Lemma nesting_depth_shift (n : node) :
  forall current, _nesting_depth n current = current + _nesting_depth n 0.
Proof.
  induction n as [c a cs IH] using node_ind'. intros current.
  cbn [_nesting_depth]. destruct (ast_class_eq_dec c If); [|lia].
  rewrite !list_max_cons.
  destruct cs as [|x cs]; [simpl; lia|].
  assert (Hmap :
    map (fun child => _nesting_depth child (current + 1)) (x :: cs)
    = map (fun d => current + d)
        (map (fun child => _nesting_depth child (0 + 1)) (x :: cs))).
  { rewrite map_map. apply map_ext_Forall.
    revert IH. apply Forall_impl. intros ch Hch.
    rewrite (Hch (current + 1)), (Hch (0 + 1)). lia. }
  rewrite Hmap, list_max_shift by discriminate. lia.
Qed.

Lemma nesting_depth_not_If (n : node) (current : nat) :
  is_If n = false -> _nesting_depth n current = current.
Proof.
  destruct n as [c a cs]. rewrite is_If_class. simpl.
  destruct (ast_class_eq_dec c If); [discriminate | reflexivity].
Qed.

Lemma list_max_filter_zero {A} (f : A -> nat) (p : A -> bool) (l : list A) :
  (forall x, p x = false -> f x = 0) ->
  list_max (map f (filter p l)) = list_max (map f l).
Proof.
  intros Hz. induction l as [|x l IH]; [reflexivity|].
  simpl. destruct (p x) eqn:E; simpl.
  - now rewrite IH.
  - rewrite (Hz x E), IH. reflexivity.
Qed.

(** The depth of a conditional in terms of its immediate children. *)
Lemma nesting_depth_children (n : node) :
  is_If n = true -> iter_child_nodes n <> [] ->
  _nesting_depth n 0
  = 1 + list_max (map (fun d => _nesting_depth d 0)
                    (filter is_If (iter_child_nodes n))).
Proof.
  destruct n as [c a cs]. rewrite is_If_class. simpl. intros Hc Hcs.
  destruct (ast_class_eq_dec c If); [|discriminate].
  rewrite (list_max_filter_zero (fun d => _nesting_depth d 0) is_If)
    by (intros; now apply nesting_depth_not_If).
  change (S ?x) with (1 + x).
  rewrite <- list_max_shift by (destruct cs; [congruence | discriminate]).
  rewrite map_map. f_equal. apply map_ext. intros ch.
  apply nesting_depth_shift.
Qed.

Lemma analyze_structure_warnings (filepath : string) (tree : node) r :
  warnings (_analyze_structure filepath tree r)
  = warnings r
    ++ map (fun n => nesting_msg filepath n (_nesting_depth n 0))
         (filter deep_If (walk tree)).
Proof.
  unfold _analyze_structure.
  rewrite <- (for_each_warnings deep_If).
  f_equal. apply for_each_ext. intros n s. unfold deep_If, is_If.
  destruct (isinstance n [If]); [|reflexivity].
  destruct (4 <? _nesting_depth n 0)%nat; reflexivity.
Qed.

Example complexity_if_for_if : complexity_of if_for_if = 4.
Proof. reflexivity. Qed.

Example four_nested_ifs_pass :
  warnings (_analyze_structure "m.py" (nested_ifs 1 4) init_results) = [].
Proof. reflexivity. Qed.

Example five_nested_ifs_warn :
  warnings (_analyze_structure "m.py" (nested_ifs 1 5) init_results)
  = ["m.py:1 -> Deep nesting (5 levels)"].
Proof. reflexivity. Qed.

(** C5, as stated, fails: the inner conditional of [if_for_if] is a
    descendant of the outer one and has depth 1, so the claim gives the outer
    conditional depth 2; the analyzer measures 1, because the loop between
    the two conditionals ends the recursion. *)
Lemma nesting_depth_descendants_counterexample :
  is_If if_for_if = true
  /\ _nesting_depth if_for_if 0 = 1
  /\ 1 + list_max (map (fun d => _nesting_depth d 0)
                     (filter is_If (descendants if_for_if))) = 2
  /\ _nesting_depth if_for_if 0
     <> 1 + list_max (map (fun d => _nesting_depth d 0)
                        (filter is_If (descendants if_for_if))).
Proof. repeat split; try reflexivity. discriminate. Qed.

(** C5, amended.  For every conditional of a parsed tree (it has at least its
    test as a child), the measured depth is 1 plus the maximum measured depth
    of the conditionals among its immediate children (0 if there is none).
    [_analyze_structure] measures every conditional of the tree on its own:
    it appends one warning, with the line and the depth of the node, for each
    conditional whose depth exceeds 4, and nothing else. *)
Theorem nesting_depth_spec :
  forall (filepath : string) (tree : node) (r : results) (n : node),
    In n (subnodes tree) ->
    is_If n = true ->
    iter_child_nodes n <> [] ->
    let depth := _nesting_depth n 0 in
    depth = 1 + list_max (map (fun d => _nesting_depth d 0)
                            (filter is_If (iter_child_nodes n)))
    /\ 1 <= depth
    /\ exists added,
        warnings (_analyze_structure filepath tree r) = warnings r ++ added
        /\ (4 < depth -> In (nesting_msg filepath n depth) added)
        /\ (forall w, In w added ->
              exists m, In m (subnodes tree) /\ is_If m = true
                        /\ 4 < _nesting_depth m 0
                        /\ w = nesting_msg filepath m (_nesting_depth m 0))
        /\ List.length added
           = List.length (filter deep_If (subnodes tree)).
Proof.
  intros filepath tree r n Hin HIf Hcs depth.
  assert (Hdepth := nesting_depth_children n HIf Hcs). fold depth in Hdepth.
  split; [exact Hdepth|]. split; [lia|].
  eexists. split; [apply analyze_structure_warnings|].
  split; [|split].
  - intros Hdeep. apply in_map_iff. exists n. split; [reflexivity|].
    apply filter_In. split; [now apply walk_In|].
    unfold deep_If. rewrite HIf. simpl. now apply Nat.ltb_lt.
  - intros w Hw. apply in_map_iff in Hw. destruct Hw as [m [<- Hm]].
    apply filter_In in Hm. destruct Hm as [Hm Hdeep].
    unfold deep_If in Hdeep. apply andb_true_iff in Hdeep.
    destruct Hdeep as [HmIf Hmdeep]. apply Nat.ltb_lt in Hmdeep.
    exists m. repeat split; try assumption. now apply walk_In.
  - rewrite length_map. apply filter_length_perm, walk_perm.
Qed.

Lemma nesting_depth_spec_witness :
  let n := Node If (at_line 3) [leaf Name; leaf (OtherClass "Pass")] in
  _nesting_depth n 0 = 1
  /\ exists added,
      warnings (_analyze_structure "m.py" if_for_if init_results)
      = warnings init_results ++ added
      /\ List.length added = 0.
Proof.
  intros n.
  destruct (nesting_depth_spec "m.py" if_for_if init_results n)
    as [Hd [_ [added [Hw [_ [_ Hlen]]]]]].
  - simpl. auto 10.
  - reflexivity.
  - discriminate.
  - split; [exact Hd|]. exists added. split; [exact Hw | exact Hlen].
Defined.

(** ** Strings *)

Lemma append_inj_l (p a b : string) : p +++ a = p +++ b -> a = b.
Proof. induction p; simpl; intros H; [exact H | injection H; auto]. Qed.

Lemma append_length (a b : string) :
  String.length (a +++ b) = String.length a + String.length b.
Proof. induction a; simpl; congruence. Qed.





(** ** PEP8 checker *)

Example splitlines_keeps_blank_lines :
  PyStr.splitlines ("a" +++ newline +++ newline +++ "b" +++ newline)
  = ["a"; ""; "b"].
Proof. reflexivity. Qed.

Example check_pep8_two_lines :
  pep8 (_check_pep8 "m.py" ("f(a,b) " +++ newline +++ "x = 1") init_results)
  = ["m.py:1 -> Trailing whitespace"; "m.py:1 -> Missing space after comma"].
Proof. reflexivity. Qed.

Lemma check_line_pep8 (filepath : string) (il : nat * string) (r : results) :
  pep8 (check_line filepath il r) = pep8 r ++ line_issues filepath il.
Proof.
  unfold check_line, line_issues.
  destruct (120 <? String.length (snd il))%nat,
    (PyStr.endswith (snd il) " "),
    (PyStr.search_comma_word (snd il)),
    (PyStr.contains tab (snd il)); simpl;
    rewrite <- ?app_assoc, ?app_nil_r; reflexivity.
Qed.

Lemma check_pep8_lines (filepath : string) (l : list (nat * string)) :
  forall r,
    pep8 (for_each l (check_line filepath) r)
    = pep8 r ++ flat_map (line_issues filepath) l.
Proof.
  induction l as [|il l IH]; intros r.
  - unfold for_each. simpl. now rewrite app_nil_r.
  - rewrite for_each_cons, IH, check_line_pep8. simpl.
    now rewrite app_assoc.
Qed.







Lemma line_issues_length (filepath : string) (i : nat) (line : string) :
  List.length (line_issues filepath (i, line))
  = Nat.b2n (120 <? String.length line)%nat
    + Nat.b2n (PyStr.endswith line " ")
    + Nat.b2n (PyStr.search_comma_word line)
    + Nat.b2n (PyStr.contains tab line).
Proof.
  unfold line_issues. cbn [fst snd].
  destruct (120 <? String.length line)%nat,
    (PyStr.endswith line " "),
    (PyStr.search_comma_word line),
    (PyStr.contains tab line); reflexivity.
Qed.




(** ** Import cycles *)

(** The loops of [dfs] and of [_detect_import_cycles] thread an optional
    list of reports through the calls of one function. *)
Section ReportLoop.
Context {A : Type}.
Variable f : A -> list string -> option (list string).

Lemma report_loop_None (l : list A) : fold_left (report_step f) l None = None.
Proof. induction l; simpl; auto. Qed.

Lemma report_loop_total (l : list A) :
  (forall x c, In x l -> exists o, f x c = Some o) ->
  forall c, exists out, fold_left (report_step f) l (Some c) = Some out.
Proof.
  induction l as [|x l IH]; intros Hf c; simpl.
  - eauto.
  - destruct (Hf x c) as [o Ho]; [now left|]. rewrite Ho.
    apply IH. intros y c' Hy. apply Hf. now right.
Qed.

Hypothesis f_extends : forall x c o, f x c = Some o -> incl c o.

Lemma report_loop_extends (l : list A) :
  forall c out, fold_left (report_step f) l (Some c) = Some out -> incl c out.
Proof.
  induction l as [|x l IH]; intros c out; simpl.
  - intros [= <-]. apply incl_refl.
  - destruct (f x c) as [o|] eqn:E.
    + intros H. eapply incl_tran; [eapply f_extends; eassumption|].
      now apply IH.
    + rewrite report_loop_None. discriminate.
Qed.

(** Whatever one call reports is still there when the loop ends. *)
Lemma report_loop_keeps (l : list A) :
  forall c out, fold_left (report_step f) l (Some c) = Some out ->
  forall x, In x l -> exists c1 o1, f x c1 = Some o1 /\ incl o1 out.
Proof.
  induction l as [|x l IH]; intros c out Hfold y Hy; simpl in *.
  - destruct Hy.
  - destruct (f x c) as [o|] eqn:E.
    + destruct Hy as [<-|Hy].
      * exists c, o. split; [exact E|].
        now apply report_loop_extends with (l := l).
      * now apply (IH o out Hfold y).
    + rewrite report_loop_None in Hfold. discriminate.
Qed.

End ReportLoop.

Lemma in_path_true (n : string) (path : list string) :
  in_path n path = true <-> In n path.
Proof.
  unfold in_path. destruct (in_dec string_dec n path); split;
    auto; discriminate.
Qed.

Lemma in_path_false (n : string) (path : list string) :
  in_path n path = false <-> ~ In n path.
Proof.
  unfold in_path. destruct (in_dec string_dec n path); split;
    auto; try discriminate. intros H. contradiction.
Qed.

Lemma dict_get_In_keys {V} (d : dict string V) (k : string) (v : V) :
  dict_get string_dec d k = Some v -> In k (dict_keys d).
Proof.
  induction d as [|[k' v'] d IH]; simpl; [discriminate|].
  destruct (string_dec k k') as [->|Hne]; [now left | right; auto].
Qed.

Lemma graph_get_In_keys (graph : dict string (list string)) (n x : string) :
  In x (graph_get graph n) -> In n (dict_keys graph).
Proof.
  unfold graph_get. destruct (dict_get string_dec graph n) eqn:E.
  - intros _. eapply dict_get_In_keys; eassumption.
  - intros [].
Qed.

Lemma dfs_extends (graph : dict string (list string)) (fuel : nat) :
  forall n path c o, dfs fuel graph n path c = Some o -> incl c o.
Proof.
  induction fuel as [|fuel IH]; intros n path c o; simpl; [discriminate|].
  destruct (in_path n path).
  - intros [= <-]. now apply incl_appl, incl_refl.
  - apply (report_loop_extends
             (fun nxt c => dfs fuel graph nxt (path ++ [n]) c)).
    intros x c' o'. apply IH.
Qed.

(** A path holds no module twice and only keys of the graph, so one nested
    call more than the keys that are not on the path is enough. *)
Lemma dfs_total (graph : dict string (list string)) (fuel : nat) :
  forall n path c,
    NoDup path -> incl path (dict_keys graph) ->
    List.length (dict_keys graph) < fuel + List.length path ->
    exists o, dfs fuel graph n path c = Some o.
Proof.
  induction fuel as [|fuel IH]; intros n path c Hnd Hincl Hfuel.
  - pose proof (NoDup_incl_length Hnd Hincl). simpl in Hfuel. lia.
  - simpl. destruct (in_path n path) eqn:E; [eauto|].
    apply in_path_false in E.
    apply (report_loop_total
             (fun nxt c => dfs fuel graph nxt (path ++ [n]) c)).
    intros x c' Hx. apply IH.
    + apply NoDup_app; [exact Hnd | apply NoDup_cons; [intros []|constructor]|].
      intros y Hy [<-|[]]. contradiction.
    + apply incl_app; [exact Hincl|]. intros y [<-|[]].
      eapply graph_get_In_keys; eassumption.
    + rewrite length_app. simpl. lia.
Qed.

Lemma dfs_all_total (graph : dict string (list string)) :
  exists cycles, dfs_all (S (List.length graph)) graph = Some cycles.
Proof.
  unfold dfs_all.
  apply (report_loop_total
           (fun m c => dfs (S (List.length graph)) graph m [] c)).
  intros m c _. apply dfs_total.
  - constructor.
  - intros x [].
  - unfold dict_keys. rewrite length_map. simpl. lia.
Qed.

Lemma dfs_S (graph : dict string (list string)) (fuel : nat) n path c :
  dfs (S fuel) graph n path c
  = if in_path n path then Some (c ++ [cycle_msg (path ++ [n])])
    else fold_left
           (report_step (fun nxt c => dfs fuel graph nxt (path ++ [n]) c))
           (graph_get graph n) (Some c).
Proof. reflexivity. Qed.

(** The traversal started at [a] walks to [b] and back to [a], and reports
    the path it has walked. *)
Lemma dfs_two_cycle (graph : dict string (list string)) (fuel : nat)
    (a b : string) (c o : list string) :
  a <> b ->
  In b (graph_get graph a) ->
  In a (graph_get graph b) ->
  dfs (S (S (S fuel))) graph a [] c = Some o ->
  In (cycle_msg [a; b; a]) o.
Proof.
  intros Hab Hb Ha Hdfs.
  rewrite dfs_S in Hdfs.
  replace (in_path a []) with false in Hdfs
    by (symmetry; apply in_path_false; intros []).
  destruct (report_loop_keeps _
              (fun x => dfs_extends graph (S (S fuel)) x ([] ++ [a]))
              _ _ _ Hdfs b Hb) as [c1 [o1 [Hdfs1 Hincl1]]].
  apply Hincl1. clear Hdfs Hincl1.
  rewrite dfs_S in Hdfs1. simpl app in Hdfs1.
  replace (in_path b [a]) with false in Hdfs1
    by (symmetry; apply in_path_false; intros [H|[]]; congruence).
  destruct (report_loop_keeps _
              (fun x => dfs_extends graph (S fuel) x ([a] ++ [b]))
              _ _ _ Hdfs1 a Ha) as [c2 [o2 [Hdfs2 Hincl2]]].
  apply Hincl2. clear Hdfs1 Hincl2.
  rewrite dfs_S in Hdfs2. simpl app in Hdfs2.
  replace (in_path a [a; b]) with true in Hdfs2
    by (symmetry; apply in_path_true; now left).
  injection Hdfs2 as <-. apply in_or_app. right. now left.
Qed.

Lemma two_keys_length {V} (graph : dict string V) (a b : string) :
  a <> b -> In a (dict_keys graph) -> In b (dict_keys graph) ->
  exists m, List.length graph = S (S m).
Proof.
  intros Hab Ha Hb.
  destruct graph as [|[k1 v1] [|[k2 v2] graph]]; simpl in *.
  - destruct Ha.
  - destruct Ha as [<-|[]], Hb as [<-|[]]. congruence.
  - eauto.
Qed.

Lemma append_inj_length (a b x y : string) :
  a +++ x = b +++ y -> String.length a = String.length b -> a = b.
Proof.
  revert b. induction a as [|c a IH]; intros [|d b]; simpl;
    try discriminate; auto.
  intros [= -> H] [= Hlen]. f_equal. now apply IH.
Qed.

Lemma cycle_msg_two_distinct (a b : string) :
  a <> b -> cycle_msg [a; b; a] <> cycle_msg [b; a; b].
Proof.
  intros Hab Heq. apply Hab. unfold cycle_msg in Heq.
  apply append_inj_l in Heq. unfold PyStr.join in Heq. simpl in Heq.
  apply append_inj_length in Heq; [exact Heq|].
  apply (f_equal String.length) in Heq.
  repeat (rewrite ?append_length in Heq; cbn [String.length] in Heq).
  lia.
Qed.

Lemma detect_import_cycles_cycles (r : results) :
  exists cycles,
    dfs_all (S (List.length (get_imports_graph r))) (get_imports_graph r)
    = Some cycles
    /\ import_cycles (_detect_import_cycles r) = import_cycles r ++ cycles.
Proof.
  destruct (dfs_all_total (get_imports_graph r)) as [cycles Hc].
  exists cycles. split; [exact Hc|].
  unfold _detect_import_cycles. now rewrite Hc.
Qed.

Lemma dfs_all_two_cycle (graph : dict string (list string)) (a b : string)
    (cycles : list string) :
  a <> b ->
  In b (graph_get graph a) ->
  In a (graph_get graph b) ->
  dfs_all (S (List.length graph)) graph = Some cycles ->
  In (cycle_msg [a; b; a]) cycles.
Proof.
  intros Hab Hb Ha Hall.
  assert (Hka := graph_get_In_keys _ _ _ Hb).
  assert (Hkb := graph_get_In_keys _ _ _ Ha).
  destruct (two_keys_length graph a b Hab Hka Hkb) as [m Hm].
  rewrite Hm in Hall. unfold dfs_all in Hall.
  destruct (report_loop_keeps _ (fun x => dfs_extends graph _ x [])
              _ _ _ Hall a Hka) as [c1 [o1 [Hdfs Hincl]]].
  apply Hincl. eapply dfs_two_cycle; eassumption.
Qed.

Lemma dfs_all_two_cycle_graph (a b : string) :
  a <> b ->
  dfs_all 3 (two_cycle_graph a b)
  = Some [cycle_msg [a; b; a]; cycle_msg [b; a; b]].
Proof.
  intros Hab.
  assert (Hga : graph_get (two_cycle_graph a b) a = [b]).
  { unfold graph_get. simpl. destruct (string_dec a a); congruence. }
  assert (Hgb : graph_get (two_cycle_graph a b) b = [a]).
  { unfold graph_get. simpl.
    destruct (string_dec b a); [congruence|].
    destruct (string_dec b b); congruence. }
  assert (Hnil : forall n, in_path n [] = false)
    by (intros; apply in_path_false; intros []).
  assert (Hba : in_path b [a] = false)
    by (apply in_path_false; intros [H|[]]; congruence).
  assert (Hab' : in_path a [b] = false)
    by (apply in_path_false; intros [H|[]]; congruence).
  assert (Ha : in_path a [a; b] = true)
    by (apply in_path_true; now left).
  assert (Hb : in_path b [b; a] = true)
    by (apply in_path_true; now left).
  unfold dfs_all. cbn [dict_keys two_cycle_graph map fst fold_left].
  rewrite !dfs_S, Hnil, Hga. cbn [fold_left report_step app].
  rewrite !dfs_S, Hba, Hgb. cbn [fold_left report_step app].
  rewrite !dfs_S, Ha. cbn [app].
  rewrite dfs_S, Hnil, Hgb. cbn [fold_left report_step app].
  rewrite !dfs_S, Hab', Hga. cbn [fold_left report_step app].
  rewrite !dfs_S, Hb. reflexivity.
Qed.

(** C7. When module [a] imports [b] and [b] imports [a], the detector adds
    both ["Cycle detected: a -> b -> a"], from the traversal started at [a],
    and ["Cycle detected: b -> a -> b"], from the one started at [b]; the two
    reports differ and both stay.  When the graph holds these two edges only,
    the reports added are exactly these two, in the order of the modules. *)
Theorem import_cycle_reported_from_each_start :
  forall (r : results) (a b : string),
    a <> b ->
    In b (graph_get (get_imports_graph r) a) ->
    In a (graph_get (get_imports_graph r) b) ->
    exists cycles,
      import_cycles (_detect_import_cycles r) = import_cycles r ++ cycles
      /\ In (cycle_msg [a; b; a]) cycles
      /\ In (cycle_msg [b; a; b]) cycles
      /\ cycle_msg [a; b; a] <> cycle_msg [b; a; b]
      /\ cycle_msg [a; b; a]
         = "Cycle detected: " +++ a +++ " -> " +++ b +++ " -> " +++ a
      /\ (get_imports_graph r = two_cycle_graph a b ->
          cycles = [cycle_msg [a; b; a]; cycle_msg [b; a; b]]).
Proof.
  intros r a b Hab Hb Ha.
  destruct (detect_import_cycles_cycles r) as [cycles [Hall Hcycles]].
  exists cycles. split; [exact Hcycles|].
  split; [eapply dfs_all_two_cycle; eassumption|].
  split; [eapply dfs_all_two_cycle; eauto|].
  split; [now apply cycle_msg_two_distinct|].
  split; [reflexivity|].
  intros Hg. rewrite Hg in Hall. simpl List.length in Hall.
  rewrite dfs_all_two_cycle_graph in Hall by assumption. congruence.
Qed.

Lemma import_cycle_reported_from_each_start_witness :
  let r := set_imports_graph "b" ["a"]
             (set_imports_graph "a" ["b"] init_results) in
  import_cycles (_detect_import_cycles r)
  = ["Cycle detected: a -> b -> a"; "Cycle detected: b -> a -> b"].
Proof.
  intros r.
  destruct (import_cycle_reported_from_each_start r "a" "b")
    as [cycles [Hc [_ [_ [_ [_ Hexact]]]]]].
  - discriminate.
  - simpl. auto.
  - simpl. auto.
  - rewrite Hc, Hexact; reflexivity.
Defined.

(** ** Import registration *)

Lemma node_imports_absent_module (n : node) :
  absent_module n = true -> node_imports n = [].
Proof.
  unfold absent_module, node_imports. intros H.
  apply andb_true_iff in H. destruct H as [Hfrom Hmod].
  destruct (isinstance n [Import]) eqn:Himp.
  - (* one class cannot be both [Import] and [ImportFrom] *)
    unfold isinstance in *.
    destruct (in_dec ast_class_eq_dec (node_class n) [Import])
      as [[H|[]]|]; [|discriminate].
    destruct (in_dec ast_class_eq_dec (node_class n) [ImportFrom])
      as [[H'|[]]|]; [congruence | discriminate].
  - rewrite Hfrom. destruct (module (node_attrs n)); [discriminate|reflexivity].
Qed.

Lemma flat_map_filter_nil {A B} (f : A -> list B) (p : A -> bool)
    (l : list A) :
  (forall x, p x = false -> f x = []) ->
  flat_map f (filter p l) = flat_map f l.
Proof.
  intros Hnil. induction l as [|x l IH]; [reflexivity|].
  simpl. destruct (p x) eqn:E; simpl.
  - now rewrite IH.
  - now rewrite (Hnil x E), IH.
Qed.

Lemma imports_of_sources (tree : node) :
  imports_of tree = flat_map node_imports (filter has_source (walk tree)).
Proof.
  unfold imports_of. rewrite for_each_collect. simpl.
  symmetry. apply flat_map_filter_nil. intros n Hn.
  apply node_imports_absent_module. unfold has_source in Hn.
  now apply negb_false_iff in Hn.
Qed.

(** C10. An import-from statement without source module adds nothing to the
    imports of its file: the list stored in the graph under the module of the
    file is built from the other nodes of the tree alone, so a tree that
    differs only in such statements gives the same results, the same graph
    and the same reported cycles. *)
Theorem relative_import_records_no_edge :
  forall (filepath : string) (tree : node) (r : results) (n : node),
    In n (subnodes tree) ->
    isinstance n [ImportFrom] = true ->
    module (node_attrs n) = None ->
    node_imports n = []
    /\ ~ In n (filter has_source (walk tree))
    /\ graph_get (get_imports_graph (_register_imports filepath tree r))
         (module_id filepath)
       = flat_map node_imports (filter has_source (walk tree))
    /\ (forall tree',
          filter has_source (walk tree') = filter has_source (walk tree) ->
          _register_imports filepath tree' r = _register_imports filepath tree r
          /\ _detect_import_cycles (_register_imports filepath tree' r)
             = _detect_import_cycles (_register_imports filepath tree r)).
Proof.
  intros filepath tree r n Hin Hfrom Hmod.
  assert (Habs : absent_module n = true)
    by (unfold absent_module; now rewrite Hfrom, Hmod).
  split; [now apply node_imports_absent_module|].
  split.
  { intros H. apply filter_In in H. destruct H as [_ H].
    unfold has_source in H. rewrite Habs in H. discriminate. }
  split.
  { unfold _register_imports, set_imports_graph, graph_get.
    unfold get_imports_graph at 1. cbn [imports_graph].
    rewrite dict_get_set_same. apply imports_of_sources. }
  intros tree' Hsame.
  assert (Heq : _register_imports filepath tree' r
                = _register_imports filepath tree r).
  { unfold _register_imports. now rewrite !imports_of_sources, Hsame. }
  split; [exact Heq | now rewrite Heq].
Qed.

Lemma relative_import_records_no_edge_witness :
  node_imports relative_import = []
  /\ get_imports_graph
       (_register_imports "pkg/mod.py" relative_import_module init_results)
     = [("mod", ["os"])].
Proof.
  destruct (relative_import_records_no_edge "pkg/mod.py"
              relative_import_module init_results relative_import)
    as [Hnil _].
  - simpl. auto.
  - reflexivity.
  - reflexivity.
  - split; [exact Hnil | reflexivity].
Defined.

(** ** The run *)

Lemma dirtree_ind' (P : dirtree -> Prop)
    (step : forall fnames subs,
        Forall (fun entry => P (snd entry)) subs -> P (Dir fnames subs)) :
  forall d, P d.
Proof.
  fix IH 1. intros [fnames subs]. apply step.
  induction subs as [|[nm sub] subs IHsubs]; constructor;
    [apply IH | exact IHsubs].
Qed.

Lemma list_sum_cons (x : nat) (l : list nat) :
  list_sum (x :: l) = x + list_sum l.
Proof. reflexivity. Qed.

Lemma os_walk_count (d : dirtree) :
  forall top,
    list_sum (map (fun entry => List.length (filter is_source (snd entry)))
                (os_walk top d))
    = count_sources d.
Proof.
  induction d as [fnames subs IH] using dirtree_ind'. intros top.
  cbn [os_walk count_sources]. rewrite map_cons, list_sum_cons.
  cbn [snd]. f_equal.
  induction IH as [|entry subs Hentry _ IHsubs]; [reflexivity|].
  cbn [flat_map]. rewrite map_app, list_sum_app, Hentry, IHsubs.
  reflexivity.
Qed.

Section RunFacts.

Variable os_path_isfile : string -> bool.
Variable os_dir : string -> option dirtree.
Variable open_read : string -> option string.
Variable ast_parse : string -> parse_result.
Variable ast_get_docstring : node -> option string.

Local Abbreviation analyze_file :=
  (_analyze_file open_read ast_parse ast_get_docstring).
Local Abbreviation results_of :=
  (file_results open_read ast_parse ast_get_docstring).
Local Abbreviation run_analysis :=
  (analyze os_path_isfile os_dir open_read ast_parse ast_get_docstring).
Local Abbreviation detect_duplicates := (_detect_duplicates open_read).
Local Abbreviation finish_run := (finish open_read).

(** *** What the evaluators leave alone *)

Lemma analyze_docstrings_frame filepath tree r :
  let r' := _analyze_docstrings ast_get_docstring filepath tree r in
  files r' = files r /\ complexity r' = complexity r.
Proof.
  unfold _analyze_docstrings.
  split; apply for_each_preserves; intros n s;
    destruct (isinstance n _); try reflexivity;
    destruct (ast_get_docstring n); reflexivity.
Qed.

Lemma analyze_structure_frame filepath tree r :
  let r' := _analyze_structure filepath tree r in
  files r' = files r /\ complexity r' = complexity r.
Proof.
  unfold _analyze_structure.
  split; apply for_each_preserves; intros n s;
    destruct (isinstance n _); try reflexivity;
    destruct (4 <? _)%nat; reflexivity.
Qed.

Lemma check_line_frame filepath il r :
  let r' := check_line filepath il r in
  files r' = files r /\ complexity r' = complexity r.
Proof.
  unfold check_line.
  destruct (120 <? String.length (snd il))%nat,
    (PyStr.endswith (snd il) " "),
    (PyStr.search_comma_word (snd il)),
    (PyStr.contains tab (snd il)); split; reflexivity.
Qed.

Lemma check_pep8_frame filepath code r :
  let r' := _check_pep8 filepath code r in
  files r' = files r /\ complexity r' = complexity r.
Proof.
  unfold _check_pep8.
  split; apply for_each_preserves; intros il s; apply check_line_frame.
Qed.

Lemma compute_complexity_keys filepath tree r p :
  p <> filepath ->
  dict_get string_dec (complexity (_compute_complexity filepath tree r)) p
  = dict_get string_dec (complexity r) p.
Proof.
  intros Hne. unfold _compute_complexity.
  destruct (12 <? _)%nat; simpl; now apply dict_get_set_other.
Qed.

(** A field of the results that none of the five evaluators writes. *)
Lemma evaluators_preserve {B} (proj : results -> B) :
  (forall x r, proj (append_missing_docstrings x r) = proj r) ->
  (forall x r, proj (append_warnings x r) = proj r) ->
  (forall k v r, proj (set_complexity k v r) = proj r) ->
  (forall x r, proj (append_pep8 x r) = proj r) ->
  (forall k v r, proj (set_imports_graph k v r) = proj r) ->
  forall filepath code tree r,
    proj (_register_imports filepath tree
            (_check_pep8 filepath code
               (_analyze_structure filepath tree
                  (_compute_complexity filepath tree
                     (_analyze_docstrings ast_get_docstring filepath tree
                        r)))))
    = proj r.
Proof.
  intros Hdoc Hwarn Hcomp Hpep Himp filepath code tree r.
  unfold _register_imports. rewrite Himp.
  unfold _check_pep8.
  rewrite (for_each_preserves proj).
  2:{ intros il s. unfold check_line.
      destruct (120 <? _)%nat, (PyStr.endswith _ _),
        (PyStr.search_comma_word _), (PyStr.contains _ _);
        rewrite ?Hpep; reflexivity. }
  unfold _analyze_structure.
  rewrite (for_each_preserves proj).
  2:{ intros n s. destruct (isinstance n _); [|reflexivity].
      destruct (4 <? _)%nat; rewrite ?Hwarn; reflexivity. }
  unfold _compute_complexity.
  replace (proj (if (12 <? complexity_of tree)%nat then _ else _))
    with (proj (_analyze_docstrings ast_get_docstring filepath tree r)).
  2:{ destruct (12 <? _)%nat; rewrite ?Hwarn, Hcomp; reflexivity. }
  unfold _analyze_docstrings.
  apply (for_each_preserves proj).
  intros n s. destruct (isinstance n _); [|reflexivity].
  destruct (ast_get_docstring n); rewrite ?Hdoc; reflexivity.
Qed.

(** *** One call of [_analyze_file] *)

(** The results of the call, by cases on what reading and parsing give. *)
Lemma file_results_eq (filepath : string) (r : results) :
  results_of filepath r
  = match open_read filepath with
    | None =>
        append_errors (cannot_read_msg filepath) (append_files filepath r)
    | Some code =>
        match ast_parse code with
        | SyntaxError e =>
            append_errors (syntax_error_msg filepath e)
              (append_files filepath r)
        | ParseRaised _ => append_files filepath r
        | Parsed tree =>
            _register_imports filepath tree
              (_check_pep8 filepath code
                 (_analyze_structure filepath tree
                    (_compute_complexity filepath tree
                       (_analyze_docstrings ast_get_docstring filepath tree
                          (append_files filepath r)))))
        end
    end.
Proof.
  unfold file_results, _analyze_file, bind, update. cbv beta iota.
  destruct (open_read filepath) as [code|]; [|reflexivity].
  destruct (ast_parse code) as [tree|e|e]; reflexivity.
Qed.

(** The call raises exactly when the parser raises another exception than
    [SyntaxError]; it prints nothing. *)
Lemma analyze_file_run (filepath : string) (st : state) :
  analyze_file filepath st
  = (match parse_raises open_read ast_parse filepath with
     | Some e => Raised (ParseFailure e)
     | None => Returned tt
     end,
     mkState (results_of filepath (res st)) (stdout st)).
Proof.
  unfold file_results, parse_raises, _analyze_file, bind, update.
  cbv beta iota.
  destruct (open_read filepath) as [code|]; [|reflexivity].
  destruct (ast_parse code) as [tree|e|e]; reflexivity.
Qed.

(** [_analyze_file] records the path first, whatever happens next. *)
Lemma analyze_file_files filepath r :
  files (results_of filepath r) = files r ++ [filepath].
Proof.
  rewrite file_results_eq.
  destruct (open_read filepath) as [code|]; [|reflexivity].
  destruct (ast_parse code) as [tree|e|e]; try reflexivity.
  now rewrite (evaluators_preserve files) by reflexivity.
Qed.

(** *** The cross-file phase *)

Lemma same_file_findings_refl r : same_file_findings r r.
Proof. repeat split. Qed.

Lemma same_file_findings_trans r1 r2 r3 :
  same_file_findings r1 r2 -> same_file_findings r2 r3 ->
  same_file_findings r1 r3.
Proof.
  unfold same_file_findings. intros H12 H23.
  repeat match goal with H : _ /\ _ |- _ => destruct H end.
  repeat split; congruence.
Qed.

Lemma detect_import_cycles_frame r :
  same_file_findings r (_detect_import_cycles r).
Proof.
  unfold _detect_import_cycles. destruct (dfs_all _ _); repeat split.
Qed.

Lemma report_groups_frame (seen : dict (list string) (list string)) :
  forall r, same_file_findings r (for_each seen report_group r).
Proof.
  induction seen as [|entry seen IH]; intros r.
  - apply same_file_findings_refl.
  - rewrite for_each_cons.
    eapply same_file_findings_trans; [|apply IH].
    unfold report_group. destruct (1 <? _)%nat; repeat split.
Qed.

Lemma only_prints_print line : only_prints (print line).
Proof. intros st. split; reflexivity. Qed.

Lemma only_prints_ret : only_prints (ret tt).
Proof. intros st. split; reflexivity. Qed.

Lemma only_prints_bind (m : M unit) (k : unit -> M unit) :
  only_prints m -> (forall u, only_prints (k u)) -> only_prints (bind m k).
Proof.
  intros Hm Hk st. unfold bind.
  destruct (Hm st) as [Hfst Hres]. destruct (m st) as [o st'].
  simpl in Hfst, Hres. subst o. destruct (Hk tt st') as [Hfst' Hres'].
  split; congruence.
Qed.

Lemma only_prints_for_M {A} (l : list A) (body : A -> M unit) :
  (forall x, only_prints (body x)) -> only_prints (for_M l body).
Proof.
  intros Hbody. induction l as [|x l IH]; simpl.
  - apply only_prints_ret.
  - apply only_prints_bind; auto.
Qed.

Lemma only_prints_section title l : only_prints (print_section title l).
Proof.
  destruct l as [|x l]; [apply only_prints_ret|].
  unfold print_section.
  apply only_prints_bind; [apply only_prints_print|]. intros _.
  apply only_prints_for_M. intros y. apply only_prints_print.
Qed.

Lemma only_prints_summary : only_prints _print_summary.
Proof.
  intros st. unfold _print_summary, bind at 1, get_results.
  cbv beta iota.
  match goal with
  | |- fst (?m st) = _ /\ _ => assert (Hm : only_prints m); [|apply Hm]
  end.
  repeat (apply only_prints_bind;
          [first [apply only_prints_print | apply only_prints_section]
          | intros _]).
  apply only_prints_print.
Qed.

(** [_detect_duplicates] raises at the first analyzed file that cannot be
    read, before it has recorded anything. *)
Lemma group_files_unreadable (paths : list string) :
  forall seen,
    (exists p, In p paths /\ open_read p = None) ->
    exists p, In p paths /\ open_read p = None
              /\ group_files open_read paths seen = inl (ReadError p).
Proof.
  induction paths as [|q paths IH]; intros seen [p [Hin Hp]].
  - destruct Hin.
  - simpl. destruct (open_read q) as [code|] eqn:Hq.
    + destruct Hin as [->|Hin]; [congruence|].
      destruct (IH (defaultdict_append seen (signature code) q))
        as [p' [Hin' [Hp' Hg]]]; [eauto|].
      exists p'. auto.
    + exists q. auto.
Qed.

Lemma detect_duplicates_frame st :
  same_file_findings (res st) (res (snd (detect_duplicates st)))
  /\ stdout (snd (detect_duplicates st)) = stdout st.
Proof.
  unfold _detect_duplicates, bind, get_results.
  destruct (group_files open_read (files (res st)) []) as [e|seen]; simpl.
  - split; [apply same_file_findings_refl | reflexivity].
  - split; [apply report_groups_frame | reflexivity].
Qed.

Lemma finish_frame st :
  same_file_findings (res st) (res (snd (finish_run st))).
Proof.
  unfold finish, bind at 1, update.
  set (st1 := mkState (_detect_import_cycles (res st)) (stdout st)).
  assert (H1 : same_file_findings (res st) (res st1))
    by apply detect_import_cycles_frame.
  unfold bind.
  destruct (detect_duplicates_frame st1) as [H2 _].
  destruct (detect_duplicates st1) as [[[]|e] st2]; simpl in *.
  - destruct (only_prints_summary st2) as [_ H3]. rewrite H3.
    eapply same_file_findings_trans; eassumption.
  - eapply same_file_findings_trans; eassumption.
Qed.

(** *** Invalid roots *)

(** C2, amended.  For a root that is neither a file with the suffix nor a
    directory, the run returns at once: it has printed the error once on
    standard output, and the results are those of a fresh analyzer, with
    no error recorded, no file and no finding of any kind. *)
Theorem invalid_root_prints_error :
  forall path : string,
    os_path_isfile path && is_source path = false ->
    os_path_isdir os_dir path = false ->
    run_analysis path
    = (Returned tt,
       mkState init_results
         ["[Analyzer] Starting analysis: " +++ path;
          "[ERROR] Invalid path."]).
Proof.
  intros path Hfile Hdir.
  unfold analyze, run, bind, print.
  unfold is_source in Hfile. rewrite Hfile.
  unfold os_path_isdir in Hdir.
  destruct (os_dir path); [discriminate | reflexivity].
Qed.

(** *** Unreadable files *)

(** Once the files are enumerated, an unreadable file among them makes
    the rest of the run raise, and no duplicate finding is recorded. *)
Lemma finish_raises st :
  (exists p, In p (files (res st)) /\ open_read p = None) ->
  exists p, In p (files (res st)) /\ open_read p = None
            /\ fst (finish_run st) = Raised (ReadError p)
            /\ duplicates (res (snd (finish_run st))) = duplicates (res st).
Proof.
  intros Hbad.
  destruct (detect_import_cycles_frame (res st)) as [Hfiles _].
  rewrite <- Hfiles in Hbad.
  destruct (group_files_unreadable _ [] Hbad) as [p [Hin [Hp Hg]]].
  exists p. rewrite <- Hfiles. split; [exact Hin|]. split; [exact Hp|].
  destruct (finish_run st) as [o st'] eqn:E. cbn [fst snd].
  unfold finish, bind at 1, update in E. cbv beta iota in E.
  unfold _detect_duplicates, bind, get_results in E. cbn [res] in E.
  rewrite Hg in E. unfold raise in E. injection E as <- <-.
  split; [reflexivity|]. cbn [res].
  unfold _detect_import_cycles. destruct (dfs_all _ _); reflexivity.
Qed.

(** *** Duplicate groups *)

Lemma has_signature_own p code :
  open_read p = Some code -> has_signature open_read (signature code) p = true.
Proof.
  intros Hp. unfold has_signature. rewrite Hp.
  destruct (lines_eq_dec _ _); congruence.
Qed.

Lemma has_signature_other p code k :
  open_read p = Some code -> k <> signature code ->
  has_signature open_read k p = false.
Proof.
  intros Hp Hk. unfold has_signature. rewrite Hp.
  destruct (lines_eq_dec _ _); congruence.
Qed.

Lemma grouped_step seen done p code :
  grouped open_read seen done -> open_read p = Some code ->
  grouped open_read (defaultdict_append seen (signature code) p) (done ++ [p]).
Proof.
  intros [Hnd Hget] Hp. split.
  - unfold defaultdict_append.
    destruct (dict_get _ seen _); now apply dict_keys_set_NoDup.
  - intros k. unfold members_of. rewrite filter_app.
    cbn [filter]. unfold defaultdict_append. rewrite (Hget (signature code)).
    destruct (lines_eq_dec k (signature code)) as [->|Hne].
    + rewrite (has_signature_own _ _ Hp).
      unfold members_of.
      destruct (filter (has_signature open_read (signature code)) done)
        as [|q m];
        rewrite dict_get_set_same; reflexivity.
    + rewrite (has_signature_other _ _ _ Hp Hne), app_nil_r.
      unfold members_of at 1.
      destruct (filter (has_signature open_read (signature code)) done);
        rewrite dict_get_set_other by exact Hne; apply Hget.
Qed.

Lemma group_files_grouped (paths : list string) :
  forall seen done,
    (forall p, In p paths -> open_read p <> None) ->
    grouped open_read seen done ->
    exists seen',
      group_files open_read paths seen = inr seen'
      /\ grouped open_read seen' (done ++ paths).
Proof.
  induction paths as [|q paths IH]; intros seen done Hall Hg; simpl.
  - exists seen. now rewrite app_nil_r.
  - destruct (open_read q) as [code|] eqn:Hq.
    + destruct (IH (defaultdict_append seen (signature code) q)
                  (done ++ [q])) as [seen' [Hrun Hg']].
      * intros p Hp. apply Hall. now right.
      * now apply grouped_step.
      * exists seen'. split; [exact Hrun|].
        now rewrite <- app_assoc in Hg'.
    + exfalso. apply (Hall q); [now left | exact Hq].
Qed.

Lemma report_groups_duplicates (seen : dict (list string) (list string)) :
  forall r,
    duplicates (for_each seen report_group r)
    = duplicates r ++ map duplicate_msg (map snd (filter reported seen)).
Proof.
  induction seen as [|entry seen IH]; intros r.
  - unfold for_each. simpl. now rewrite app_nil_r.
  - rewrite for_each_cons, IH. unfold report_group. cbn [filter].
    unfold reported at 2. destruct (1 <? _)%nat; simpl.
    + now rewrite <- app_assoc.
    + reflexivity.
Qed.

(** *** Style findings of a file *)


End RunFacts.

(** The run over [proj/]: one syntax error, one duplicate group, three
    scores. *)
Example run_on_sample_project :
  fst (Sample.analyze_root "proj") = Returned tt
  /\ res (snd (Sample.analyze_root "proj"))
     = mkResults
         ["proj/a.py"; "proj/b.py"; "proj/pkg/c.py"; "proj/pkg/broken.py"]
         ["Syntax error in proj/pkg/broken.py: "
          +++ "invalid syntax (<unknown>, line 1)"]
         []
         [("proj/a.py", 1); ("proj/b.py", 1); ("proj/pkg/c.py", 1)]
         []
         ["Possible duplicate code in: proj/a.py, proj/b.py"]
         [] []
         (Some [("a", ["os"]); ("b", ["os"]); ("c", ["os"])]).
Proof. split; vm_compute; reflexivity. Qed.

(** C1 fails on the code.  [_analyze_file] catches the failure to read
    [legacy/latin1.py] and records the error, but the path stays in the list
    of analyzed files, and [_detect_duplicates] opens every file of that list
    again outside any [try]: the run raises, and neither the duplicate
    detection nor the summary completes. *)
Theorem unreadable_file_raises :
  Sample.analyze_root "legacy"
  = (Raised (ReadError "legacy/latin1.py"),
     mkState
       (mkResults
          ["legacy/ok.py"; "legacy/latin1.py"]
          ["Cannot read file: legacy/latin1.py"]
          [] [("legacy/ok.py", 1)] [] [] [] []
          (Some [("ok", ["os"])]))
       ["[Analyzer] Starting analysis: legacy"]).
Proof. vm_compute. reflexivity. Qed.

(** C2, as stated, fails: at a path where nothing exists the run records no
    error in the results; it only prints one. *)
Lemma invalid_root_counterexample :
  Sample.isfile "missing" && is_source "missing" = false
  /\ os_path_isdir Sample.dir "missing" = false
  /\ errors (res (snd (Sample.analyze_root "missing"))) = []
  /\ List.length (errors (res (snd (Sample.analyze_root "missing")))) <> 1.
Proof. repeat split; try reflexivity. discriminate. Qed.

Lemma invalid_root_prints_error_witness :
  Sample.analyze_root "missing"
  = (Returned tt,
     mkState init_results
       ["[Analyzer] Starting analysis: missing"; "[ERROR] Invalid path."]).
Proof.
  apply (invalid_root_prints_error Sample.isfile Sample.dir Sample.read
           Sample.parse Sample.get_docstring "missing"); reflexivity.
Defined.

(** C3 fails on the code.  The text of [vendored/blob.py] holds a null
    character: [ast.parse] fails on it with [ValueError], and the handler of
    [_analyze_file], written for [SyntaxError] alone, does not catch it.  The
    run on that file raises, and no error finding is recorded for the
    file. *)
Theorem null_character_file_raises :
  Sample.read "vendored/blob.py" = Some Sample.text_null
  /\ Sample.analyze_root "vendored/blob.py"
     = (Raised (ParseFailure "source code string cannot contain null bytes"),
        mkState
          (mkResults ["vendored/blob.py"] [] [] [] [] [] [] [] None)
          ["[Analyzer] Starting analysis: vendored/blob.py"]).
Proof. split; vm_compute; reflexivity. Qed.

(** C9 fails on the code.  [vendored/] holds two files with the suffix;
    the exception that leaves [_analyze_file] on the first one leaves the
    loop of [run] too, and the second file never enters the analyzed-files
    list. *)
Theorem later_files_not_analyzed :
  os_path_isdir Sample.dir "vendored" = true
  /\ discovered_count Sample.isfile Sample.dir "vendored" = 2
  /\ fst (Sample.analyze_root "vendored")
     = Raised (ParseFailure "source code string cannot contain null bytes")
  /\ files (res (snd (Sample.analyze_root "vendored")))
     = ["vendored/blob.py"].
Proof. repeat split; vm_compute; reflexivity. Qed.

(** C8 fails on the code.  [mirror/a.py] and [mirror/copy.py] can be read
    and have the same text, but [mirror/latin1.py] cannot be read:
    [_detect_duplicates] raises on it in its first loop, before it has
    reported any group, and the pair is not reported. *)
Theorem duplicate_pair_not_reported :
  Sample.read "mirror/a.py" = Some Sample.text_os
  /\ Sample.read "mirror/copy.py" = Some Sample.text_os
  /\ Sample.analyze_root "mirror"
     = (Raised (ReadError "mirror/latin1.py"),
        mkState
          (mkResults
             ["mirror/a.py"; "mirror/copy.py"; "mirror/latin1.py"]
             ["Cannot read file: mirror/latin1.py"]
             [] [("mirror/a.py", 1); ("mirror/copy.py", 1)] [] [] [] []
             (Some [("a", ["os"]); ("copy", ["os"])]))
          ["[Analyzer] Starting analysis: mirror"]).
Proof. repeat split; vm_compute; reflexivity. Qed.



(** The run on [drafts/wide.py], which parses: its one line yields the four
    style findings. *)
Example run_on_wide_import :
  pep8 (res (snd (Sample.analyze_root "drafts/wide.py")))
  = ["drafts/wide.py:1 -> Line too long (121 > 120)";
     "drafts/wide.py:1 -> Trailing whitespace";
     "drafts/wide.py:1 -> Missing space after comma";
     "drafts/wide.py:1 -> Tab indent found (use 4 spaces)"].
Proof. vm_compute. reflexivity. Qed.

(** * Further properties *)

(** ** Docstring analysis *)

Lemma for_each_missing_docstrings {A} (p : A -> bool) (msg : A -> string)
    (l : list A) :
  forall r,
    missing_docstrings
      (for_each l (fun x r =>
         if p x then append_missing_docstrings (msg x) r else r) r)
    = missing_docstrings r ++ map msg (filter p l).
Proof.
  induction l as [|x l IH]; intros r.
  - unfold for_each. simpl. now rewrite app_nil_r.
  - rewrite for_each_cons, IH. simpl.
    destruct (p x); simpl; [now rewrite <- app_assoc | reflexivity].
Qed.

Lemma analyze_docstrings_as_filter (get_docstring : node -> option string)
    (filepath : string) (tree : node) (r : results) :
  _analyze_docstrings get_docstring filepath tree r
  = for_each (walk tree) (fun n r =>
      if undocumented get_docstring n
      then append_missing_docstrings (missing_docstring_msg filepath n) r
      else r) r.
Proof.
  unfold _analyze_docstrings. apply for_each_ext. intros n s.
  unfold undocumented, is_definition.
  destruct (isinstance n _); [|reflexivity].
  destruct (get_docstring n); reflexivity.
Qed.

(** [_analyze_docstrings] reports the definitions (functions, asynchronous
    functions, classes) anywhere in the tree that have no docstring: one
    finding for each of them, none for anything else, and it touches no other
    kind of finding. *)
Theorem missing_docstrings_spec :
  forall (get_docstring : node -> option string) (filepath : string)
         (tree : node) (r : results),
    let r' := _analyze_docstrings get_docstring filepath tree r in
    exists added,
      missing_docstrings r' = missing_docstrings r ++ added
      /\ List.length added
         = List.length (filter (undocumented get_docstring) (subnodes tree))
      /\ (forall n, In n (subnodes tree) ->
                    undocumented get_docstring n = true ->
                    In (missing_docstring_msg filepath n) added)
      /\ (forall w, In w added ->
            exists n, In n (subnodes tree)
                      /\ undocumented get_docstring n = true
                      /\ w = missing_docstring_msg filepath n)
      /\ files r' = files r /\ errors r' = errors r
      /\ warnings r' = warnings r /\ complexity r' = complexity r
      /\ duplicates r' = duplicates r
      /\ import_cycles r' = import_cycles r
      /\ pep8 r' = pep8 r /\ imports_graph r' = imports_graph r.
Proof.
  intros get_docstring filepath tree r r'. subst r'.
  rewrite analyze_docstrings_as_filter.
  exists (map (missing_docstring_msg filepath)
            (filter (undocumented get_docstring) (walk tree))).
  split; [apply for_each_missing_docstrings|].
  split; [rewrite length_map; apply filter_length_perm, walk_perm|].
  split.
  { intros n Hn Hu. apply in_map, filter_In. split; [now apply walk_In|].
    exact Hu. }
  split.
  { intros w Hw. apply in_map_iff in Hw. destruct Hw as [n [<- Hn]].
    apply filter_In in Hn. destruct Hn as [Hn Hu].
    exists n. repeat split; [now apply walk_In | exact Hu]. }
  repeat split; apply for_each_preserves; intros n s;
    destruct (undocumented get_docstring n); reflexivity.
Qed.

(** ** Bounds on the nesting depth *)

Lemma filter_subnodes_child (p : node -> bool) (ch : node) (cs : list node) :
  In ch cs ->
  List.length (filter p (subnodes ch))
  <= List.length (filter p (flat_map subnodes cs)).
Proof.
  induction cs as [|x cs IH]; intros Hin; [destruct Hin|].
  cbn [flat_map]. rewrite filter_app, length_app.
  destruct Hin as [->|Hin]; [lia|]. specialize (IH Hin). lia.
Qed.

Lemma filter_subnodes_root (p : node -> bool) c a cs :
  List.length (filter p (flat_map subnodes cs))
  <= List.length (filter p (subnodes (Node c a cs))).
Proof.
  cbn [subnodes filter]. destruct (p (Node c a cs)); simpl; lia.
Qed.

(** A node of a tree has no more conditionals below it than the tree. *)
Lemma filter_subnodes_le (p : node -> bool) (tree : node) :
  forall n, In n (subnodes tree) ->
    List.length (filter p (subnodes n))
    <= List.length (filter p (subnodes tree)).
Proof.
  induction tree as [c a cs IH] using node_ind'. intros n Hn.
  cbn [subnodes] in Hn. destruct Hn as [<-|Hn]; [lia|].
  apply in_flat_map in Hn. destruct Hn as [ch [Hch Hn]].
  rewrite Forall_forall in IH.
  etransitivity; [apply (IH ch Hch n Hn)|].
  etransitivity; [apply filter_subnodes_child; exact Hch|].
  apply filter_subnodes_root.
Qed.

Lemma nesting_depth_le_count (n : node) :
  _nesting_depth n 0 <= List.length (filter is_If (subnodes n)).
Proof.
  induction n as [c a cs IH] using node_ind'.
  destruct (is_If (Node c a cs)) eqn:HIf.
  - cbn [_nesting_depth]. rewrite is_If_class in HIf.
    destruct (ast_class_eq_dec c If); [|discriminate].
    cbn [subnodes filter]. rewrite is_If_class.
    destruct (ast_class_eq_dec c If); [|congruence].
    apply list_max_le. constructor; [lia|].
    apply Forall_map. rewrite Forall_forall in IH |- *.
    intros ch Hch. rewrite nesting_depth_shift.
    specialize (IH ch Hch).
    pose proof (filter_subnodes_child is_If ch cs Hch).
    cbn [List.length]. lia.
  - rewrite nesting_depth_not_If by exact HIf. lia.
Qed.

Lemma filter_none {A} (p : A -> bool) (l : list A) :
  (forall x, In x l -> p x = false) -> filter p l = [].
Proof.
  induction l as [|x l IH]; intros Hall; [reflexivity|].
  simpl. rewrite (Hall x) by now left. apply IH.
  intros y Hy. apply Hall. now right.
Qed.

Lemma nesting_depth_le_tree (tree : node) (k : nat) :
  List.length (filter is_If (subnodes tree)) <= k ->
  forall n, In n (subnodes tree) -> _nesting_depth n 0 <= k.
Proof.
  intros Hk n Hn. etransitivity; [apply nesting_depth_le_count|].
  etransitivity; [apply filter_subnodes_le; exact Hn | exact Hk].
Qed.

Lemma no_deep_nesting (filepath : string) (tree : node) (r : results) :
  (forall n, In n (subnodes tree) -> _nesting_depth n 0 <= 4) ->
  warnings (_analyze_structure filepath tree r) = warnings r.
Proof.
  intros Hall. rewrite analyze_structure_warnings.
  rewrite filter_none; [simpl; now rewrite app_nil_r|].
  intros n Hn. apply walk_In in Hn.
  specialize (Hall n Hn). unfold deep_If.
  destruct (is_If n); [|reflexivity]. simpl.
  apply Nat.ltb_ge. lia.
Qed.

(** The depth measured at any node is at most the number of conditionals of
    the tree; so a tree with at most four conditionals gets no deep-nesting
    warning. *)
Theorem nesting_depth_bounded :
  forall (filepath : string) (tree : node) (r : results) (k : nat),
    List.length (filter is_If (subnodes tree)) <= k ->
    (forall n, In n (subnodes tree) -> _nesting_depth n 0 <= k)
    /\ (k <= 4 ->
        warnings (_analyze_structure filepath tree r) = warnings r).
Proof.
  intros filepath tree r k Hk.
  split; [now apply nesting_depth_le_tree|]. intros Hk4.
  apply no_deep_nesting. intros n Hn.
  pose proof (nesting_depth_le_tree tree k Hk n Hn). lia.
Qed.

Lemma nesting_depth_bounded_witness :
  _nesting_depth if_for_if 0 <= 2
  /\ warnings (_analyze_structure "m.py" if_for_if init_results) = [].
Proof.
  destruct (nesting_depth_bounded "m.py" if_for_if init_results 2)
    as [Hall Hw].
  - simpl. lia.
  - split; [apply Hall; simpl; auto | apply Hw; lia].
Defined.

(** A conditional is at least one level deeper than any conditional among
    its immediate children, whether that child is its test, in its body or
    in its [orelse]: the [If] of an [elif] counts as nested. *)
Theorem nesting_depth_child :
  forall n m : node,
    is_If n = true ->
    In m (iter_child_nodes n) ->
    is_If m = true ->
    1 + _nesting_depth m 0 <= _nesting_depth n 0.
Proof.
  intros n m Hn Hm HmIf.
  rewrite (nesting_depth_children n Hn)
    by (intros Hnil; rewrite Hnil in Hm; destruct Hm).
  apply -> Nat.succ_le_mono.
  assert (Hle := proj1 (list_max_le
    (map (fun d => _nesting_depth d 0) (filter is_If (iter_child_nodes n)))
    _) (Nat.le_refl _)).
  rewrite Forall_forall in Hle. apply Hle.
  apply (in_map (fun d => _nesting_depth d 0)), filter_In. now split.
Qed.

Lemma nesting_depth_child_witness :
  1 + _nesting_depth (elif_chain 2 1) 0 <= _nesting_depth (elif_chain 1 2) 0.
Proof.
  apply (nesting_depth_child (elif_chain 1 2) (elif_chain 2 1)).
  - reflexivity.
  - simpl. auto.
  - reflexivity.
Defined.

Lemma elif_chain_is_If (line k : nat) : is_If (elif_chain line (S k)) = true.
Proof. reflexivity. Qed.

Lemma elif_chain_SS (line k : nat) :
  elif_chain line (S (S k))
  = Node If (at_line line)
      [leaf Name; leaf (OtherClass "Pass"); elif_chain (S line) (S k)].
Proof. reflexivity. Qed.

Lemma elif_chain_If_children (line k : nat) :
  filter is_If
    [leaf Name; leaf (OtherClass "Pass"); elif_chain (S line) (S k)]
  = [elif_chain (S line) (S k)].
Proof. cbn [filter]. rewrite elif_chain_is_If. reflexivity. Qed.

Lemma elif_chain_depth (k : nat) :
  forall line, _nesting_depth (elif_chain line k) 0 = k.
Proof.
  induction k as [|k IH]; intros line; [reflexivity|].
  rewrite nesting_depth_children;
    [|apply elif_chain_is_If | discriminate].
  destruct k as [|k]; [reflexivity|].
  rewrite elif_chain_SS. cbn [iter_child_nodes].
  rewrite elif_chain_If_children. cbn [map].
  rewrite IH. simpl. lia.
Qed.

Lemma elif_chain_count (k : nat) :
  forall line,
    List.length (filter is_If (subnodes (elif_chain line k))) = k.
Proof.
  induction k as [|k IH]; intros line; [reflexivity|].
  destruct k as [|k]; [reflexivity|].
  rewrite elif_chain_SS. cbn [subnodes flat_map].
  rewrite app_nil_r.
  change (subnodes (leaf Name)) with [leaf Name].
  change (subnodes (leaf (OtherClass "Pass")))
    with [leaf (OtherClass "Pass")].
  cbn [app filter].
  rewrite <- elif_chain_SS, elif_chain_is_If.
  change (is_If (leaf Name)) with false.
  change (is_If (leaf (OtherClass "Pass"))) with false.
  cbn iota. cbn [List.length]. f_equal. apply IH.
Qed.

(** A flat [if]/[elif] chain with [k] branches measures depth [k], although
    nothing is nested in the source text: a chain of five or more branches
    gets the deep-nesting warning at its first line, and a chain of at most
    four gets none. *)
Theorem elif_chain_counts_as_nesting :
  forall (filepath : string) (line k : nat) (r : results),
    _nesting_depth (elif_chain line k) 0 = k
    /\ (4 < k ->
        In (nesting_msg filepath (elif_chain line k) k)
          (warnings (_analyze_structure filepath (elif_chain line k) r)))
    /\ (k <= 4 ->
        warnings (_analyze_structure filepath (elif_chain line k) r)
        = warnings r).
Proof.
  intros filepath line k r.
  split; [apply elif_chain_depth|]. split.
  - intros Hk. rewrite analyze_structure_warnings.
    apply in_or_app. right.
    rewrite <- (elif_chain_depth k line) at 2.
    apply (in_map (fun n => nesting_msg filepath n (_nesting_depth n 0))).
    apply filter_In. split.
    + apply walk_In. destruct (elif_chain line k); simpl; auto.
    + unfold deep_If. rewrite elif_chain_depth.
      destruct k as [|k]; [lia|]. rewrite elif_chain_is_If. simpl.
      apply Nat.ltb_lt. lia.
  - intros Hk. apply no_deep_nesting. intros n Hn.
    pose proof (nesting_depth_le_tree (elif_chain line k) k) as Hle.
    rewrite elif_chain_count in Hle. specialize (Hle (Nat.le_refl _) n Hn).
    lia.
Qed.

(** ** Imported names *)

Lemma contains_dot_cons (c : ascii) (s : string) :
  PyStr.contains "." (String c s)
  = if Ascii.eqb c "." then true else PyStr.contains "." s.
Proof.
  cbn [PyStr.contains String.prefix].
  destruct (ascii_dec "." c) as [<-|Hne].
  - destruct s; reflexivity.
  - destruct (Ascii.eqb c ".") eqn:E; [|reflexivity].
    apply Ascii.eqb_eq in E. congruence.
Qed.

Lemma split_head_no_dot (s : string) :
  PyStr.contains "." (PyStr.split_head "." s) = false.
Proof.
  induction s as [|c s IH]; [reflexivity|].
  cbn [PyStr.split_head]. destruct (Ascii.eqb c ".") eqn:E; [reflexivity|].
  rewrite contains_dot_cons, E. exact IH.
Qed.

Lemma split_head_dotted (x y : string) :
  PyStr.contains "." x = false ->
  PyStr.split_head "." (x +++ "." +++ y) = x.
Proof.
  induction x as [|c x IH]; intros Hx; [reflexivity|].
  rewrite contains_dot_cons in Hx. cbn [String.append PyStr.split_head].
  destruct (Ascii.eqb c "."); [discriminate|]. f_equal. now apply IH.
Qed.

Lemma split_head_plain (x : string) :
  PyStr.contains "." x = false -> PyStr.split_head "." x = x.
Proof.
  induction x as [|c x IH]; intros Hx; [reflexivity|].
  rewrite contains_dot_cons in Hx. cbn [PyStr.split_head].
  destruct (Ascii.eqb c "."); [discriminate|]. f_equal. now apply IH.
Qed.

Lemma node_imports_no_dot (n : node) :
  Forall (fun nm => PyStr.contains "." nm = false) (node_imports n).
Proof.
  unfold node_imports.
  destruct (isinstance n [Import]).
  - apply Forall_map, Forall_forall. intros a _. apply split_head_no_dot.
  - destruct (isinstance n [ImportFrom]); [|constructor].
    destruct (module (node_attrs n)) as [m|]; [|constructor].
    destruct (String.eqb m ""); constructor;
      [apply split_head_no_dot | constructor].
Qed.

(** Every name that [_register_imports] stores for a file is a top-level
    component: no stored name holds a dot, and the list stored under the
    module of the file is the list collected from its tree. *)
Theorem imports_are_top_level :
  forall (filepath : string) (tree : node) (r : results),
    Forall (fun nm => PyStr.contains "." nm = false) (imports_of tree)
    /\ graph_get (get_imports_graph (_register_imports filepath tree r))
         (module_id filepath)
       = imports_of tree.
Proof.
  intros filepath tree r. split.
  - unfold imports_of. rewrite for_each_collect. cbn [app].
    apply Forall_flat_map, Forall_forall. intros n _.
    apply node_imports_no_dot.
  - unfold _register_imports, set_imports_graph, graph_get.
    unfold get_imports_graph at 1. cbn [imports_graph].
    now rewrite dict_get_set_same.
Qed.

(** [import x.y] and [from x.y import z] record [x]; [import x] records
    [x]. *)
Theorem dotted_import_records_head :
  forall (x y : string) (a : attributes) (l : nat) (cs : list node),
    PyStr.contains "." x = false ->
    node_imports
      (Node Import a [Node alias (mkAttrs l (x +++ "." +++ y) None) []])
    = [x]
    /\ node_imports (Node Import a [Node alias (mkAttrs l x None) []]) = [x]
    /\ node_imports
         (Node ImportFrom (mkAttrs l "" (Some (x +++ "." +++ y))) cs)
       = [x].
Proof.
  intros x y a l cs Hx.
  assert (Himport : forall nm,
    node_imports (Node Import a [Node alias (mkAttrs l nm None) []])
    = [PyStr.split_head "." nm]) by reflexivity.
  rewrite !Himport, split_head_dotted, split_head_plain by exact Hx.
  repeat split.
  assert (Hfrom : forall m,
    node_imports (Node ImportFrom (mkAttrs l "" (Some m)) cs)
    = if String.eqb m "" then [] else [PyStr.split_head "." m])
    by reflexivity.
  rewrite Hfrom, split_head_dotted by exact Hx.
  destruct x; reflexivity.
Qed.

Lemma dotted_import_records_head_witness :
  node_imports
    (Node Import no_attrs [Node alias (mkAttrs 1 "os.path" None) []])
  = ["os"].
Proof.
  destruct (dotted_import_records_head "os" "path" no_attrs 1 [])
    as [H _]; [reflexivity | exact H].
Defined.

(** ** Files with the same module identifier *)

Section DictKeys.
Context {K V : Type}.
Variable K_eq_dec : forall x y : K, {x = y} + {x <> y}.

Lemma dict_keys_set_present (d : dict K V) k v :
  In k (dict_keys d) -> dict_keys (dict_set K_eq_dec d k v) = dict_keys d.
Proof.
  induction d as [|[k0 v0] d IH]; simpl; intros Hin; [destruct Hin|].
  destruct (K_eq_dec k k0) as [->|Hne]; [reflexivity|].
  simpl. f_equal. apply IH. destruct Hin; [congruence | assumption].
Qed.

Lemma dict_keys_set_self (d : dict K V) k v :
  In k (dict_keys (dict_set K_eq_dec d k v)).
Proof.
  induction d as [|[k0 v0] d IH]; simpl; [now left|].
  destruct (K_eq_dec k k0) as [->|Hne]; simpl; auto.
Qed.

End DictKeys.

(** Two files whose names give the same module identifier share one entry of
    the import graph: registering the second replaces the imports of the
    first, adds no module, and leaves every other entry alone. *)
Theorem same_module_id_overwrites :
  forall (p1 p2 : string) (t1 t2 : node) (r : results),
    module_id p1 = module_id p2 ->
    let r1 := _register_imports p1 t1 r in
    let r2 := _register_imports p2 t2 r1 in
    graph_get (get_imports_graph r2) (module_id p1) = imports_of t2
    /\ dict_keys (get_imports_graph r2) = dict_keys (get_imports_graph r1)
    /\ (forall k, k <> module_id p1 ->
          graph_get (get_imports_graph r2) k
          = graph_get (get_imports_graph r1) k).
Proof.
  intros p1 p2 t1 t2 r Hid r1 r2. subst r1 r2.
  unfold _register_imports, set_imports_graph.
  cbn [get_imports_graph imports_graph]. rewrite <- Hid. repeat split.
  - unfold graph_get. now rewrite dict_get_set_same.
  - apply dict_keys_set_present, dict_keys_set_self.
  - intros k Hk. unfold graph_get. now rewrite dict_get_set_other.
Qed.

Lemma same_module_id_overwrites_witness :
  let r1 := _register_imports "a/util.py" Sample.tree_os init_results in
  let r2 := _register_imports "b/util.py" relative_import_module r1 in
  get_imports_graph r1 = [("util", ["os"])]
  /\ dict_keys (get_imports_graph r2) = ["util"].
Proof.
  intros r1 r2.
  destruct (same_module_id_overwrites "a/util.py" "b/util.py"
              Sample.tree_os relative_import_module init_results)
    as [_ [Hkeys _]].
  - reflexivity.
  - split; [reflexivity | exact Hkeys].
Defined.

(** ** What the cycle detector reports *)

Lemma is_walk_tail (graph : dict string (list string)) (l1 l2 : list string) :
  is_walk graph (l1 ++ l2) -> is_walk graph l2.
Proof.
  induction l1 as [|a l1 IH]; [auto|].
  cbn [app is_walk]. destruct (l1 ++ l2) eqn:E.
  - destruct l1, l2; try discriminate. auto.
  - intros [_ H]. now apply IH.
Qed.

Lemma is_walk_snoc (graph : dict string (list string)) (l : list string)
    (a b : string) :
  is_walk graph (l ++ [a]) -> In b (graph_get graph a) ->
  is_walk graph ((l ++ [a]) ++ [b]).
Proof.
  induction l as [|c l IH]; intros Hw Hb.
  - simpl. auto.
  - cbn [app is_walk] in *.
    destruct (l ++ [a]) as [|d l'] eqn:E; [destruct l; discriminate|].
    cbn [app]. destruct Hw as [Hcd Hw]. split; [exact Hcd|].
    now apply IH.
Qed.

Lemma report_loop_adds {A} (P : string -> Prop)
    (f : A -> list string -> option (list string)) (l : list A) :
  (forall x c o, In x l -> f x c = Some o ->
     exists added, o = c ++ added /\ Forall P added) ->
  forall c out, fold_left (report_step f) l (Some c) = Some out ->
    exists added, out = c ++ added /\ Forall P added.
Proof.
  induction l as [|x l IH]; intros Hf c out; simpl.
  - intros [= <-]. exists []. now rewrite app_nil_r.
  - destruct (f x c) as [o|] eqn:E.
    + intros Hfold. destruct (Hf x c o (or_introl eq_refl) E)
        as [a1 [-> Ha1]].
      destruct (IH (fun y c' o' Hy => Hf y c' o' (or_intror Hy)) _ _ Hfold)
        as [a2 [-> Ha2]].
      exists (a1 ++ a2). rewrite app_assoc. split; [reflexivity|].
      now apply Forall_app.
    + rewrite report_loop_None. discriminate.
Qed.

Lemma dfs_sound (graph : dict string (list string)) (fuel : nat) :
  forall n path c o,
    is_walk graph (path ++ [n]) -> NoDup path ->
    dfs fuel graph n path c = Some o ->
    exists added, o = c ++ added /\ Forall (cycle_report graph) added.
Proof.
  induction fuel as [|fuel IH]; intros n path c o Hw Hnd; [discriminate|].
  rewrite dfs_S. destruct (in_path n path) eqn:E.
  - intros [= <-]. exists [cycle_msg (path ++ [n])]. split; [reflexivity|].
    constructor; [|constructor]. exists path, n.
    apply in_path_true in E. auto.
  - apply in_path_false in E.
    apply (report_loop_adds (cycle_report graph)). intros x c' o' Hx.
    apply IH.
    + now apply is_walk_snoc.
    + apply NoDup_app; [exact Hnd | apply NoDup_cons; [intros []|constructor]|].
      intros y Hy [<-|[]]. contradiction.
Qed.

Lemma dfs_all_sound (graph : dict string (list string)) (fuel : nat)
    (cycles : list string) :
  dfs_all fuel graph = Some cycles -> Forall (cycle_report graph) cycles.
Proof.
  unfold dfs_all. intros Hall.
  destruct (report_loop_adds (cycle_report graph)
              (fun m c => dfs fuel graph m [] c) (dict_keys graph)) with
    (c := @nil string) (out := cycles) as [added [-> Hadded]].
  - intros m c o _. apply dfs_sound; [exact I | constructor].
  - exact Hall.
  - exact Hadded.
Qed.

(** Every report of the detector describes a walk that exists in the import
    graph and comes back to a module it has already visited; it never
    reports anything else. *)
Theorem import_cycle_reports_sound :
  forall r : results,
    exists added,
      import_cycles (_detect_import_cycles r) = import_cycles r ++ added
      /\ Forall (cycle_report (get_imports_graph r)) added.
Proof.
  intros r. destruct (detect_import_cycles_cycles r) as [cycles [Hall Hc]].
  exists cycles. split; [exact Hc|]. eapply dfs_all_sound. exact Hall.
Qed.

Lemma walk_rank (graph : dict string (list string)) (rank : string -> nat) :
  (forall n m, In m (graph_get graph n) -> rank m < rank n) ->
  forall l a, is_walk graph (a :: l) -> forall b, In b l -> rank b < rank a.
Proof.
  intros Hrank. induction l as [|c l IH]; intros a Hw b Hb; [destruct Hb|].
  cbn [is_walk] in Hw. destruct Hw as [Hac Hw].
  specialize (Hrank a c Hac).
  destruct Hb as [<-|Hb]; [exact Hrank|].
  specialize (IH c Hw b Hb). lia.
Qed.

Lemma cycle_report_needs_cycle (graph : dict string (list string))
    (rank : string -> nat) (msg : string) :
  (forall n m, In m (graph_get graph n) -> rank m < rank n) ->
  ~ cycle_report graph msg.
Proof.
  intros Hrank [l [x [_ [Hw [_ Hx]]]]].
  apply in_split in Hx. destruct Hx as [l1 [l2 ->]].
  rewrite <- app_assoc in Hw. apply is_walk_tail in Hw.
  cbn [app] in Hw.
  assert (H := walk_rank graph rank Hrank _ _ Hw x).
  assert (rank x < rank x); [|lia].
  apply H, in_or_app. right. now left.
Qed.

(** When the import graph has no cycle (the modules can be ranked so that
    every import goes to a lower rank), the detector reports nothing. *)
Theorem acyclic_graph_no_report :
  forall (r : results) (rank : string -> nat),
    (forall n m, In m (graph_get (get_imports_graph r) n) ->
                 rank m < rank n) ->
    import_cycles (_detect_import_cycles r) = import_cycles r.
Proof.
  intros r rank Hrank.
  destruct (detect_import_cycles_cycles r) as [cycles [Hall Hc]].
  rewrite Hc. apply dfs_all_sound in Hall.
  destruct cycles as [|msg cycles]; [apply app_nil_r|].
  inversion Hall as [|? ? Hmsg _]; subst.
  exfalso. exact (cycle_report_needs_cycle _ rank msg Hrank Hmsg).
Qed.

Lemma acyclic_graph_no_report_witness :
  import_cycles
    (_detect_import_cycles
       (set_imports_graph "b" ["os"]
          (set_imports_graph "a" ["b"; "os"] init_results)))
  = [].
Proof.
  refine (acyclic_graph_no_report
            (set_imports_graph "b" ["os"]
               (set_imports_graph "a" ["b"; "os"] init_results))
            (fun n => if String.eqb n "a" then 2
                      else if String.eqb n "b" then 1 else 0) _).
  intros n m. unfold graph_get. simpl.
  destruct (string_dec n "a") as [->|Ha].
  - intros [<-|[<-|[]]]; simpl; lia.
  - destruct (string_dec n "b") as [->|Hb].
    + intros [<-|[]]; simpl; lia.
    + intros [].
Defined.

(** A module that imports itself is reported as the cycle [a -> a]. *)
Theorem self_import_reported :
  forall (r : results) (a : string),
    In a (graph_get (get_imports_graph r) a) ->
    exists added,
      import_cycles (_detect_import_cycles r) = import_cycles r ++ added
      /\ In ("Cycle detected: " +++ a +++ " -> " +++ a) added.
Proof.
  intros r a Ha.
  destruct (detect_import_cycles_cycles r) as [cycles [Hall Hc]].
  exists cycles. split; [exact Hc|].
  assert (Hk := graph_get_In_keys _ _ _ Ha).
  unfold dfs_all in Hall.
  destruct (report_loop_keeps _ (fun x => dfs_extends _ _ x [])
              _ _ _ Hall a Hk) as [c1 [o1 [Hdfs Hincl]]].
  apply Hincl. clear Hall Hincl.
  destruct (get_imports_graph r) as [|entry graph] eqn:Hg;
    [destruct Hk|].
  cbn [List.length] in Hdfs. rewrite dfs_S in Hdfs.
  replace (in_path a []) with false in Hdfs
    by (symmetry; apply in_path_false; intros []).
  destruct (report_loop_keeps _
              (fun x => dfs_extends _ (S (List.length graph)) x ([] ++ [a]))
              _ _ _ Hdfs a Ha) as [c2 [o2 [Hdfs2 Hincl2]]].
  apply Hincl2. rewrite dfs_S in Hdfs2. cbn [app] in Hdfs2.
  replace (in_path a [a]) with true in Hdfs2
    by (symmetry; apply in_path_true; now left).
  injection Hdfs2 as <-. apply in_or_app. right. now left.
Qed.

Lemma self_import_reported_witness :
  exists added,
    import_cycles
      (_detect_import_cycles (set_imports_graph "a" ["os"; "a"] init_results))
    = [] ++ added
    /\ In "Cycle detected: a -> a" added.
Proof.
  refine (self_import_reported
            (set_imports_graph "a" ["os"; "a"] init_results) "a" _).
  simpl. auto.
Defined.

(** ** The run as one loop over the discovered files *)

Lemma os_walk_source_paths (d : dirtree) :
  forall top,
    flat_map
      (fun entry =>
         map (OsPath.join (fst (fst entry))) (filter is_source (snd entry)))
      (os_walk top d)
    = source_paths top d.
Proof.
  induction d as [fnames subs IH] using dirtree_ind'. intros top.
  cbn [os_walk source_paths flat_map fst snd]. f_equal.
  induction IH as [|entry subs Hentry _ IHsubs]; [reflexivity|].
  cbn [flat_map]. rewrite flat_map_app, Hentry, IHsubs. reflexivity.
Qed.

Section RunLoop.

Variable os_path_isfile : string -> bool.
Variable os_dir : string -> option dirtree.
Variable open_read : string -> option string.
Variable ast_parse : string -> parse_result.
Variable ast_get_docstring : node -> option string.

Local Abbreviation analyze_file :=
  (_analyze_file open_read ast_parse ast_get_docstring).
Local Abbreviation results_of :=
  (file_results open_read ast_parse ast_get_docstring).
Local Abbreviation run_analysis :=
  (analyze os_path_isfile os_dir open_read ast_parse ast_get_docstring).
Local Abbreviation detect_duplicates := (_detect_duplicates open_read).
Local Abbreviation finish_run := (finish open_read).
Local Abbreviation discovered :=
  (discovered_paths os_path_isfile os_dir).
Local Abbreviation first_raised := (first_raise open_read ast_parse).
Local Abbreviation analyzed_files := (analyzed open_read ast_parse).

Lemma for_M_app {A} (l1 l2 : list A) (body : A -> M unit) (st : state) :
  for_M (l1 ++ l2) body st = bind (for_M l1 body) (fun _ => for_M l2 body) st.
Proof.
  revert st. induction l1 as [|x l1 IH]; intros st; [reflexivity|].
  cbn [app for_M]. unfold bind at 1. unfold bind at 1 in IH.
  unfold bind at 1. unfold bind at 1.
  destruct (body x st) as [[[]|e] st']; [apply IH | reflexivity].
Qed.

Lemma enumerate_names (names : list string) (root : string) :
  forall st,
    for_M names (fun f =>
      if PyStr.endswith f ".py"
      then analyze_file (OsPath.join root f)
      else ret tt) st
    = for_M (map (OsPath.join root) (filter is_source names))
        analyze_file st.
Proof.
  induction names as [|f names IH]; intros st; [reflexivity|].
  cbn [for_M filter]. unfold is_source at 1.
  destruct (PyStr.endswith f ".py").
  - cbn [map for_M]. unfold bind.
    destruct (analyze_file _ st) as [[[]|e] st']; [apply IH | reflexivity].
  - unfold bind, ret. apply IH.
Qed.

Lemma enumerate_entries
    (entries : list (string * list string * list string)) :
  forall st,
    for_M entries (fun entry =>
      for_M (snd entry) (fun f =>
        if PyStr.endswith f ".py"
        then analyze_file (OsPath.join (fst (fst entry)) f)
        else ret tt)) st
    = for_M
        (flat_map
           (fun entry =>
              map (OsPath.join (fst (fst entry)))
                (filter is_source (snd entry)))
           entries)
        analyze_file st.
Proof.
  induction entries as [|entry entries IH]; intros st; [reflexivity|].
  cbn [for_M flat_map]. rewrite for_M_app. unfold bind.
  rewrite enumerate_names.
  destruct (for_M _ analyze_file st) as [[[]|e] st'];
    [apply IH | reflexivity].
Qed.

(** The loop over the files stops at the first file on which the parser
    raises; every file up to that one has been analyzed. *)
Lemma loop_run (paths : list string) :
  forall st,
    for_M paths analyze_file st
    = (match first_raised paths with
       | Some e => Raised (ParseFailure e)
       | None => Returned tt
       end,
       mkState (for_each (analyzed_files paths) results_of (res st))
         (stdout st)).
Proof.
  induction paths as [|p paths IH]; intros st.
  - unfold ret. now destruct st.
  - cbn [for_M first_raise analyzed]. unfold bind.
    rewrite (analyze_file_run open_read ast_parse ast_get_docstring).
    destruct (parse_raises open_read ast_parse p) as [e|].
    + reflexivity.
    + rewrite IH. cbn [res stdout]. now rewrite for_each_cons.
Qed.

Lemma analyzed_all (paths : list string) :
  first_raised paths = None -> analyzed_files paths = paths.
Proof.
  induction paths as [|p paths IH]; [reflexivity|].
  cbn [first_raise analyzed].
  destruct (parse_raises open_read ast_parse p); [discriminate|].
  intros H. now rewrite IH.
Qed.

Lemma analyzed_prefix (paths : list string) :
  exists rest, paths = analyzed_files paths ++ rest.
Proof.
  induction paths as [|p paths [rest IH]]; [now exists []|].
  cbn [analyzed].
  destruct (parse_raises open_read ast_parse p).
  - now exists paths.
  - exists rest. cbn [app]. now rewrite <- IH.
Qed.

(** The state in which the enumeration of [run] ends. *)
Lemma run_as_loop (path : string) :
  run_analysis path
  = if os_path_isfile path && is_source path
       || os_path_isdir os_dir path
    then
      let st :=
        mkState
          (for_each (analyzed_files (discovered path)) results_of
             init_results)
          ["[Analyzer] Starting analysis: " +++ path] in
      match first_raised (discovered path) with
      | Some e => (Raised (ParseFailure e), st)
      | None => finish_run st
      end
    else (Returned tt,
          mkState init_results
            ["[Analyzer] Starting analysis: " +++ path;
             "[ERROR] Invalid path."]).
Proof.
  unfold analyze, run, bind at 1, print. cbv beta iota zeta.
  unfold discovered_paths, os_path_isdir, is_source.
  destruct (os_path_isfile path && PyStr.endswith path ".py").
  - cbn [orb]. unfold bind at 1.
    rewrite (analyze_file_run open_read ast_parse ast_get_docstring).
    cbn [first_raise analyzed res stdout app].
    destruct (parse_raises open_read ast_parse path); reflexivity.
  - destruct (os_dir path) as [d|]; [|reflexivity].
    cbn [orb]. unfold bind at 1.
    rewrite enumerate_entries, os_walk_source_paths, loop_run.
    cbn [res stdout app].
    destruct (first_raise open_read ast_parse (source_paths path d));
      reflexivity.
Qed.

Lemma invalid_root_discovered (path : string) :
  os_path_isfile path && is_source path || os_path_isdir os_dir path = false ->
  discovered path = [].
Proof.
  intros Hvalid. apply orb_false_iff in Hvalid. destruct Hvalid as [Hf Hd].
  unfold discovered_paths, os_path_isdir in *. rewrite Hf.
  destruct (os_dir path); [discriminate | reflexivity].
Qed.

(** Apart from the cycle and duplicate findings, the results of a run are
    those of the files it has analyzed. *)
Lemma run_file_findings (path : string) :
  same_file_findings
    (for_each (analyzed_files (discovered path)) results_of init_results)
    (res (snd (run_analysis path))).
Proof.
  rewrite run_as_loop.
  destruct (os_path_isfile path && is_source path
            || os_path_isdir os_dir path) eqn:Hvalid.
  - cbv zeta. destruct (first_raised (discovered path)).
    + apply same_file_findings_refl.
    + match goal with
      | |- context [finish _ ?st] => apply (finish_frame open_read st)
      end.
  - rewrite (invalid_root_discovered path Hvalid).
    apply same_file_findings_refl.
Qed.

Lemma loop_files (paths : list string) :
  forall r, files (for_each paths results_of r) = files r ++ paths.
Proof.
  induction paths as [|p paths IH]; intros r.
  - unfold for_each. simpl. now rewrite app_nil_r.
  - rewrite for_each_cons, IH,
      (analyze_file_files open_read ast_parse ast_get_docstring).
    now rewrite <- app_assoc.
Qed.

Lemma run_files (path : string) :
  files (res (snd (run_analysis path))) = analyzed_files (discovered path).
Proof.
  destruct (run_file_findings path) as [H _]. rewrite H.
  now rewrite loop_files.
Qed.

(** *** What the summary prints *)

Lemma prints_print (line : string) : prints (print line) [line].
Proof. intros st. reflexivity. Qed.

Lemma prints_ret : prints (ret tt) [].
Proof. intros st. unfold ret. rewrite app_nil_r. now destruct st. Qed.

Lemma prints_bind (m : M unit) (k : unit -> M unit) (o1 o2 : list string) :
  prints m o1 -> (forall u, prints (k u) o2) -> prints (bind m k) (o1 ++ o2).
Proof.
  intros Hm Hk st. unfold bind. rewrite Hm, Hk. cbn [res stdout].
  now rewrite app_assoc.
Qed.

Lemma prints_for_M {A} (f : A -> string) (l : list A) :
  prints (for_M l (fun x => print (f x))) (map f l).
Proof.
  induction l as [|x l IH]; [apply prints_ret|].
  cbn [for_M map]. apply (prints_bind _ _ [f x]); [apply prints_print|].
  intros _. exact IH.
Qed.

Lemma prints_section (title : string) (l : list string) :
  prints (print_section title l) (section_lines title l).
Proof.
  destruct l as [|x l]; [apply prints_ret|].
  unfold print_section, section_lines.
  apply (prints_bind _ _ [title]); [apply prints_print|]. intros _.
  apply (prints_for_M (fun x => "  - " +++ x)).
Qed.

Lemma print_summary_output (st : state) :
  _print_summary st
  = (Returned tt, mkState (res st) (stdout st ++ summary_output (res st))).
Proof.
  unfold _print_summary, bind at 1, get_results. cbv beta iota.
  match goal with
  | |- ?m st = _ =>
      assert (Hm : prints m (summary_output (res st))); [|apply Hm]
  end.
  unfold summary_output.
  apply (prints_bind _ _ [_]); [apply prints_print | intros _].
  apply (prints_bind _ _ [_]); [apply prints_print | intros _].
  repeat (apply prints_bind; [apply prints_section | intros _]).
  apply prints_print.
Qed.

Lemma section_lines_In (title : string) (l : list string) (x : string) :
  In x l -> In ("  - " +++ x) (section_lines title l).
Proof.
  intros Hx. destruct l as [|y l]; [destruct Hx|].
  right. now apply (in_map (fun x => "  - " +++ x)).
Qed.

Lemma section_lines_length (title : string) (l : list string) :
  List.length (section_lines title l)
  = List.length l + Nat.b2n (negb (List.length l =? 0)%nat).
Proof. destruct l; simpl; [reflexivity|]. rewrite length_map. lia. Qed.

(** [_print_summary] returns and leaves the results alone; it prints the
    number of analyzed files and, under the heading of its kind, every
    finding of the results.  Its output has three lines, plus one line for
    each finding and one heading for each kind that has findings. *)
Theorem summary_prints_every_finding :
  forall st : state,
    let r := res st in
    let kinds := [errors r; warnings r; missing_docstrings r; pep8 r;
                  import_cycles r; duplicates r] in
    exists printed,
      _print_summary st
      = (Returned tt, mkState r (stdout st ++ printed))
      /\ In ("Analyzed files: " +++ PyStr.str_of_nat (List.length (files r)))
           printed
      /\ (forall x, In x (all_findings r) -> In ("  - " +++ x) printed)
      /\ List.length printed
         = 3 + List.length (all_findings r)
           + List.length
               (filter (fun l => negb (List.length l =? 0)%nat) kinds).
Proof.
  intros st r kinds. exists (summary_output r).
  split; [apply print_summary_output|]. split; [simpl; auto|]. split.
  - intros x Hx. unfold all_findings in Hx. unfold summary_output.
    apply in_or_app. right.
    repeat (apply in_app_or in Hx; destruct Hx as [Hx|Hx];
            [apply in_or_app; left; now apply section_lines_In
            | apply in_or_app; right]).
    apply in_or_app. left. now apply section_lines_In.
  - unfold summary_output, all_findings, kinds.
    rewrite !length_app, !section_lines_length. cbn [filter List.length].
    destruct (negb (List.length (errors r) =? 0)%nat),
      (negb (List.length (warnings r) =? 0)%nat),
      (negb (List.length (missing_docstrings r) =? 0)%nat),
      (negb (List.length (pep8 r) =? 0)%nat),
      (negb (List.length (import_cycles r) =? 0)%nat),
      (negb (List.length (duplicates r) =? 0)%nat);
      cbn [Nat.b2n List.length]; lia.
Qed.

(** *** What one file changes *)

Lemma analyze_file_preserve {B} (proj : results -> B) :
  (forall x r, proj (append_files x r) = proj r) ->
  (forall x r, proj (append_errors x r) = proj r) ->
  (forall x r, proj (append_missing_docstrings x r) = proj r) ->
  (forall x r, proj (append_warnings x r) = proj r) ->
  (forall k v r, proj (set_complexity k v r) = proj r) ->
  (forall x r, proj (append_pep8 x r) = proj r) ->
  (forall k v r, proj (set_imports_graph k v r) = proj r) ->
  forall filepath r, proj (results_of filepath r) = proj r.
Proof.
  intros Hfile Herr Hdoc Hwarn Hcomp Hpep Himp filepath r.
  rewrite file_results_eq.
  destruct (open_read filepath) as [code|]; [|now rewrite Herr, Hfile].
  destruct (ast_parse code) as [tree|e|e];
    [|now rewrite Herr, Hfile | apply Hfile].
  now rewrite evaluators_preserve, Hfile.
Qed.

Lemma loop_preserve {B} (proj : results -> B) (paths : list string) :
  (forall filepath r, proj (results_of filepath r) = proj r) ->
  forall r, proj (for_each paths results_of r) = proj r.
Proof. intros H. now apply for_each_preserves. Qed.

Lemma analyze_file_errors (filepath : string) (r : results) :
  errors (results_of filepath r)
  = errors r ++ file_error open_read ast_parse filepath.
Proof.
  rewrite file_results_eq. unfold file_error.
  destruct (open_read filepath) as [code|]; [|reflexivity].
  destruct (ast_parse code) as [tree|e|e]; try reflexivity.
  - rewrite (evaluators_preserve ast_get_docstring errors) by reflexivity.
    simpl. now rewrite app_nil_r.
  - simpl. now rewrite app_nil_r.
Qed.

Lemma file_error_length (p : string) :
  List.length (file_error open_read ast_parse p)
  = Nat.b2n (bad_file open_read ast_parse p).
Proof.
  unfold file_error, bad_file. destruct (open_read p) as [code|];
    [destruct (ast_parse code)|]; reflexivity.
Qed.

Lemma loop_errors (paths : list string) :
  forall r,
    errors (for_each paths results_of r)
    = errors r ++ flat_map (file_error open_read ast_parse) paths.
Proof.
  induction paths as [|p paths IH]; intros r.
  - unfold for_each. simpl. now rewrite app_nil_r.
  - rewrite for_each_cons, IH, analyze_file_errors. simpl.
    now rewrite app_assoc.
Qed.

Lemma flat_map_option_length {A B} (f : A -> list B) (p : A -> bool)
    (l : list A) :
  (forall x, List.length (f x) = Nat.b2n (p x)) ->
  List.length (flat_map f l) = List.length (filter p l).
Proof.
  intros Hf. induction l as [|x l IH]; [reflexivity|].
  simpl. rewrite length_app, Hf, IH. destruct (p x); reflexivity.
Qed.

Lemma analyze_file_complexity_get (filepath p : string) (r : results) :
  dict_get string_dec (complexity (results_of filepath r)) p
  = match (if string_dec p filepath
           then score_of open_read ast_parse p else None) with
    | Some v => Some v
    | None => dict_get string_dec (complexity r) p
    end.
Proof.
  rewrite file_results_eq. unfold score_of, tree_of.
  destruct (string_dec p filepath) as [->|Hne].
  - destruct (open_read filepath) as [code|]; [|reflexivity].
    destruct (ast_parse code) as [tree|e|e]; try reflexivity.
    unfold _register_imports. cbn [complexity set_imports_graph option_map].
    destruct (check_pep8_frame filepath code
      (_analyze_structure filepath tree
        (_compute_complexity filepath tree
          (_analyze_docstrings ast_get_docstring filepath tree
            (append_files filepath r))))) as [_ ->].
    destruct (analyze_structure_frame filepath tree
      (_compute_complexity filepath tree
        (_analyze_docstrings ast_get_docstring filepath tree
          (append_files filepath r)))) as [_ ->].
    rewrite <- complexity_of_counted_points.
    unfold _compute_complexity.
    destruct (12 <? _)%nat; simpl; apply dict_get_set_same.
  - destruct (open_read filepath) as [code|]; [|reflexivity].
    destruct (ast_parse code) as [tree|e|e]; try reflexivity.
    unfold _register_imports. cbn [complexity set_imports_graph].
    destruct (check_pep8_frame filepath code
      (_analyze_structure filepath tree
        (_compute_complexity filepath tree
          (_analyze_docstrings ast_get_docstring filepath tree
            (append_files filepath r))))) as [_ ->].
    destruct (analyze_structure_frame filepath tree
      (_compute_complexity filepath tree
        (_analyze_docstrings ast_get_docstring filepath tree
          (append_files filepath r)))) as [_ ->].
    rewrite compute_complexity_keys by exact Hne.
    destruct (analyze_docstrings_frame ast_get_docstring filepath tree
      (append_files filepath r)) as [_ ->].
    reflexivity.
Qed.

Lemma loop_complexity (paths : list string) (p : string) :
  forall r,
    dict_get string_dec (complexity (for_each paths results_of r)) p
    = match (if in_dec string_dec p paths
             then score_of open_read ast_parse p else None) with
      | Some v => Some v
      | None => dict_get string_dec (complexity r) p
      end.
Proof.
  induction paths as [|q paths IH]; intros r; [reflexivity|].
  rewrite for_each_cons, IH, analyze_file_complexity_get.
  destruct (score_of open_read ast_parse p) as [v|].
  - destruct (in_dec string_dec p (q :: paths)) as [Hin|Hnin];
      destruct (in_dec string_dec p paths) as [Hin'|Hnin'];
      destruct (string_dec p q) as [->|Hne]; try reflexivity;
      exfalso; simpl in *; intuition congruence.
  - destruct (in_dec string_dec p (q :: paths)),
      (in_dec string_dec p paths), (string_dec p q); reflexivity.
Qed.

Lemma loop_duplicates (paths : list string) (r : results) :
  duplicates (for_each paths results_of r) = duplicates r.
Proof.
  apply loop_preserve. intros filepath r'.
  now apply analyze_file_preserve.
Qed.

(** *** When the run returns *)

Lemma all_or_unreadable (paths : list string) :
  (forall p, In p paths -> open_read p <> None)
  \/ (exists p, In p paths /\ open_read p = None).
Proof.
  induction paths as [|q paths [IH|[p [Hin Hp]]]].
  - left. intros p [].
  - destruct (open_read q) eqn:Hq.
    + left. intros p [<-|Hp]; [congruence | auto].
    + right. exists q. split; [now left | exact Hq].
  - right. exists p. split; [now right | exact Hp].
Qed.

Lemma detect_import_cycles_duplicates (r : results) :
  duplicates (_detect_import_cycles r) = duplicates r.
Proof. unfold _detect_import_cycles. destruct (dfs_all _ _); reflexivity. Qed.

Lemma finish_raised_state (st : state) :
  (exists p, In p (files (res st)) /\ open_read p = None) ->
  exists p, In p (files (res st)) /\ open_read p = None
            /\ finish_run st
               = (Raised (ReadError p),
                  mkState (_detect_import_cycles (res st)) (stdout st)).
Proof.
  intros Hbad.
  destruct (detect_import_cycles_frame (res st)) as [Hfiles _].
  rewrite <- Hfiles in Hbad.
  destruct (group_files_unreadable open_read _ [] Hbad)
    as [p [Hin [Hp Hg]]].
  exists p. rewrite <- Hfiles. split; [exact Hin|]. split; [exact Hp|].
  unfold finish, bind at 1, update. cbv beta iota.
  unfold _detect_duplicates, bind, get_results. cbn [res].
  now rewrite Hg.
Qed.

Lemma finish_returned_state (st : state) :
  (forall p, In p (files (res st)) -> open_read p <> None) ->
  exists seen,
    group_files open_read (files (res st)) [] = inr seen
    /\ finish_run st
       = (Returned tt,
          let r := for_each seen report_group
                     (_detect_import_cycles (res st)) in
          mkState r (stdout st ++ summary_output r)).
Proof.
  intros Hall.
  destruct (group_files_grouped open_read (files (res st)) [] [] Hall)
    as [seen [Hrun _]].
  { split; [constructor | reflexivity]. }
  exists seen. split; [exact Hrun|].
  destruct (detect_import_cycles_frame (res st)) as [Hfiles _].
  unfold finish, bind at 1, update. cbv beta iota.
  unfold bind at 1, _detect_duplicates, bind at 1, get_results.
  cbn [res]. rewrite Hfiles, Hrun. unfold update. cbv beta iota.
  now rewrite print_summary_output.
Qed.

(** The three ways a run over a valid root ends. *)
Lemma run_outcome_cases (path : string) :
  os_path_isfile path && is_source path || os_path_isdir os_dir path = true ->
  let start := "[Analyzer] Starting analysis: " +++ path in
  let r0 :=
    for_each (analyzed_files (discovered path)) results_of init_results in
  (exists e,
     first_raised (discovered path) = Some e
     /\ run_analysis path = (Raised (ParseFailure e), mkState r0 [start]))
  \/ (exists p,
        first_raised (discovered path) = None
        /\ In p (discovered path) /\ open_read p = None
        /\ run_analysis path
           = (Raised (ReadError p),
              mkState (_detect_import_cycles r0) [start]))
  \/ (first_raised (discovered path) = None
      /\ (forall p, In p (discovered path) -> open_read p <> None)
      /\ exists r,
           duplicates r0 = []
           /\ run_analysis path
              = (Returned tt, mkState r (start :: summary_output r))).
Proof.
  intros Hvalid start r0. rewrite run_as_loop, Hvalid. cbv zeta.
  fold start. fold r0.
  destruct (first_raised (discovered path)) as [e|] eqn:Hraise.
  { left. now exists e. }
  right.
  assert (Hfiles : files r0 = discovered path).
  { unfold r0. rewrite loop_files, (analyzed_all _ Hraise). reflexivity. }
  destruct (all_or_unreadable (discovered path)) as [Hall|Hbad].
  - right. split; [reflexivity|]. split; [exact Hall|].
    rewrite <- Hfiles in Hall.
    destruct (finish_returned_state (mkState r0 [start]) Hall)
      as [seen [_ Hfin]].
    rewrite Hfin. cbv zeta. cbn [res stdout app].
    eexists. split; [|reflexivity].
    unfold r0. now rewrite loop_duplicates.
  - left. rewrite <- Hfiles in Hbad.
    destruct (finish_raised_state (mkState r0 [start]) Hbad)
      as [p [Hin [Hp Hfin]]].
    exists p. rewrite Hfin. cbn [res stdout] in *.
    rewrite Hfiles in Hin. auto.
Qed.

(** A run that returns has analyzed every discovered file, and could read
    each of them. *)
Lemma run_returned (path : string) :
  fst (run_analysis path) = Returned tt ->
  analyzed_files (discovered path) = discovered path
  /\ forall p, In p (discovered path) -> open_read p <> None.
Proof.
  destruct (os_path_isfile path && is_source path
            || os_path_isdir os_dir path) eqn:Hvalid.
  - destruct (run_outcome_cases path Hvalid)
      as [[e [_ Hrun]] | [[p [_ [_ [_ Hrun]]]] | [Hraise [Hall _]]]];
      try (rewrite Hrun; discriminate).
    intros _. split; [now apply analyzed_all | exact Hall].
  - intros _. rewrite (invalid_root_discovered path Hvalid).
    split; [reflexivity | intros p []].
Qed.

(** *** The files, errors and scores of a run *)

(** The analyzed-files list is always a beginning of the list of the
    discovered files, in the order of the walk: the file itself for a file
    root, for a directory root the files with the suffix of each directory,
    joined to its path, the directory before its subdirectories; nothing for
    an invalid root.  When the run returns, it is the whole list. *)
Theorem analyzed_files_are_discovered :
  forall path : string,
    let out :=
      analyze os_path_isfile os_dir open_read ast_parse ast_get_docstring
        path in
    (exists rest,
       discovered_paths os_path_isfile os_dir path
       = files (res (snd out)) ++ rest)
    /\ (fst out = Returned tt ->
        files (res (snd out)) = discovered_paths os_path_isfile os_dir path).
Proof.
  intros path out. subst out. rewrite run_files. split.
  - apply analyzed_prefix.
  - intros Hret. now apply run_returned.
Qed.

(** After a run, whether it returns or raises, the error findings are those
    of the bad files among the analyzed ones, in the order of the analysis:
    one error for each file that cannot be read or on which the parser raises
    [SyntaxError], none for any other file.  When the run returns, these are
    the bad files among all the discovered ones. *)
Theorem one_error_per_bad_file :
  forall path : string,
    let out := run_analysis path in
    let r := res (snd out) in
    errors r = flat_map (file_error open_read ast_parse) (files r)
    /\ List.length (errors r)
       = List.length (filter (bad_file open_read ast_parse) (files r))
    /\ (fst out = Returned tt ->
        errors r
        = flat_map (file_error open_read ast_parse) (discovered path)).
Proof.
  intros path out r. subst out r.
  assert (Herr : errors (res (snd (run_analysis path)))
                 = flat_map (file_error open_read ast_parse)
                     (files (res (snd (run_analysis path))))).
  { rewrite run_files.
    destruct (run_file_findings path) as [_ [H _]]. rewrite H.
    now rewrite loop_errors. }
  split; [exact Herr|]. split.
  - rewrite Herr. apply flat_map_option_length, file_error_length.
  - intros Hret. rewrite Herr, run_files.
    now destruct (run_returned path Hret) as [-> _].
Qed.

(** After a run, whether it returns or raises, the complexity mapping holds
    exactly the analyzed files that could be read and parsed, each with 1
    plus the number of [If], [For], [While], [And], [Or], [Try],
    [ExceptHandler] and [With] nodes of its tree; any other path has no
    score.  When the run returns, these are the discovered files that can be
    read and parse. *)
Theorem scores_after_run :
  forall path p : string,
    let out := run_analysis path in
    let r := res (snd out) in
    dict_get string_dec (complexity r) p
    = (if in_dec string_dec p (files r)
       then score_of open_read ast_parse p
       else None)
    /\ (fst out = Returned tt ->
        dict_get string_dec (complexity r) p
        = if in_dec string_dec p (discovered path)
          then score_of open_read ast_parse p
          else None).
Proof.
  intros path p out r. subst out r.
  assert (Hget : dict_get string_dec
                   (complexity (res (snd (run_analysis path)))) p
                 = if in_dec string_dec p
                        (files (res (snd (run_analysis path))))
                   then score_of open_read ast_parse p
                   else None).
  { rewrite run_files.
    destruct (run_file_findings path) as [_ [_ [_ [H _]]]]. rewrite H.
    rewrite loop_complexity.
    destruct (in_dec string_dec p (analyzed_files (discovered path)));
      [|reflexivity].
    destruct (score_of open_read ast_parse p); reflexivity. }
  split; [exact Hget|].
  intros Hret. rewrite Hget, run_files.
  now destruct (run_returned path Hret) as [-> _].
Qed.

(** *** Files on which the parser raises [SyntaxError] *)

(** When the parser raises [SyntaxError] on the text of a file,
    [_analyze_file] returns after adding exactly one finding for it, the
    syntax error, and nothing that comes from a tree: no complexity score,
    no docstring finding, no warning, no import; the style findings are
    untouched as well.  After a whole run, from any root, the file has no
    complexity score, and a run on that file alone returns with the single
    error as its only finding. *)
Theorem syntax_error_file :
  forall (filepath code e : string) (st : state),
    open_read filepath = Some code ->
    ast_parse code = SyntaxError e ->
    let out := analyze_file filepath st in
    let r := res st in
    let r' := res (snd out) in
    let error := "Syntax error in " +++ filepath +++ ": " +++ e in
    fst out = Returned tt
    /\ stdout (snd out) = stdout st
    /\ errors r' = errors r ++ [error]
    /\ files r' = files r ++ [filepath]
    /\ complexity r' = complexity r
    /\ missing_docstrings r' = missing_docstrings r
    /\ warnings r' = warnings r
    /\ pep8 r' = pep8 r
    /\ imports_graph r' = imports_graph r
    /\ duplicates r' = duplicates r
    /\ import_cycles r' = import_cycles r
    /\ (forall root,
          dict_get string_dec (complexity (res (snd (run_analysis root))))
            filepath = None)
    /\ (os_path_isfile filepath && is_source filepath = true ->
        fst (run_analysis filepath) = Returned tt
        /\ res (snd (run_analysis filepath))
           = mkResults [filepath] [error] [] [] [] [] [] [] None).
Proof.
  intros filepath code e st Hread Hparse out r r' error.
  subst out r r' error.
  rewrite (analyze_file_run open_read ast_parse ast_get_docstring).
  cbn [fst snd res stdout]. rewrite file_results_eq.
  unfold parse_raises. rewrite Hread, Hparse.
  repeat (split; [reflexivity|]).
  assert (Hscore : score_of open_read ast_parse filepath = None)
    by (unfold score_of, tree_of; now rewrite Hread, Hparse).
  split.
  - intros root.
    destruct (run_file_findings root) as [_ [_ [_ [H _]]]]. rewrite H.
    rewrite loop_complexity, Hscore.
    destruct (in_dec string_dec filepath _); reflexivity.
  - intros Hfile.
    assert (Hvalid : os_path_isfile filepath && is_source filepath
                     || os_path_isdir os_dir filepath = true)
      by (rewrite Hfile; reflexivity).
    assert (Hdisc : discovered filepath = [filepath])
      by (unfold discovered_paths; now rewrite Hfile).
    assert (Hraise : parse_raises open_read ast_parse filepath = None)
      by (unfold parse_raises; now rewrite Hread, Hparse).
    assert (Hrun : exists out,
               run_analysis filepath
               = (Returned tt,
                  mkState
                    (mkResults [filepath] [syntax_error_msg filepath e]
                       [] [] [] [] [] [] None) out)).
    { rewrite run_as_loop, Hvalid, Hdisc. cbv zeta.
      cbn [first_raise analyzed]. rewrite Hraise.
      rewrite for_each_cons. unfold for_each at 1. cbn [fold_left].
      rewrite file_results_eq, Hread, Hparse.
      unfold finish, bind at 1, update. cbv beta iota. cbn [res stdout].
      assert (Hc : _detect_import_cycles
                     (append_errors (syntax_error_msg filepath e)
                        (append_files filepath init_results))
                   = mkResults [filepath] [syntax_error_msg filepath e]
                       [] [] [] [] [] [] None) by reflexivity.
      rewrite Hc.
      unfold bind at 1, _detect_duplicates, bind at 1, get_results.
      cbn [res files group_files]. rewrite Hread. unfold update.
      cbv beta iota. rewrite print_summary_output. eexists. reflexivity. }
    destruct Hrun as [out Hrun]. rewrite Hrun. split; reflexivity.
Qed.

(** *** How the run ends *)

Lemma unreadable_run_raises (path : string) :
  (exists p, In p (discovered path) /\ open_read p = None) ->
  exists e, fst (run_analysis path) = Raised e.
Proof.
  intros [p [Hin Hp]].
  destruct (os_path_isfile path && is_source path
            || os_path_isdir os_dir path) eqn:Hvalid.
  - destruct (run_outcome_cases path Hvalid)
      as [[e [_ Hrun]] | [[q [_ [_ [_ Hrun]]]] | [_ [Hall _]]]].
    + rewrite Hrun. now exists (ParseFailure e).
    + rewrite Hrun. now exists (ReadError q).
    + exfalso. exact (Hall p Hin Hp).
  - rewrite (invalid_root_discovered path Hvalid) in Hin. destruct Hin.
Qed.

(** A discovered file that cannot be read makes the run raise.  Whenever
    the run raises, no duplicate finding is recorded and nothing has been
    printed after the starting line.  When it returns, it has printed, after
    the starting line, the summary of its final results, or the error line
    for an invalid root. *)
Theorem unreadable_file_stops_run :
  forall path : string,
    let out := run_analysis path in
    let start := "[Analyzer] Starting analysis: " +++ path in
    ((exists p, In p (discovered path) /\ open_read p = None) ->
     exists e, fst out = Raised e)
    /\ (forall e, fst out = Raised e ->
          duplicates (res (snd out)) = [] /\ stdout (snd out) = [start])
    /\ (fst out = Returned tt ->
        stdout (snd out)
        = start :: (if os_path_isfile path && is_source path
                       || os_path_isdir os_dir path
                    then summary_output (res (snd out))
                    else ["[ERROR] Invalid path."])).
Proof.
  intros path out start. subst out start.
  destruct (os_path_isfile path && is_source path
            || os_path_isdir os_dir path) eqn:Hvalid.
  - destruct (run_outcome_cases path Hvalid)
      as [[e [_ Hrun]] | [[p [_ [_ [_ Hrun]]]] | [_ [Hall [r [_ Hrun]]]]]];
      rewrite Hrun; cbn [fst snd res stdout].
    + split; [intros _; eauto|]. split; [|discriminate].
      intros e' _. split; [|reflexivity]. now rewrite loop_duplicates.
    + split; [intros _; eauto|]. split; [|discriminate].
      intros e' _. split; [|reflexivity].
      now rewrite detect_import_cycles_duplicates, loop_duplicates.
    + split.
      * intros [p [Hin Hp]]. exfalso. exact (Hall p Hin Hp).
      * split; [discriminate | reflexivity].
  - rewrite run_as_loop, Hvalid. cbn [fst snd res stdout].
    rewrite (invalid_root_discovered path Hvalid).
    split; [intros [p [[] _]]|]. split; [discriminate | reflexivity].
Qed.

Lemma source_paths_count (d : dirtree) (top : string) :
  List.length (source_paths top d) = count_sources d.
Proof.
  rewrite <- os_walk_source_paths, <- (os_walk_count d top).
  induction (os_walk top d) as [|entry entries IH]; [reflexivity|].
  cbn [flat_map map]. rewrite length_app, length_map, IH. reflexivity.
Qed.

(** A run over a directory that holds no file with the suffix, at any depth,
    completes: it returns with the results of a fresh analyzer and prints a
    summary that counts zero files. *)
Theorem empty_project_run :
  forall (path : string) (d : dirtree),
    os_path_isfile path && is_source path = false ->
    os_dir path = Some d ->
    count_sources d = 0 ->
    run_analysis path
    = (Returned tt,
       mkState init_results
         ["[Analyzer] Starting analysis: " +++ path;
          newline +++ "ANALYSIS SUMMARY";
          "Analyzed files: 0";
          newline +++ "END OF REPORT" +++ newline]).
Proof.
  intros path d Hfile Hdir Hcount. rewrite run_as_loop.
  unfold discovered_paths, os_path_isdir. rewrite Hfile, Hdir.
  cbn [orb].
  assert (Hnone : source_paths path d = []).
  { apply length_zero_iff_nil. now rewrite source_paths_count. }
  rewrite Hnone. reflexivity.
Qed.

End RunLoop.

Lemma syntax_error_file_witness :
  let out :=
    _analyze_file Sample.read Sample.parse Sample.get_docstring
      "proj/pkg/broken.py" (mkState init_results []) in
  fst out = Returned tt
  /\ errors (res (snd out))
     = ["Syntax error in proj/pkg/broken.py: "
        +++ "invalid syntax (<unknown>, line 1)"]
  /\ complexity (res (snd out)) = []
  /\ dict_get string_dec
       (complexity (res (snd (Sample.analyze_root "proj"))))
       "proj/pkg/broken.py" = None.
Proof.
  intros out.
  destruct (syntax_error_file Sample.isfile Sample.dir Sample.read
              Sample.parse Sample.get_docstring
              "proj/pkg/broken.py" Sample.text_broken
              "invalid syntax (<unknown>, line 1)" (mkState init_results []))
    as [Hret [_ [He [_ [Hc [_ [_ [_ [_ [_ [_ [Hrun _]]]]]]]]]]]].
  - reflexivity.
  - reflexivity.
  - split; [exact Hret|]. split; [exact He|]. split; [exact Hc|].
    apply Hrun.
Defined.

Lemma empty_project_run_witness :
  analyze (fun _ => false)
    (fun p => if String.eqb p "docs"
              then Some (Dir ["index.txt"] [("img", Dir [] [])]) else None)
    (fun _ => None) (fun _ => SyntaxError "") (fun _ => None) "docs"
  = (Returned tt,
     mkState init_results
       ["[Analyzer] Starting analysis: docs";
        newline +++ "ANALYSIS SUMMARY";
        "Analyzed files: 0";
        newline +++ "END OF REPORT" +++ newline]).
Proof.
  apply (empty_project_run (fun _ => false)
           (fun p => if String.eqb p "docs"
                     then Some (Dir ["index.txt"] [("img", Dir [] [])])
                     else None)
           (fun _ => None) (fun _ => SyntaxError "") (fun _ => None)
           "docs" (Dir ["index.txt"] [("img", Dir [] [])]));
    reflexivity.
Defined.

(** ** What the duplicate detector reports *)

Lemma filter_keys_NoDup {K V} (keep : K * V -> bool) :
  forall groups : list (K * V),
    NoDup (map fst groups) -> NoDup (map fst (filter keep groups)).
Proof.
  intros groups. induction groups as [|[k v] groups IH]; intros Hnd.
  - constructor.
  - cbn [map fst] in Hnd. apply NoDup_cons_iff in Hnd.
    destruct Hnd as [Hfresh Hnd]. cbn [filter].
    destruct (keep (k, v)); [|now apply IH].
    cbn [map fst]. apply NoDup_cons; [|now apply IH].
    intros Hin. apply Hfresh.
    apply in_map_iff in Hin. destruct Hin as [[k' v'] [Hk Hin]].
    apply filter_In in Hin. cbn [fst] in Hk. subst k'.
    apply (in_map fst _ (k, v')). tauto.
Qed.

Section DuplicateFacts.

Variable open_read : string -> option string.

Local Abbreviation detect_duplicates := (_detect_duplicates open_read).

Lemma detect_duplicates_reported (st : state) :
  (forall p, In p (files (res st)) -> open_read p <> None) ->
  exists seen,
    grouped open_read seen (files (res st))
    /\ detect_duplicates st
       = (Returned tt,
          mkState (for_each seen report_group (res st)) (stdout st))
    /\ duplicates (for_each seen report_group (res st))
       = duplicates (res st)
         ++ map (fun entry => duplicate_msg (snd entry))
              (filter reported seen).
Proof.
  intros Hall.
  destruct (group_files_grouped open_read (files (res st)) [] [] Hall)
    as [seen [Hrun Hg]].
  { split; [constructor | reflexivity]. }
  exists seen. split; [exact Hg|]. split.
  - unfold _detect_duplicates, bind, get_results. now rewrite Hrun.
  - now rewrite report_groups_duplicates, map_map.
Qed.

Lemma reported_entry (seen : dict (list string) (list string))
    (paths : list string) (k members : list string) :
  grouped open_read seen paths ->
  In (k, members) (filter reported seen) ->
  members = filter (has_signature open_read k) paths
  /\ 1 < List.length members.
Proof.
  intros [Hnd Hget] Hin. apply filter_In in Hin. destruct Hin as [Hin Hrep].
  split.
  - apply (In_dict_get lines_eq_dec _ _ _ Hnd) in Hin.
    rewrite Hget in Hin. unfold members_of in Hin.
    destruct (filter (has_signature open_read k) paths); congruence.
  - unfold reported in Hrep. now apply Nat.ltb_lt in Hrep.
Qed.

(** When every analyzed file can be read, the detector returns, and every
    group it reports is real: it belongs to one signature, different groups
    to different signatures, it lists exactly the analyzed files whose text
    has that signature, and these are at least two. *)
Theorem duplicate_findings_are_groups :
  forall st : state,
    (forall p, In p (files (res st)) -> open_read p <> None) ->
    exists entries,
      fst (detect_duplicates st) = Returned tt
      /\ duplicates (res (snd (detect_duplicates st)))
         = duplicates (res st)
           ++ map (fun entry => duplicate_msg (snd entry)) entries
      /\ NoDup (map fst entries)
      /\ (forall k members, In (k, members) entries ->
            members = filter (has_signature open_read k) (files (res st))
            /\ 1 < List.length members).
Proof.
  intros st Hall.
  destruct (detect_duplicates_reported st Hall) as [seen [Hg [Hrun Hdup]]].
  exists (filter reported seen). rewrite Hrun. cbn [fst snd res].
  split; [reflexivity|]. split; [exact Hdup|]. split.
  - apply filter_keys_NoDup. apply Hg.
  - intros k members. now apply reported_entry.
Qed.

Lemma filter_signature_unique (paths : list string) (k : list string) :
  NoDup (map (fun p => option_map signature (open_read p)) paths) ->
  List.length (filter (has_signature open_read k) paths) <= 1.
Proof.
  induction paths as [|q paths IH]; intros Hnd; [simpl; lia|].
  cbn [map] in Hnd. inversion Hnd as [|? ? Hnotin Hnd']; subst.
  specialize (IH Hnd'). cbn [filter].
  destruct (has_signature open_read k q) eqn:Hq; [|exact IH].
  cbn [List.length].
  destruct (filter (has_signature open_read k) paths) as [|q' rest] eqn:E;
    [simpl; lia|].
  exfalso. apply Hnotin.
  assert (Hq' : In q' paths /\ has_signature open_read k q' = true).
  { apply filter_In. rewrite E. now left. }
  destruct Hq' as [Hin Hsig]. apply in_map_iff. exists q'.
  split; [|exact Hin].
  unfold has_signature in Hq, Hsig.
  destruct (open_read q) as [c|]; [|discriminate].
  destruct (open_read q') as [c'|]; [|discriminate].
  destruct (lines_eq_dec (signature c) k); [|discriminate].
  destruct (lines_eq_dec (signature c') k); [|discriminate].
  simpl. congruence.
Qed.

(** When the analyzed files can all be read and no two of them have the same
    signature, the detector reports nothing. *)
Theorem distinct_signatures_no_duplicate :
  forall st : state,
    (forall p, In p (files (res st)) -> open_read p <> None) ->
    NoDup (map (fun p => option_map signature (open_read p))
             (files (res st))) ->
    detect_duplicates st = (Returned tt, st).
Proof.
  intros st Hall Hnd.
  destruct (group_files_grouped open_read (files (res st)) [] [] Hall)
    as [seen [Hrun Hg]].
  { split; [constructor | reflexivity]. }
  unfold _detect_duplicates, bind, get_results.
  rewrite Hrun. unfold update.
  assert (Hsame : forall r, for_each seen report_group r = r).
  { destruct Hg as [Hkeys Hget]. cbn [app] in Hget.
    assert (Hone : forall k members, In (k, members) seen ->
                     List.length members <= 1).
    { intros k members Hin.
      apply (In_dict_get lines_eq_dec _ _ _ Hkeys) in Hin.
      rewrite Hget in Hin. unfold members_of in Hin.
      pose proof (filter_signature_unique (files (res st)) k Hnd) as Hle.
      destruct (filter (has_signature open_read k) (files (res st)));
        [discriminate|]. injection Hin as <-. exact Hle. }
    clear Hget Hkeys Hrun.
    induction seen as [|[k members] seen IH]; intros r; [reflexivity|].
    rewrite for_each_cons. unfold report_group at 2. cbn [snd].
    replace (1 <? List.length members)%nat with false.
    - apply IH. intros k' m' Hin. apply (Hone k' m'). now right.
    - symmetry. apply Nat.ltb_ge. apply (Hone k members). now left. }
  rewrite Hsame. now destruct st.
Qed.

End DuplicateFacts.

Lemma duplicate_findings_are_groups_witness :
  exists entries : list (list string * list string),
    duplicates
      (res (snd (_detect_duplicates Sample.read Sample.enumerated)))
    = map (fun entry => duplicate_msg (snd entry)) entries
    /\ (forall k members, In (k, members) entries ->
          1 < List.length members).
Proof.
  destruct (duplicate_findings_are_groups Sample.read Sample.enumerated)
    as [entries [_ [Hd [_ Hgroups]]]].
  - intros p [<-|[<-|[<-|[<-|[]]]]]; discriminate.
  - exists entries. split; [exact Hd|].
    intros k members Hin. now apply (Hgroups k members).
Defined.

Lemma distinct_signatures_no_duplicate_witness :
  _detect_duplicates Sample.read
    (mkState
       (mkResults ["proj/a.py"; "proj/pkg/c.py"; "proj/pkg/broken.py"]
          [] [] [] [] [] [] [] None) [])
  = (Returned tt,
     mkState
       (mkResults ["proj/a.py"; "proj/pkg/c.py"; "proj/pkg/broken.py"]
          [] [] [] [] [] [] [] None) []).
Proof.
  apply (distinct_signatures_no_duplicate Sample.read).
  - intros p [<-|[<-|[<-|[]]]]; discriminate.
  - simpl. repeat constructor; simpl; intuition discriminate.
Defined.


(** ** The summary of the report *)

Lemma truthy_length {A} (l : list A) :
  Reporter.truthy (List.length l) = true <-> l <> [].
Proof.
  destruct l; simpl; split; intros H;
    first [reflexivity | discriminate | now exfalso; apply H].
Qed.

Lemma for_each_suggestions (l : list string) (lines : list string) :
  for_each l (fun s lines => lines ++ ["- " +++ s]) lines
  = lines ++ map (fun s => "- " +++ s) l.
Proof.
  rewrite (for_each_collect (fun s => ["- " +++ s])). f_equal.
Qed.

Lemma header_not_count (n suffix : string) :
  String.length "Main improvement suggestions:" < String.length suffix ->
  "Main improvement suggestions:" <> n +++ suffix.
Proof.
  intros Hlen Heq. apply (f_equal String.length) in Heq.
  rewrite append_length in Heq. lia.
Qed.

Ltac not_header H :=
  first
    [ discriminate H
    | exfalso; revert H; apply not_eq_sym, header_not_count;
      vm_compute; lia
    | exfalso; symmetry in H; revert H; apply header_not_count;
      vm_compute; lia ].

Lemma summary_lines_header (r : results) :
  In "Main improvement suggestions:" (Reporter.summary_lines r)
  <-> Reporter.truthy (List.length (warnings r))
      || Reporter.truthy (List.length (missing_docstrings r))
      || Reporter.truthy (List.length (pep8 r))
      || Reporter.truthy (List.length (import_cycles r)) = true.
Proof.
  unfold Reporter.summary_lines.
  generalize (PyStr.str_of_nat (List.length (files r))).
  generalize (PyStr.str_of_nat (List.length (errors r))).
  generalize (PyStr.str_of_nat (List.length (warnings r))).
  generalize (PyStr.str_of_nat (List.length (missing_docstrings r))).
  generalize (PyStr.str_of_nat (List.length (pep8 r))).
  generalize (PyStr.str_of_nat (List.length (import_cycles r))).
  generalize (PyStr.str_of_nat (List.length (duplicates r))).
  intros sU sC sP sD sW sE sF.
  destruct (Reporter.truthy (List.length (errors r))),
    (Reporter.truthy (List.length (warnings r))),
    (Reporter.truthy (List.length (missing_docstrings r))),
    (Reporter.truthy (List.length (pep8 r))),
    (Reporter.truthy (List.length (import_cycles r))),
    (Reporter.truthy (List.length (duplicates r)));
    cbn [orb app]; rewrite ?for_each_suggestions; cbn [app map];
    (split;
     [ intros Hin; try reflexivity;
       cbn [In] in Hin;
       repeat (destruct Hin as [Hin|Hin]; [not_header Hin|]);
       destruct Hin
     | intros Hb; try discriminate Hb; cbn [In]; tauto ]).
Qed.

Lemma app_not_nil {A} (l1 l2 : list A) :
  l1 ++ l2 <> [] <-> l1 <> [] \/ l2 <> [].
Proof.
  destruct l1 as [|x l1]; simpl; split.
  - auto.
  - intros [H|H]; [congruence | exact H].
  - intros _. left. discriminate.
  - intros _. discriminate.
Qed.

(** The summary makes suggestions exactly when there is a warning, a missing
    docstring, a style issue or an import cycle; errors and duplicates, however
    many, never lead to a suggestion. *)
Theorem summary_suggests_iff :
  forall r : results,
    In "Main improvement suggestions:" (Reporter.summary_lines r)
    <-> warnings r ++ missing_docstrings r ++ pep8 r ++ import_cycles r
        <> [].
Proof.
  intros r. rewrite summary_lines_header, !orb_true_iff, !truthy_length.
  rewrite !app_not_nil. tauto.
Qed.

Lemma append_assoc (a b c : string) : (a +++ b) +++ c = a +++ b +++ c.
Proof. induction a; simpl; congruence. Qed.

(** For results without any finding, the summary is the count of the
    analyzed files followed by the sentence that no syntax error was
    detected, and nothing else. *)
Theorem clean_project_summary :
  forall r : results,
    all_findings r = [] ->
    Reporter.build_summary r
    = "This project contains " +++ PyStr.str_of_nat (List.length (files r))
      +++ " analyzed Python file(s). "
      +++ "No critical syntax errors were detected.".
Proof.
  intros [f e w c m d ic p g]. unfold all_findings. cbn [errors warnings
    missing_docstrings pep8 import_cycles duplicates files]. intros H.
  repeat (apply app_eq_nil in H; destruct H as [? H]). subst.
  unfold Reporter.build_summary, Reporter.summary_lines, PyStr.join.
  cbn [errors warnings missing_docstrings pep8 import_cycles duplicates
       files List.length Reporter.truthy Nat.eqb negb app String.concat].
  rewrite !append_assoc. reflexivity.
Qed.

Lemma clean_project_summary_witness :
  Reporter.build_summary
    (mkResults ["a.py"; "b.py"] [] [] [("a.py", 1); ("b.py", 3)]
       [] [] [] [] (Some [("a", []); ("b", ["a"])]))
  = "This project contains 2 analyzed Python file(s). "
    +++ "No critical syntax errors were detected.".
Proof.
  apply (clean_project_summary
           (mkResults ["a.py"; "b.py"] [] [] [("a.py", 1); ("b.py", 3)]
              [] [] [] [] (Some [("a", []); ("b", ["a"])]))).
  reflexivity.
Defined.

(** ** The HTML report *)

Lemma for_each_items (items html : list string) :
  for_each items (fun item html => html ++ ["<li>" +++ item +++ "</li>"])
    html
  = html ++ map (fun item => "<li>" +++ item +++ "</li>") items.
Proof.
  rewrite (for_each_collect (fun item => ["<li>" +++ item +++ "</li>"])).
  f_equal.
Qed.

Lemma add_section_html (title : string) (items html : list string) :
  Reporter.add_section title items html = html ++ section_html title items.
Proof.
  unfold Reporter.add_section, section_html.
  destruct items as [|x items].
  - now rewrite <- app_assoc.
  - rewrite for_each_items, <- !app_assoc. reflexivity.
Qed.

Lemma html_lines_sections (title now : string) (r : results) :
  exists head,
    List.length head = 16
    /\ In ("<p>" +++ Reporter.build_summary r +++ "</p>") head
    /\ Reporter.html_lines title now r
       = head
         ++ section_html "Errors" (errors r)
         ++ section_html "Warnings" (warnings r)
         ++ section_html "Missing docstrings" (missing_docstrings r)
         ++ section_html "PEP8 issues" (pep8 r)
         ++ section_html "Import cycles" (import_cycles r)
         ++ section_html "Duplicate code" (duplicates r)
         ++ ["</body></html>"].
Proof.
  unfold Reporter.html_lines. cbv zeta.
  rewrite !add_section_html, <- !app_assoc.
  match goal with
  | |- context [?h ++ section_html "Errors" _ ++ _] => exists h
  end.
  split; [reflexivity|]. split; [do 15 right; now left | reflexivity].
Qed.

Lemma section_html_In (title : string) (items : list string) (x : string) :
  In x items -> In ("<li>" +++ x +++ "</li>") (section_html title items).
Proof.
  intros Hx. destruct items as [|y items]; [destruct Hx|].
  right. right. apply in_or_app. left.
  now apply (in_map (fun item => "<li>" +++ item +++ "</li>")).
Qed.

Lemma section_html_length (title : string) (items : list string) :
  List.length (section_html title items)
  = 2 + List.length items
    + Nat.b2n (negb (List.length items =? 0)%nat).
Proof.
  destruct items; simpl; [reflexivity|].
  rewrite length_app, length_map. simpl. lia.
Qed.

(** Every finding of the results is in the HTML report, as a list item that
    holds its text as it is, together with the summary paragraph.  The
    report has 29 lines, plus one for each finding and one for each kind
    that has findings. *)
Theorem html_lists_every_finding :
  forall (title now : string) (r : results),
    let lines := Reporter.html_lines title now r in
    let kinds := [errors r; warnings r; missing_docstrings r; pep8 r;
                  import_cycles r; duplicates r] in
    (forall x, In x (all_findings r) -> In ("<li>" +++ x +++ "</li>") lines)
    /\ In ("<p>" +++ Reporter.build_summary r +++ "</p>") lines
    /\ List.length lines
       = 29 + List.length (all_findings r)
         + List.length
             (filter (fun l => negb (List.length l =? 0)%nat) kinds).
Proof.
  intros title now r lines kinds. subst lines kinds.
  destruct (html_lines_sections title now r) as [head [Hlen [Hsum ->]]].
  split; [|split].
  - intros x Hx. unfold all_findings in Hx.
    apply in_or_app. right.
    repeat (apply in_app_or in Hx; destruct Hx as [Hx|Hx];
            [apply in_or_app; left; now apply section_html_In
            | apply in_or_app; right]).
    apply in_or_app. left. now apply section_html_In.
  - apply in_or_app. now left.
  - unfold all_findings.
    rewrite !length_app, !section_html_length, Hlen.
    cbn [filter List.length].
    destruct (negb (List.length (errors r) =? 0)%nat),
      (negb (List.length (warnings r) =? 0)%nat),
      (negb (List.length (missing_docstrings r) =? 0)%nat),
      (negb (List.length (pep8 r) =? 0)%nat),
      (negb (List.length (import_cycles r) =? 0)%nat),
      (negb (List.length (duplicates r) =? 0)%nat);
      cbn [Nat.b2n List.length]; lia.
Qed.

(** ** The command [report-html] *)

Section CommandFacts.

Variable os_path_isfile : string -> bool.
Variable os_dir : string -> option dirtree.
Variable open_read : string -> option string.
Variable ast_parse : string -> parse_result.
Variable ast_get_docstring : node -> option string.
Variable can_write : string -> bool.

Local Abbreviation run_analysis :=
  (analyze os_path_isfile os_dir open_read ast_parse ast_get_docstring).
Local Abbreviation command :=
  (Reporter.report_html os_path_isfile os_dir open_read ast_parse
     ast_get_docstring can_write).
Local Abbreviation discovered :=
  (discovered_paths os_path_isfile os_dir).

(** The command writes a report only after a run that has returned, and
    only when the output can be opened for writing; the report is then built
    from the final results of the run.  When the run raises, and so when a
    discovered file cannot be read, the command ends with that exception and
    no file is written. *)
Theorem report_written_after_run :
  forall title now path output_path : string,
    let eff := command title now path output_path in
    let out := run_analysis path in
    (Reporter.outcome_of eff = Reporter.ReportWritten ->
     fst out = Returned tt
     /\ can_write output_path = true
     /\ Reporter.written eff
        = Some (output_path, Reporter.build_html title now (res (snd out))))
    /\ (Reporter.outcome_of eff <> Reporter.ReportWritten ->
        Reporter.written eff = None)
    /\ (forall e, fst out = Raised e ->
          Reporter.outcome_of eff = Reporter.AnalysisRaised e
          /\ Reporter.printed eff = stdout (snd out))
    /\ ((exists p, In p (discovered path) /\ open_read p = None) ->
        (exists e, Reporter.outcome_of eff = Reporter.AnalysisRaised e)
        /\ Reporter.written eff = None).
Proof.
  intros title now path output_path eff out. subst eff out.
  pose proof (unreadable_run_raises os_path_isfile os_dir open_read
                ast_parse ast_get_docstring path) as Hbad.
  unfold Reporter.report_html.
  destruct (run_analysis path) as [[[]|e] st]; cbn [fst snd] in *.
  - destruct (can_write output_path);
      cbn [Reporter.outcome_of Reporter.written Reporter.printed].
    + split; [intros _; repeat split|]. split; [intros H; now elim H|].
      split; [discriminate|].
      intros Hp. destruct (Hbad Hp) as [e He]. discriminate He.
    + split; [discriminate|]. split; [reflexivity|].
      split; [discriminate|].
      intros Hp. destruct (Hbad Hp) as [e He]. discriminate He.
  - cbn [Reporter.outcome_of Reporter.written Reporter.printed].
    split; [discriminate|]. split; [reflexivity|]. split.
    + intros e' [= <-]. split; reflexivity.
    + intros _. split; [now exists e | reflexivity].
Qed.

(** For an invalid root the command still writes a report: the one of a
    fresh analyzer, with zero files and no error, while the error itself is
    only printed. *)
Theorem invalid_root_report :
  forall title now path output_path : string,
    os_path_isfile path && is_source path = false ->
    os_path_isdir os_dir path = false ->
    can_write output_path = true ->
    command title now path output_path
    = Reporter.mkEffects Reporter.ReportWritten
        ["[Analyzer] Starting analysis: " +++ path;
         "[ERROR] Invalid path.";
         "HTML report written to: " +++ output_path]
        (Some (output_path, Reporter.build_html title now init_results))
    /\ Reporter.build_summary init_results
       = "This project contains 0 analyzed Python file(s). "
         +++ "No critical syntax errors were detected."
    /\ section_html "Errors" (errors init_results)
       = ["<h2>Errors</h2>"; "<p>No items.</p>"].
Proof.
  intros title now path output_path Hfile Hdir Hwrite.
  split; [|split; reflexivity].
  unfold Reporter.report_html. rewrite run_as_loop, Hfile, Hdir, Hwrite.
  reflexivity.
Qed.

End CommandFacts.

Lemma invalid_root_report_witness :
  Reporter.written
    (Reporter.report_html Sample.isfile Sample.dir Sample.read Sample.parse
       Sample.get_docstring (fun _ => true) "Report" "today" "missing"
       "out.html")
  = Some ("out.html", Reporter.build_html "Report" "today" init_results).
Proof.
  destruct (invalid_root_report Sample.isfile Sample.dir Sample.read
              Sample.parse Sample.get_docstring (fun _ => true)
              "Report" "today" "missing" "out.html"
              eq_refl eq_refl eq_refl) as [H _].
  rewrite H. reflexivity.
Defined.

(** ** The traversal terminates *)

Lemma report_loop_mono {A}
    (f f' : A -> list string -> option (list string)) (l : list A) :
  (forall x c o, f x c = Some o -> f' x c = Some o) ->
  forall c out,
    fold_left (report_step f) l (Some c) = Some out ->
    fold_left (report_step f') l (Some c) = Some out.
Proof.
  intros Hff'. induction l as [|x l IH]; intros c out; simpl; [auto|].
  destruct (f x c) as [o|] eqn:E.
  - rewrite (Hff' x c o E). apply IH.
  - rewrite report_loop_None. discriminate.
Qed.

Lemma dfs_more_fuel (graph : dict string (list string)) (fuel : nat) :
  forall n path c o,
    dfs fuel graph n path c = Some o ->
    dfs (S fuel) graph n path c = Some o.
Proof.
  induction fuel as [|fuel IH]; intros n path c o; [discriminate|].
  rewrite (dfs_S graph fuel), (dfs_S graph (S fuel)).
  destruct (in_path n path); [auto|].
  apply report_loop_mono. intros x c' o'. apply IH.
Qed.

Lemma dfs_all_more_fuel (graph : dict string (list string)) (fuel k : nat)
    (cycles : list string) :
  dfs_all fuel graph = Some cycles -> dfs_all (k + fuel) graph = Some cycles.
Proof.
  intros Hall. induction k as [|k IH]; [exact Hall|].
  unfold dfs_all in *. cbn [Nat.add].
  revert IH. apply report_loop_mono. intros x c o. apply dfs_more_fuel.
Qed.

(** The traversal of the import graph terminates on every graph, cyclic or
    not: one nested call more than the graph has modules is enough, and a
    larger bound gives the same reports. *)
Theorem import_cycle_detection_terminates :
  forall graph : dict string (list string),
    exists cycles,
      dfs_all (S (List.length graph)) graph = Some cycles
      /\ forall fuel, S (List.length graph) <= fuel ->
                      dfs_all fuel graph = Some cycles.
Proof.
  intros graph. destruct (dfs_all_total graph) as [cycles Hc].
  exists cycles. split; [exact Hc|]. intros fuel Hfuel.
  replace fuel with ((fuel - S (List.length graph)) + S (List.length graph))
    by lia.
  now apply dfs_all_more_fuel.
Qed.

(** ** Nesting warnings and complexity *)

Lemma If_is_counted (n : node) :
  is_If n = true -> is_counted n = true.
Proof.
  destruct n as [c a cs]. rewrite is_If_class. unfold is_counted.
  cbn [node_class]. destruct (ast_class_eq_dec c If) as [->|];
    [reflexivity | discriminate].
Qed.

Lemma filter_length_le {A} (p q : A -> bool) (l : list A) :
  (forall x, p x = true -> q x = true) ->
  List.length (filter p l) <= List.length (filter q l).
Proof.
  intros Hpq. induction l as [|x l IH]; [simpl; lia|].
  simpl. destruct (p x) eqn:E.
  - rewrite (Hpq x E). simpl. lia.
  - destruct (q x); simpl; lia.
Qed.

(** A file that gets a deep-nesting warning has a complexity score of at
    least 6: the two evaluators never disagree in that direction. *)
Theorem deep_nesting_implies_complexity :
  forall (filepath : string) (tree : node) (r : results),
    warnings (_analyze_structure filepath tree r) <> warnings r ->
    6 <= complexity_of tree.
Proof.
  intros filepath tree r Hwarn.
  rewrite complexity_of_counted_points, <- counted_points_subnodes.
  assert (Hcount : 5 <= List.length (filter is_If (subnodes tree))).
  { destruct (Nat.le_gt_cases 5 (List.length (filter is_If (subnodes tree))))
      as [H|H]; [exact H|].
    exfalso. apply Hwarn. apply no_deep_nesting. intros n Hn.
    pose proof (nesting_depth_le_tree tree 4) as Hle.
    apply Hle; [lia | exact Hn]. }
  pose proof (filter_length_le is_If is_counted (subnodes tree)
                If_is_counted).
  lia.
Qed.

Lemma deep_nesting_implies_complexity_witness :
  6 <= complexity_of (nested_ifs 1 5).
Proof.
  apply (deep_nesting_implies_complexity "m.py" (nested_ifs 1 5)
           init_results).
  discriminate.
Defined.

(** ** The size of the style findings *)

(** [_check_pep8] adds at most four issues for each line of the text, and
    none when the text has no line. *)
Theorem pep8_issues_bounded :
  forall (filepath code : string) (r : results),
    exists added,
      pep8 (_check_pep8 filepath code r) = pep8 r ++ added
      /\ List.length added <= 4 * List.length (PyStr.splitlines code).
Proof.
  intros filepath code r. unfold _check_pep8.
  exists (flat_map (line_issues filepath)
            (PyStr.enumerate (PyStr.splitlines code) 1)).
  split; [apply check_pep8_lines|].
  assert (Hlen : forall lines start,
             List.length (flat_map (line_issues filepath)
                            (PyStr.enumerate lines start))
             <= 4 * List.length lines).
  2: { apply Hlen. }
  intros lines. induction lines as [|line lines IH];
    intros start; [simpl; lia|].
  cbn [PyStr.enumerate flat_map]. rewrite length_app, line_issues_length.
  specialize (IH (S start)). cbn [List.length].
  destruct (120 <? String.length line)%nat, (PyStr.endswith line " "),
    (PyStr.search_comma_word line), (PyStr.contains tab line);
    cbn [Nat.b2n]; lia.
Qed.

(** ** The modules of the import graph *)

Section GraphFacts.

Variable os_path_isfile : string -> bool.
Variable os_dir : string -> option dirtree.
Variable open_read : string -> option string.
Variable ast_parse : string -> parse_result.
Variable ast_get_docstring : node -> option string.

Local Abbreviation results_of :=
  (file_results open_read ast_parse ast_get_docstring).
Local Abbreviation run_analysis :=
  (analyze os_path_isfile os_dir open_read ast_parse ast_get_docstring).
Local Abbreviation discovered :=
  (discovered_paths os_path_isfile os_dir).

Lemma dict_keys_set_keep {V} (d : dict string V) k v k' :
  In k' (dict_keys d) -> In k' (dict_keys (dict_set string_dec d k v)).
Proof.
  induction d as [|[k0 v0] d IH]; simpl; [intros []|].
  destruct (string_dec k k0) as [->|Hne]; simpl; [auto|].
  intros [H|H]; [now left | right; auto].
Qed.

Lemma analyze_file_graph_keys (p : string) (r : results) (k : string) :
  In k (dict_keys (get_imports_graph (results_of p r)))
  <-> In k (dict_keys (get_imports_graph r))
      \/ (tree_of open_read ast_parse p <> None /\ module_id p = k).
Proof.
  rewrite (file_results_eq open_read ast_parse ast_get_docstring).
  unfold tree_of.
  destruct (open_read p) as [code|];
    [destruct (ast_parse code) as [tree|e|e]|].
  - unfold _register_imports. cbv zeta.
    unfold set_imports_graph at 1, get_imports_graph at 1.
    cbn [imports_graph].
    assert (Hframe :
      get_imports_graph
        (_check_pep8 p code
           (_analyze_structure p tree
              (_compute_complexity p tree
                 (_analyze_docstrings ast_get_docstring p tree
                    (append_files p r)))))
      = get_imports_graph r).
    { unfold _check_pep8.
      rewrite (for_each_preserves get_imports_graph).
      2:{ intros il s. unfold check_line.
          destruct (120 <? _)%nat, (PyStr.endswith _ _),
            (PyStr.search_comma_word _), (PyStr.contains _ _);
            reflexivity. }
      unfold _analyze_structure.
      rewrite (for_each_preserves get_imports_graph).
      2:{ intros n s. destruct (isinstance n _); [|reflexivity].
          destruct (4 <? _)%nat; reflexivity. }
      unfold _compute_complexity.
      replace (get_imports_graph
                 (if (12 <? complexity_of tree)%nat then _ else _))
        with (get_imports_graph
                (_analyze_docstrings ast_get_docstring p tree
                   (append_files p r)))
        by (destruct (12 <? _)%nat; reflexivity).
      unfold _analyze_docstrings.
      rewrite (for_each_preserves get_imports_graph); [reflexivity|].
      intros n s. destruct (isinstance n _); [|reflexivity].
      destruct (ast_get_docstring n); reflexivity. }
    rewrite Hframe. split.
    + intros Hin. apply dict_keys_set_In in Hin.
      destruct Hin as [->|Hin]; [right; split; [discriminate|reflexivity]
                                | now left].
    + intros [Hin|[_ <-]];
        [now apply dict_keys_set_keep | apply dict_keys_set_self].
  - split; [now left | intros [H|[H _]]; [exact H | now elim H]].
  - split; [now left | intros [H|[H _]]; [exact H | now elim H]].
  - split; [now left | intros [H|[H _]]; [exact H | now elim H]].
Qed.

Lemma loop_graph_keys (paths : list string) (k : string) :
  forall r,
    In k (dict_keys (get_imports_graph (for_each paths results_of r)))
    <-> In k (dict_keys (get_imports_graph r))
        \/ exists p, In p paths
                     /\ tree_of open_read ast_parse p <> None
                     /\ module_id p = k.
Proof.
  induction paths as [|q paths IH]; intros r.
  - split; [now left | intros [H|[p [[] _]]]; exact H].
  - rewrite for_each_cons, IH, analyze_file_graph_keys. split.
    + intros [[H|[Hq Hk]]|[p [Hin Hp]]].
      * now left.
      * right. exists q. split; [now left | auto].
      * right. exists p. split; [now right | exact Hp].
    + intros [H|[p [[<-|Hin] [Hp Hk]]]].
      * left. now left.
      * left. right. auto.
      * right. exists p. auto.
Qed.

(** After a run, whether it returns or raises, every module of the import
    graph is the module name (file name without directory and extension) of
    an analyzed file that could be read and parsed.  When the run returns,
    the modules of the graph are exactly the module names of the discovered
    files that can be read and parse: a file that does not parse adds no
    module, and no module comes from anywhere else. *)
Theorem graph_modules_after_run :
  forall path k : string,
    let out := run_analysis path in
    let keys := dict_keys (get_imports_graph (res (snd out))) in
    (In k keys ->
     exists p, In p (files (res (snd out)))
               /\ tree_of open_read ast_parse p <> None
               /\ module_id p = k)
    /\ (fst out = Returned tt ->
        (In k keys
         <-> exists p, In p (discovered path)
                       /\ tree_of open_read ast_parse p <> None
                       /\ module_id p = k)).
Proof.
  intros path k out keys. subst out keys.
  assert (Hkeys :
    In k (dict_keys (get_imports_graph (res (snd (run_analysis path)))))
    <-> exists p,
          In p (files (res (snd (run_analysis path))))
          /\ tree_of open_read ast_parse p <> None /\ module_id p = k).
  { rewrite (run_files os_path_isfile os_dir open_read ast_parse
               ast_get_docstring).
    destruct (run_file_findings os_path_isfile os_dir open_read ast_parse
                ast_get_docstring path) as [_ [_ [_ [_ [_ [_ H]]]]]].
    unfold get_imports_graph at 1. rewrite H.
    match goal with
    | |- context [imports_graph ?r] => fold (get_imports_graph r)
    end.
    rewrite loop_graph_keys. split; [|now right].
    intros [[]|H']; exact H'. }
  split; [apply Hkeys|].
  intros Hret. rewrite Hkeys.
  rewrite (run_files os_path_isfile os_dir open_read ast_parse
             ast_get_docstring).
  destruct (run_returned os_path_isfile os_dir open_read ast_parse
              ast_get_docstring path Hret) as [-> _].
  reflexivity.
Qed.

End GraphFacts.
